(** * hedera-defi-js: the request / cache / normalisation layer of [HederaDeFi]

    A shallow embedding of [src/clients/HederaDeFi.ts] and of the helpers it
    imports from [src/utils], with the properties the specification states
    about them.

    Conventions of the embedding.
    - A JavaScript number is an exact rational or [NaN].  Rounding, signed
      zero and the two infinities are not represented; every arithmetic
      result is kept in lowest terms, so that equal numbers are equal terms.
      A statement about a parsed numeral or a sum names the range in which
      the exact value is what the engine computes (integers below 2^53,
      sums up to 2^1023).
    - A conversion to a string ([parseInt], [+] with a string, a template
      literal, [toLocaleString]) can throw: an object of a response body
      that holds an own property [toString] has nothing callable to convert
      it, and the engine raises a [TypeError].
    - A parsed response body is a [value]: the JSON data model plus
      [undefined].
    - A string is a sequence of 8-bit code units.
    - Instants ([Date.now()], cache timestamps) are whole milliseconds.
    - An [async] method is a state transformer over the client's mutable
      fields and the outside world (clock and network); it either returns
      or throws.  Console output is not modelled, apart from the
      conversions a log line makes of what it prints, which can throw. *)

From Stdlib Require Import ZArith QArith Qabs String Ascii List Lia.
From Stdlib Require Import DecimalString DecimalN DecimalPos.
From stdpp Require Import gmap strings list fin_maps.

Set Warnings "-register-all".
Local Open Scope Z_scope.

(** ** Numbers *)

Inductive number :=
| NaN
| Fin (q : Q).

Definition num_of_Z (z : Z) : number := Fin (inject_Z z).

Definition num_add (a b : number) : number :=
  match a, b with
  | Fin x, Fin y => Fin (Qred (x + y))
  | _, _ => NaN
  end.

Definition num_mul (a b : number) : number :=
  match a, b with
  | Fin x, Fin y => Fin (Qred (x * y))
  | _, _ => NaN
  end.

(** The quotient by zero is an infinity (or [NaN] for 0/0) in JavaScript;
    no call site of the client divides by zero, and the model answers [NaN]. *)
Definition num_div (a b : number) : number :=
  match a, b with
  | Fin x, Fin y => if Qeq_bool y 0 then NaN else Fin (Qred (x / y))
  | _, _ => NaN
  end.

(** [a > b]; any comparison with [NaN] is false. *)
Definition num_gt (a b : number) : bool :=
  match a, b with
  | Fin x, Fin y => negb (Qle_bool x y)
  | _, _ => false
  end.

Definition isNaN (a : number) : bool :=
  match a with NaN => true | Fin _ => false end.

(** A number is falsy when it is 0 or [NaN]. *)
Definition num_truthy (a : number) : bool :=
  match a with
  | NaN => false
  | Fin q => negb (Qeq_bool q 0)
  end.

(** ** Values *)

Inductive value :=
| VUndefined
| VNull
| VBool (b : bool)
| VNum (n : number)
| VStr (s : string)
| VArr (elems : list value)
| VObj (props : list (string * value)).

(** The empty object literal [{}]. *)
Definition empty_object : value := VObj [].

Definition truthy (v : value) : bool :=
  match v with
  | VUndefined | VNull => false
  | VBool b => b
  | VNum n => num_truthy n
  | VStr s => negb (String.eqb s "")
  | VArr _ | VObj _ => true
  end.

(** [a || b] *)
Definition or_else (a b : value) : value := if truthy a then a else b.

(** [typeof v === 'object'] *)
Definition typeof_object (v : value) : bool :=
  match v with
  | VNull | VArr _ | VObj _ => true
  | _ => false
  end.

(** The own properties of an object are listed once each. *)
Fixpoint assoc (k : string) (props : list (string * value)) : value :=
  match props with
  | [] => VUndefined
  | (k', v) :: rest => if String.eqb k k' then v else assoc k rest
  end.

Definition nullish (v : value) : bool :=
  match v with
  | VUndefined | VNull => true
  | _ => false
  end.

(** [v?.k], which is [v.k] whenever [v] is neither [undefined] nor [null]
    (there [v.k] is a [TypeError]).  The keys the client reads are names of
    upstream fields, never of built-in properties, so a primitive or an
    array has none of them. *)
Definition get (v : value) (k : string) : value :=
  match v with
  | VObj props => assoc k props
  | _ => VUndefined
  end.

(** Whether an object has an own property of the given name.  A property
    of a parsed body is data, never a function: an own [toString] hides the
    inherited method and cannot be called. *)
Definition has_own (name : string) (props : list (string * value)) : bool :=
  existsb (fun p => String.eqb p.1 name) props.

(** ** Strings: the scanners behind [parseInt] and [parseFloat] *)

Definition is_digit (c : ascii) : bool :=
  let n := N_of_ascii c in ((48 <=? n) && (n <=? 57))%N.

(** White space among the 8-bit code units: TAB, LF, VT, FF, CR, SP, NBSP. *)
Definition is_whitespace (c : ascii) : bool :=
  let n := N_of_ascii c in
  (((9 <=? n) && (n <=? 13)) || (n =? 32) || (n =? 160))%N.

(** The value of [c] as a digit of the given radix (10 or 16). *)
Definition radix_digit (radix : N) (c : ascii) : option N :=
  let n := N_of_ascii c in
  if ((48 <=? n) && (n <=? 57))%N then Some (n - 48)%N
  else if (radix =? 16)%N then
    if ((97 <=? n) && (n <=? 102))%N then Some (n - 87)%N
    else if ((65 <=? n) && (n <=? 70))%N then Some (n - 55)%N
    else None
  else None.

Fixpoint trim_start (s : string) : string :=
  match s with
  | String c rest => if is_whitespace c then trim_start rest else s
  | EmptyString => s
  end.

(** An optional leading sign: the sign as 1 or -1, and what follows it. *)
Definition strip_sign (s : string) : Z * string :=
  match s with
  | String "-" rest => (-1, rest)
  | String "+" rest => (1, rest)
  | _ => (1, s)
  end.

Definition strip_radix_prefix (s : string) : N * string :=
  match s with
  | String "0" (String "x" rest) => (16%N, rest)
  | String "0" (String "X" rest) => (16%N, rest)
  | _ => (10%N, s)
  end.

(** The value of the longest prefix of radix digits, continuing from [acc]. *)
Fixpoint digits_acc (radix : N) (s : string) (acc : N) : N :=
  match s with
  | String c rest =>
      match radix_digit radix c with
      | Some d => digits_acc radix rest (radix * acc + d)%N
      | None => acc
      end
  | EmptyString => acc
  end.

(** [None] when [s] does not start with a digit. *)
Definition digits_prefix_value (radix : N) (s : string) : option N :=
  match s with
  | String c _ =>
      match radix_digit radix c with
      | Some _ => Some (digits_acc radix s 0)
      | None => None
      end
  | EmptyString => None
  end.

(** [parseInt(s)] on a string, no radix argument.  The value is the exact
    integer the digits denote; the engine rounds it to a double, which is
    another number from 2^53 on. *)
Definition parseInt_string (s : string) : number :=
  let '(sign, s1) := strip_sign (trim_start s) in
  let '(radix, s2) := strip_radix_prefix s1 in
  match digits_prefix_value radix s2 with
  | Some n => num_of_Z (sign * Z.of_N n)
  | None => NaN
  end.

(** The longest prefix of decimal digits, and the rest. *)
Fixpoint span_digits (s : string) : string * string :=
  match s with
  | String c rest =>
      if is_digit c
      then let '(ds, tl) := span_digits rest in (String c ds, tl)
      else (EmptyString, s)
  | EmptyString => (EmptyString, EmptyString)
  end.

(** The exponent part [e±ddd] at the head of [s]; 0 when there is none. *)
Definition exponent_part (s : string) : Z :=
  match s with
  | String c rest =>
      if (Ascii.eqb c "e" || Ascii.eqb c "E")%bool then
        let '(esign, r) := strip_sign rest in
        match digits_prefix_value 10 r with
        | Some n => esign * Z.of_N n
        | None => 0
        end
      else 0
  | EmptyString => 0
  end.

(** [parseFloat(s)] on a string: the longest prefix that is a decimal
    literal, [NaN] when there is none.  The value is the exact decimal; the
    engine rounds it to a double.  The word [Infinity], which JavaScript
    also reads, has no value here and yields [NaN]. *)
Definition parseFloat_string (s : string) : number :=
  let '(sign, s1) := strip_sign (trim_start s) in
  let '(int_part, s2) := span_digits s1 in
  let '(frac_part, s3) :=
    match s2 with
    | String "." rest => span_digits rest
    | _ => (EmptyString, s2)
    end in
  if (String.eqb int_part "" && String.eqb frac_part "")%bool then NaN
  else
    let mantissa := Z.of_N (digits_acc 10 (int_part +:+ frac_part) 0) in
    let exponent := exponent_part s3 - Z.of_nat (String.length frac_part) in
    Fin (Qred (inject_Z (sign * mantissa) * Qpower 10 exponent)).

(** The decimal numeral of a natural number. *)
Definition decimal (n : N) : string := NilZero.string_of_uint (N.to_uint n).

(** [s.replace(/[$,]/g, '')] *)
Fixpoint remove_dollar_comma (s : string) : string :=
  match s with
  | String c rest =>
      if (Ascii.eqb c "$" || Ascii.eqb c ",")%bool
      then remove_dollar_comma rest
      else String c (remove_dollar_comma rest)
  | EmptyString => EmptyString
  end.

(** ** Regular expressions

    [validateAccountId] tests its argument against a regular expression
    literal.  Patterns are matched with Brzozowski derivatives; a pattern
    anchored by [^] and [$] (no [m] flag) has to match the whole string. *)

Inductive regex :=
| Void
| Eps
| Lit (c : ascii)
| Digit
| Cat (r1 r2 : regex)
| Alt (r1 r2 : regex)
| Star (r : regex).

(** [r+] *)
Definition Plus (r : regex) : regex := Cat r (Star r).

Fixpoint nullable (r : regex) : bool :=
  match r with
  | Void | Lit _ | Digit => false
  | Eps | Star _ => true
  | Cat r1 r2 => nullable r1 && nullable r2
  | Alt r1 r2 => nullable r1 || nullable r2
  end.

Fixpoint deriv (c : ascii) (r : regex) : regex :=
  match r with
  | Void | Eps => Void
  | Lit c' => if Ascii.eqb c c' then Eps else Void
  | Digit => if is_digit c then Eps else Void
  | Cat r1 r2 =>
      if nullable r1
      then Alt (Cat (deriv c r1) r2) (deriv c r2)
      else Cat (deriv c r1) r2
  | Alt r1 r2 => Alt (deriv c r1) (deriv c r2)
  | Star r1 => Cat (deriv c r1) (Star r1)
  end.

(** [/^r$/.test(s)] *)
Fixpoint regex_test (r : regex) (s : string) : bool :=
  match s with
  | EmptyString => nullable r
  | String c rest => regex_test (deriv c r) rest
  end.

(** ** [src/utils]: the helpers the client imports *)

Fixpoint all_digits (s : string) : bool :=
  match s with
  | EmptyString => true
  | String c rest => is_digit c && all_digits rest
  end.

(** The form the specification gives for account identifiers,
    [shard.realm.num]: three decimal integers separated by dots. *)
Definition shard_realm_num_pattern : regex :=
  Cat (Plus Digit) (Cat (Lit ".") (Cat (Plus Digit) (Cat (Lit ".") (Plus Digit)))).

(** [/^0\.0\.\d+$/] *)
Definition account_id_pattern : regex :=
  Cat (Lit "0") (Cat (Lit ".") (Cat (Lit "0") (Cat (Lit ".") (Plus Digit)))).

Definition validateAccountId (accountId : string) : bool :=
  regex_test account_id_pattern accountId.

(** ** Data model ([src/types])

    Each interface is a record in a module of its name.  A field that the
    client fills with whatever the upstream sent, unchecked, is a [value]. *)

Module HederaDeFiConfig.
Record t := {
  apiKey : option string;
  endpoint : option string;
  cacheTtl : option Z;
  bonzoApi : option string;
  saucerswapApi : option string;
  timeout : option Z }.
End HederaDeFiConfig.

Module CacheEntry.
Record t := { data : value; timestamp : Z }.
End CacheEntry.

Module NetworkSupply.
Record t := {
  totalSupply : number;
  circulatingSupply : number;
  timestamp : Z }.
End NetworkSupply.

Module NetworkNode.
Record t := {
  nodeId : value;
  nodeAccountId : value;
  description : value;
  stake : value;
  stakeNotRewarded : value;
  stakeRewarded : value;
  stakePercentage : value }.
End NetworkNode.

Module ExchangeRate.
Record t := { centEquiv : value; hbarEquiv : value; expirationTime : value }.
End ExchangeRate.

Module NetworkExchangeRate.
Record t := {
  currentRate : ExchangeRate.t;
  nextRate : option ExchangeRate.t;
  timestamp : Z }.
End NetworkExchangeRate.

Module Balance.
Record t := { balance : number; timestamp : value }.
End Balance.

Module AccountInfo.
Record t := {
  account : value;
  alias : value;
  balance : Balance.t;
  createdTimestamp : value;
  declineReward : value;
  deleted : value;
  ethereumNonce : value;
  evmAddress : value;
  key : value;
  maxAutomaticTokenAssociations : value;
  memo : value;
  pendingReward : value;
  receiverSigRequired : value;
  stakedAccountId : value;
  stakedNodeId : value;
  stakePeriodStart : value }.
End AccountInfo.

Module BonzoReserve.
Record t := {
  symbol : value;
  name : value;
  active : value;
  supplyApy : value;
  variableBorrowApy : value;
  stableBorrowApy : value;
  utilizationRate : value;
  availableLiquidity : value;
  totalBorrowableLiquidity : value;
  ltv : value;
  liquidationThreshold : value;
  liquidationBonus : value;
  variableBorrowingEnabled : value;
  stableBorrowingEnabled : value }.
End BonzoReserve.

Module BonzoMarketData.
Record t := {
  chainId : value;
  networkName : value;
  totalMarketSupplied : value;
  totalMarketBorrowed : value;
  totalMarketLiquidity : value;
  totalMarketReserve : value;
  reserves : list BonzoReserve.t;
  timestamp : value }.
End BonzoMarketData.

(** The object [getBonzoTotalMarkets] builds from a market record. *)
Module BonzoTotalMarkets.
Record t := {
  chainId : value;
  networkName : value;
  totalMarketSupplied : value;
  totalMarketBorrowed : value;
  totalMarketLiquidity : value;
  totalMarketReserve : value;
  timestamp : value;
  totalReserves : nat }.
End BonzoTotalMarkets.

(** The object [getCrossProtocolLiquiditySummary] returns. *)
Module SaucerSwapSummary.
Record t := {
  tvlUsd : value;
  poolCount : nat;
  activePools : nat;
  protocolType : string }.
End SaucerSwapSummary.

Module BonzoSummary.
Record t := {
  tvlUsd : number;
  reserveCount : nat;
  activeReserves : nat;
  protocolType : string }.
End BonzoSummary.

Module ProtocolDistribution.
Record t := { dexPercentage : number; lendingPercentage : number }.
End ProtocolDistribution.

Module Performance.
Record t := { totalTime : Z; saucerswapTime : Z; bonzoTime : Z }.
End Performance.

Module LiquiditySummary.
Record t := {
  totalLiquidityUsd : value;
  saucerswap : SaucerSwapSummary.t;
  bonzoFinance : BonzoSummary.t;
  protocolDistribution : ProtocolDistribution.t;
  timestamp : string;
  performance : Performance.t }.
End LiquiditySummary.

(** The fields of a [HederaDeFi] instance; [cache] and [callCounts] are
    the mutable ones.  The TTL is in seconds, the timeout in milliseconds. *)
Module HederaDeFi.
Record t := {
  endpoint : string;
  bonzoApi : string;
  saucerswapApi : string;
  cacheTtl : Z;
  timeout : Z;
  cache : gmap string CacheEntry.t;
  callCounts : gmap string nat }.

Definition set_cache (c : gmap string CacheEntry.t) (this : t) : t :=
  {| endpoint := endpoint this; bonzoApi := bonzoApi this;
     saucerswapApi := saucerswapApi this; cacheTtl := cacheTtl this;
     timeout := timeout this; cache := c; callCounts := callCounts this |}.

Definition set_callCounts (n : gmap string nat) (this : t) : t :=
  {| endpoint := endpoint this; bonzoApi := bonzoApi this;
     saucerswapApi := saucerswapApi this; cacheTtl := cacheTtl this;
     timeout := timeout this; cache := cache this; callCounts := n |}.

(** [this.callCounts[methodName] || 0] *)
Definition callCount (this : t) (methodName : string) : nat :=
  default 0%nat (callCounts this !! methodName).
End HederaDeFi.

(** ** The host

    What the client takes from its environment and the repository does not
    define: three operations of the JavaScript engine, [JSON.stringify], and
    the transport behind the axios instance. *)

(** The header sets of the three request methods. *)
Inductive HeaderSet :=
| DefaultHeaders
| SaucerSwapHeaders
| BonzoHeaders.

Record Request := {
  url : string;
  params : option value;
  headers : HeaderSet }.

(** How [httpClient.get] settles: resolved with a response, rejected with an
    axios error ([error.code], [error.response?.status]), or rejected with
    anything else ([error.message]). *)
Inductive HttpOutcome :=
| Response (status : Z) (data : value)
| AxiosError (code : option string) (status : option Z)
| OtherError (message : string).

Record Host := {
  (** [Number::toString] of a number that is not [NaN] *)
  Number_toString : Q -> string;
  (** [StringToNumber], the conversion behind [Number(s)] *)
  StringToNumber : string -> number;
  JSON_stringify : value -> string;
  Date_toISOString : Z -> string;
  (** the outcome of a GET issued at a given instant, and the milliseconds
      that pass until it settles *)
  http_get : Request -> Z -> HttpOutcome * Z }.

(** The world outside the client: the clock [Date.now()] reads, and the
    GET requests issued so far, oldest first. *)
Record World := {
  clock : Z;
  requests : list Request }.

(** ** Methods as state transformers *)

Inductive error :=
| Error (message : string)
| TypeError.

Inductive outcome (A : Type) :=
| Returned (a : A)
| Thrown (e : error).
Arguments Returned {A} a.
Arguments Thrown {A} e.

Definition M (A : Type) : Type :=
  HederaDeFi.t -> World -> outcome A * HederaDeFi.t * World.

Definition ret {A} (a : A) : M A := fun this w => (Returned a, this, w).

Definition throw {A} (e : error) : M A := fun this w => (Thrown e, this, w).

Definition bind {A B} (m : M A) (k : A -> M B) : M B :=
  fun this w =>
    match m this w with
    | (Returned a, this', w') => k a this' w'
    | (Thrown e, this', w') => (Thrown e, this', w')
    end.

Notation "x <- m ;; k" := (bind m (fun x => k))
  (at level 100, m at next level, right associativity).
Notation "m ;; k" := (bind m (fun _ => k))
  (at level 100, right associativity).

(** The result of a pure computation that may throw. *)
Definition lift {A} (o : outcome A) : M A := fun this w => (o, this, w).

Definition get_this : M HederaDeFi.t := fun this w => (Returned this, this, w).

Definition Date_now : M Z := fun this w => (Returned (clock w), this, w).

Definition result_of {A} (r : outcome A * HederaDeFi.t * World) : outcome A := r.1.1.
Definition client_of {A} (r : outcome A * HederaDeFi.t * World) : HederaDeFi.t := r.1.2.
Definition world_of {A} (r : outcome A * HederaDeFi.t * World) : World := r.2.

(** The client after [m] has been invoked once in each of the worlds [ws],
    in that order. *)
Fixpoint after_invocations {A} (m : M A) (ws : list World) (this : HederaDeFi.t)
  : HederaDeFi.t :=
  match ws with
  | [] => this
  | w :: rest => after_invocations m rest (client_of (m this w))
  end.

(** A computation that leaves the call counts as they are. *)
Definition keeps_counts {A} (m : M A) : Prop :=
  forall this w,
    HederaDeFi.callCounts (client_of (m this w)) = HederaDeFi.callCounts this.

(** Sequencing of pure computations that may throw. *)
Definition and_then {A B} (o : outcome A) (k : A -> outcome B) : outcome B :=
  match o with
  | Returned a => k a
  | Thrown e => Thrown e
  end.

Definition is_thrown {A} (o : outcome A) : bool :=
  match o with
  | Thrown _ => true
  | Returned _ => false
  end.

(** [array.map(f)] for a callback that may throw. *)
Fixpoint map_outcome {A B} (f : A -> outcome B) (l : list A) : outcome (list B) :=
  match l with
  | [] => Returned []
  | x :: rest =>
      match f x with
      | Thrown e => Thrown e
      | Returned y =>
          match map_outcome f rest with
          | Thrown e => Thrown e
          | Returned ys => Returned (y :: ys)
          end
      end
  end.

(** The elements of an array are converted from left to right; [undefined]
    and [null] elements are passed over. *)
Section Elements.

Context {A : Type} (convert : value -> outcome A) (empty : A) (glue : A -> A -> A).

Fixpoint join_with (l : list value) : outcome A :=
  match l with
  | [] => Returned empty
  | x :: rest =>
      and_then (if nullish x then Returned empty else convert x) (fun sx =>
        match rest with
        | [] => Returned sx
        | _ => and_then (join_with rest) (fun srest => Returned (glue sx srest))
        end)
  end.

End Elements.

Section Client.

Context (host : Host).

(** *** Conversions

    The conversion of an object to a primitive calls its [toString] (the
    inherited [valueOf] returns the object itself and is passed over,
    whichever of the two is tried first).  On an object with an own
    property [toString] there is no method to call and the conversion is a
    [TypeError]; the conversion of an array converts its elements. *)

Fixpoint ToString (v : value) : outcome string :=
  match v with
  | VUndefined => Returned "undefined"
  | VNull => Returned "null"
  | VBool true => Returned "true"
  | VBool false => Returned "false"
  | VNum NaN => Returned "NaN"
  | VNum (Fin q) => Returned (Number_toString host q)
  | VStr s => Returned s
  | VArr elems => join_with ToString "" (fun sx srest => sx +:+ "," +:+ srest) elems
  | VObj props =>
      if has_own "toString" props then Thrown TypeError
      else Returned "[object Object]"
  end.

Definition ToNumber (v : value) : outcome number :=
  match v with
  | VUndefined => Returned NaN
  | VNull => Returned (Fin 0)
  | VBool b => Returned (Fin (if b then 1 else 0))
  | VNum n => Returned n
  | VStr s => Returned (StringToNumber host s)
  | VArr _ => and_then (ToString v) (fun s => Returned (StringToNumber host s))
  | VObj _ => and_then (ToString v) (fun _ => Returned NaN)
  end.

Definition ToPrimitive (v : value) : outcome value :=
  match v with
  | VArr _ | VObj _ => and_then (ToString v) (fun s => Returned (VStr s))
  | _ => Returned v
  end.

(** [parseInt(v)] converts its argument to a string first. *)
Definition parseInt (v : value) : outcome number :=
  and_then (ToString v) (fun s => Returned (parseInt_string s)).

(** [a + b] *)
Definition js_add (a b : value) : outcome value :=
  and_then (ToPrimitive a) (fun pa =>
  and_then (ToPrimitive b) (fun pb =>
    match pa, pb with
    | VStr s, q => and_then (ToString q) (fun t => Returned (VStr (s +:+ t)))
    | p, VStr s => and_then (ToString p) (fun t => Returned (VStr (t +:+ s)))
    | p, q =>
        and_then (ToNumber p) (fun x =>
        and_then (ToNumber q) (fun y => Returned (VNum (num_add x y))))
    end)).

(** [v.toLocaleString()] for a [v] that is neither [undefined] nor [null]:
    whether the call returns (the string it returns is only logged).  The
    method of an object calls its [toString]; the method of an array calls
    the method of each element. *)
Fixpoint toLocaleString (v : value) : outcome unit :=
  match v with
  | VArr elems => join_with toLocaleString tt (fun _ _ => tt) elems
  | VObj props =>
      if has_own "toLocaleString" props || has_own "toString" props
      then Thrown TypeError
      else Returned tt
  | _ => Returned tt
  end.

(** [new Date(ms)]: its time value, [None] for an invalid date. *)
Definition new_Date (ms : number) : option Z :=
  match ms with
  | NaN => None
  | Fin q =>
      if Qle_bool (Qabs q) 8640000000000000
      then Some (Z.quot (Qnum q) (Zpos (Qden q)))
      else None
  end.

(** *** [parseTimestamp] *)

Definition parseTimestamp (timestamp : value) : option Z :=
  match timestamp with
  | VUndefined | VNull | VStr EmptyString => None
  | _ =>
      match
        match timestamp with
        | VStr s => Returned (parseInt_string s)
        | _ => ToNumber timestamp
        end
      with
      | Thrown _ => None (* caught *)
      | Returned timestampNum =>
          if isNaN timestampNum then None
          else
            let milliseconds := num_div timestampNum (Fin 1000000) in
            new_Date milliseconds
      end
  end.

(** *** [parseUsdValue]

    The [catch] branch is taken when [usdString] is not a string: it then
    has no [replace] method and the call is a [TypeError].  [parseFloat]
    itself never throws. *)
Definition parseUsdValue (usdString : value) : number :=
  if negb (truthy usdString) then Fin 0
  else
    match usdString with
    | VStr "0" => Fin 0
    | VStr s => parseFloat_string (remove_dollar_comma s)
    | _ => Fin 0
    end.

(** *** The constructor *)

Definition or_default {A} (falsy : A -> bool) (o : option A) (d : A) : A :=
  match o with
  | Some x => if falsy x then d else x
  | None => d
  end.

Definition new_HederaDeFi (config : HederaDeFiConfig.t) : HederaDeFi.t :=
  let empty s := String.eqb s "" in
  {| HederaDeFi.endpoint :=
       or_default empty (HederaDeFiConfig.endpoint config)
         "https://mainnet-public.mirrornode.hedera.com/api/v1";
     HederaDeFi.bonzoApi :=
       or_default empty (HederaDeFiConfig.bonzoApi config)
         "https://mainnet-data.bonzo.finance";
     HederaDeFi.saucerswapApi :=
       or_default empty (HederaDeFiConfig.saucerswapApi config)
         "https://server.saucerswap.finance/api/public";
     HederaDeFi.cacheTtl :=
       or_default (Z.eqb 0) (HederaDeFiConfig.cacheTtl config) 60;
     HederaDeFi.timeout :=
       or_default (Z.eqb 0) (HederaDeFiConfig.timeout config) 30000;
     HederaDeFi.cache := ∅;
     HederaDeFi.callCounts := ∅ |}.

(** *** Core request methods *)

(** [this.httpClient.get(url, config)], awaited: the request is recorded,
    the clock moves to the instant the promise settles. *)
Definition httpClient_get (req : Request) : M HttpOutcome :=
  fun this w =>
    let '(out, elapsed) := http_get host req (clock w) in
    (Returned out, this,
     {| clock := clock w + elapsed; requests := requests w ++ [req] |}).

(** The block under [// Check cache]: the cached payload when there is an
    entry and it is fresh. *)
Definition check_cache (cacheKey : string) : M (option value) :=
  this <- get_this ;;
  now <- Date_now ;;
  match HederaDeFi.cache this !! cacheKey with
  | Some cached =>
      if now - CacheEntry.timestamp cached <? HederaDeFi.cacheTtl this * 1000
      then ret (Some (CacheEntry.data cached))
      else ret None
  | None => ret None
  end.

(** [this.cache.set(cacheKey, { data, timestamp: Date.now() })] *)
Definition cache_set (cacheKey : string) (data : value) : M unit :=
  fun this w =>
    (Returned tt,
     HederaDeFi.set_cache
       (<[cacheKey := {| CacheEntry.data := data; CacheEntry.timestamp := clock w |}]>
          (HederaDeFi.cache this)) this,
     w).

Definition request (path : string) (params : option value) : M value :=
  if String.eqb path "" then throw (Error "Path cannot be empty")
  else
    let cacheKey :=
      path +:+ ":" +:+ JSON_stringify host (default empty_object params) in
    hit <- check_cache cacheKey ;;
    match hit with
    | Some data => ret data
    | None =>
        this <- get_this ;;
        let url := HederaDeFi.endpoint this +:+ "/" +:+ path in
        response <- httpClient_get
          {| url := url; params := params; headers := DefaultHeaders |} ;;
        match response with
        | Response status data =>
            if (status =? 200) && truthy data
            then cache_set cacheKey data ;; ret data
            else ret empty_object
        | AxiosError _ _ | OtherError _ => ret empty_object
        end
    end.

Definition saucerswapRequest (path : string) : M value :=
  let cacheKey := "saucer:" +:+ path in
  hit <- check_cache cacheKey ;;
  match hit with
  | Some data => ret data
  | None =>
      this <- get_this ;;
      let url := HederaDeFi.saucerswapApi this +:+ "/" +:+ path in
      response <- httpClient_get
        {| url := url; params := None; headers := SaucerSwapHeaders |} ;;
      match response with
      | Response status data =>
          if (status =? 200) && truthy data
          then cache_set cacheKey data ;; ret data
          else ret (or_else data empty_object)
      | AxiosError _ _ | OtherError _ => ret empty_object
      end
  end.

Definition bonzoRequest (path : string) : M value :=
  let cacheKey := "bonzo:" +:+ path in
  hit <- check_cache cacheKey ;;
  match hit with
  | Some data => ret data
  | None =>
      this <- get_this ;;
      let url := HederaDeFi.bonzoApi this +:+ "/" +:+ path in
      response <- httpClient_get
        {| url := url; params := None; headers := BonzoHeaders |} ;;
      match response with
      | Response status data =>
          if (status =? 200) && truthy data
          then cache_set cacheKey data ;; ret data
          else ret (or_else data empty_object)
      | AxiosError _ _ | OtherError _ => ret empty_object
      end
  end.

(** *** Utility methods *)

Definition trackCall (methodName : string) : M unit :=
  fun this w =>
    (Returned tt,
     HederaDeFi.set_callCounts
       (<[methodName := (HederaDeFi.callCount this methodName + 1)%nat]>
          (HederaDeFi.callCounts this)) this,
     w).

(** Every key is deleted. *)
Definition resetCallCounts : M unit :=
  fun this w => (Returned tt, HederaDeFi.set_callCounts ∅ this, w).

Definition clearCache : M unit :=
  fun this w => (Returned tt, HederaDeFi.set_cache ∅ this, w).

(** *** Network methods *)

Definition getNetworkSupply : M NetworkSupply.t :=
  trackCall "getNetworkSupply" ;;
  data <- request "network/supply" None ;;
  now <- Date_now ;;
  if truthy data && typeof_object data then
    totalSupply <- lift (parseInt (or_else (get data "total_supply") (VStr "0"))) ;;
    circulatingSupply <-
      lift (parseInt (or_else (get data "released_supply") (VStr "0"))) ;;
    ret {| NetworkSupply.totalSupply := num_div totalSupply (Fin 100000000);
           NetworkSupply.circulatingSupply := num_div circulatingSupply (Fin 100000000);
           NetworkSupply.timestamp :=
             default now (parseTimestamp (get data "timestamp")) |}
  else
    ret {| NetworkSupply.totalSupply := Fin 0;
           NetworkSupply.circulatingSupply := Fin 0;
           NetworkSupply.timestamp := now |}.

(** The callback of [data.nodes.map]; reading a field of a [null] element
    is a [TypeError]. *)
Definition to_NetworkNode (node : value) : outcome NetworkNode.t :=
  if nullish node then Thrown TypeError
  else
    Returned
      {| NetworkNode.nodeId := or_else (get node "node_id") (VNum (Fin 0));
         NetworkNode.nodeAccountId := or_else (get node "node_account_id") (VStr "");
         NetworkNode.description := get node "description";
         NetworkNode.stake := get node "stake";
         NetworkNode.stakeNotRewarded := get node "stake_not_rewarded";
         NetworkNode.stakeRewarded := get node "stake_rewarded";
         NetworkNode.stakePercentage := get node "stake_percentage" |}.

Definition getNetworkNodes : M (list NetworkNode.t) :=
  trackCall "getNetworkNodes" ;;
  data <- request "network/nodes" None ;;
  if truthy data then
    match get data "nodes" with
    | VArr nodes => lift (map_outcome to_NetworkNode nodes)
    | _ => ret []
    end
  else ret [].

Definition to_ExchangeRate (rate : value) : ExchangeRate.t :=
  {| ExchangeRate.centEquiv := or_else (get rate "cent_equiv") (VNum (Fin 0));
     ExchangeRate.hbarEquiv := or_else (get rate "hbar_equiv") (VNum (Fin 0));
     ExchangeRate.expirationTime := or_else (get rate "expiration_time") (VStr "") |}.

Definition getNetworkExchangeRate : M (option NetworkExchangeRate.t) :=
  data <- request "network/exchangerate" None ;;
  now <- Date_now ;;
  if truthy data && truthy (get data "current_rate") then
    ret (Some
      {| NetworkExchangeRate.currentRate := to_ExchangeRate (get data "current_rate");
         NetworkExchangeRate.nextRate :=
           if truthy (get data "next_rate")
           then Some (to_ExchangeRate (get data "next_rate"))
           else None;
         NetworkExchangeRate.timestamp :=
           default now (parseTimestamp (get data "timestamp")) |})
  else ret None.

(** *** Account methods *)

Definition getAccountInfo (accountId : string) : M (option AccountInfo.t) :=
  if negb (validateAccountId accountId)
  then throw (Error ("Invalid account ID format: " +:+ accountId))
  else
    data <- request ("accounts/" +:+ accountId) None ;;
    if truthy data && typeof_object data then
      balance <-
        lift (parseInt (or_else (get (get data "balance") "balance") (VStr "0"))) ;;
      ret (Some
        {| AccountInfo.account := or_else (get data "account") (VStr accountId);
           AccountInfo.alias := get data "alias";
           AccountInfo.balance :=
             {| Balance.balance := balance;
                Balance.timestamp :=
                  or_else (get (get data "balance") "timestamp") (VStr "") |};
           AccountInfo.createdTimestamp := or_else (get data "created_timestamp") (VStr "");
           AccountInfo.declineReward := get data "decline_reward";
           AccountInfo.deleted := get data "deleted";
           AccountInfo.ethereumNonce := get data "ethereum_nonce";
           AccountInfo.evmAddress := get data "evm_address";
           AccountInfo.key := get data "key";
           AccountInfo.maxAutomaticTokenAssociations :=
             get data "max_automatic_token_associations";
           AccountInfo.memo := get data "memo";
           AccountInfo.pendingReward := get data "pending_reward";
           AccountInfo.receiverSigRequired := get data "receiver_sig_required";
           AccountInfo.stakedAccountId := get data "staked_account_id";
           AccountInfo.stakedNodeId := get data "staked_node_id";
           AccountInfo.stakePeriodStart := get data "stake_period_start" |})
    else ret None.

Definition getAccountBalance (accountId : string) : M number :=
  accountInfo <- getAccountInfo accountId ;;
  ret match accountInfo with
      | Some info =>
          num_div (Balance.balance (AccountInfo.balance info)) (Fin 100000000)
      | None => Fin 0
      end.

Definition getAccountTokens (accountId : string) : M (list value) :=
  if negb (validateAccountId accountId)
  then throw (Error ("Invalid account ID format: " +:+ accountId))
  else
    data <- request ("accounts/" +:+ accountId +:+ "/tokens") None ;;
    ret match get data "tokens" with
        | VArr tokens => tokens
        | _ => []
        end.

(** *** Bonzo Finance methods *)

(** The callback of [markets.reserves.map]: each field is read under its
    snake_case name first, then under its camelCase name. *)
Definition to_BonzoReserve (reserve : value) : outcome BonzoReserve.t :=
  if nullish reserve then Thrown TypeError
  else
    let either a b := or_else (get reserve a) (get reserve b) in
    Returned
      {| BonzoReserve.symbol := or_else (get reserve "symbol") (VStr "");
         BonzoReserve.name := get reserve "name";
         BonzoReserve.active := or_else (get reserve "active") (VBool false);
         BonzoReserve.supplyApy :=
           or_else (either "supply_apy" "supplyApy") (VNum (Fin 0));
         BonzoReserve.variableBorrowApy :=
           or_else (either "variable_borrow_apy" "variableBorrowApy") (VNum (Fin 0));
         BonzoReserve.stableBorrowApy := either "stable_borrow_apy" "stableBorrowApy";
         BonzoReserve.utilizationRate :=
           or_else (either "utilization_rate" "utilizationRate") (VNum (Fin 0));
         BonzoReserve.availableLiquidity :=
           or_else (either "available_liquidity" "availableLiquidity")
                   (VObj [("usdDisplay", VStr "0")]);
         BonzoReserve.totalBorrowableLiquidity :=
           either "total_borrowable_liquidity" "totalBorrowableLiquidity";
         BonzoReserve.ltv := or_else (get reserve "ltv") (VNum (Fin 0));
         BonzoReserve.liquidationThreshold :=
           or_else (either "liquidation_threshold" "liquidationThreshold") (VNum (Fin 0));
         BonzoReserve.liquidationBonus := either "liquidation_bonus" "liquidationBonus";
         BonzoReserve.variableBorrowingEnabled :=
           either "variable_borrowing_enabled" "variableBorrowingEnabled";
         BonzoReserve.stableBorrowingEnabled :=
           either "stable_borrowing_enabled" "stableBorrowingEnabled" |}.

Definition getBonzoMarkets : M (option BonzoMarketData.t) :=
  trackCall "getBonzoMarkets" ;;
  markets <- bonzoRequest "Market" ;;
  now <- Date_now ;;
  if truthy markets && typeof_object markets then
    let either a b := or_else (get markets a) (get markets b) in
    let zero_display := VObj [("usdDisplay", VStr "0")] in
    (* the log line converts the TVL to a string *)
    let tvlStr :=
      or_else (get (get markets "total_market_supplied") "usd_display") (VStr "$0") in
    lift (ToString tvlStr) ;;
    reserves <-
      match get markets "reserves" with
      | VArr reserves => lift (map_outcome to_BonzoReserve reserves)
      | _ => ret []
      end ;;
    ret (Some
      {| BonzoMarketData.chainId := or_else (either "chain_id" "chainId") (VStr "");
         BonzoMarketData.networkName :=
           or_else (either "network_name" "networkName") (VStr "");
         BonzoMarketData.totalMarketSupplied :=
           or_else (either "total_market_supplied" "totalMarketSupplied") zero_display;
         BonzoMarketData.totalMarketBorrowed :=
           or_else (either "total_market_borrowed" "totalMarketBorrowed") zero_display;
         BonzoMarketData.totalMarketLiquidity :=
           or_else (either "total_market_liquidity" "totalMarketLiquidity") zero_display;
         BonzoMarketData.totalMarketReserve :=
           or_else (either "total_market_reserve" "totalMarketReserve") zero_display;
         BonzoMarketData.reserves := reserves;
         BonzoMarketData.timestamp :=
           or_else (get markets "timestamp") (VStr (Date_toISOString host now)) |})
  else ret None.

(** [cachedData || await this.getBonzoMarkets()]: a market record is an
    object, hence truthy. *)
Definition cached_or_fetch (cachedData : option BonzoMarketData.t)
  : M (option BonzoMarketData.t) :=
  match cachedData with
  | Some data => ret (Some data)
  | None => getBonzoMarkets
  end.

Definition getBonzoReserves (cachedData : option BonzoMarketData.t)
  : M (list BonzoReserve.t) :=
  data <- cached_or_fetch cachedData ;;
  ret match data with
      | Some d => BonzoMarketData.reserves d
      | None => []
      end.

(** [None] stands for the empty object the method returns without data. *)
Definition getBonzoTotalMarkets (cachedData : option BonzoMarketData.t)
  : M (option BonzoTotalMarkets.t) :=
  data <- cached_or_fetch cachedData ;;
  ret match data with
      | Some d =>
          Some
            {| BonzoTotalMarkets.chainId := BonzoMarketData.chainId d;
               BonzoTotalMarkets.networkName := BonzoMarketData.networkName d;
               BonzoTotalMarkets.totalMarketSupplied := BonzoMarketData.totalMarketSupplied d;
               BonzoTotalMarkets.totalMarketBorrowed := BonzoMarketData.totalMarketBorrowed d;
               BonzoTotalMarkets.totalMarketLiquidity := BonzoMarketData.totalMarketLiquidity d;
               BonzoTotalMarkets.totalMarketReserve := BonzoMarketData.totalMarketReserve d;
               BonzoTotalMarkets.timestamp := BonzoMarketData.timestamp d;
               BonzoTotalMarkets.totalReserves := length (BonzoMarketData.reserves d) |}
      | None => None
      end.

(** *** SaucerSwap methods *)

Definition getSaucerSwapPools : M (list value) :=
  trackCall "getSaucerSwapPools" ;;
  pools <- saucerswapRequest "pools" ;;
  ret match pools with
      | VArr l => l
      | _ => []
      end.

Definition getSaucerSwapTokens : M (list value) :=
  trackCall "getSaucerSwapTokens" ;;
  tokens <- saucerswapRequest "tokens" ;;
  ret match tokens with
      | VArr l => l
      | _ => []
      end.

(** The statistics object is handed on as received ([stats as
    SaucerSwapStats] checks nothing). *)
Definition getSaucerSwapStats : M value :=
  trackCall "getSaucerSwapStats" ;;
  stats <- saucerswapRequest "stats" ;;
  if truthy stats && typeof_object stats then
    (* the log line formats the TVL *)
    let tvl := or_else (get stats "tvlUsd") (VNum (Fin 0)) in
    lift (toLocaleString tvl) ;;
    ret stats
  else
    ret (VObj [("tvlUsd", VNum (Fin 0)); ("volumeTotalUsd", VNum (Fin 0));
               ("swapTotal", VNum (Fin 0)); ("circulatingSauce", VNum (Fin 0))]).

(** *** Cross-protocol methods *)

(** [pools.filter(f)] for a callback that may throw. *)
Fixpoint filter_outcome {A} (f : A -> outcome bool) (l : list A) : outcome (list A) :=
  match l with
  | [] => Returned []
  | x :: rest =>
      match f x with
      | Thrown e => Thrown e
      | Returned keep =>
          match filter_outcome f rest with
          | Thrown e => Thrown e
          | Returned ys => Returned (if keep then x :: ys else ys)
          end
      end
  end.

(** [p => parseInt(p.liquidity || '0') > 0] *)
Definition has_liquidity (p : value) : outcome bool :=
  if nullish p then Thrown TypeError
  else
    and_then (parseInt (or_else (get p "liquidity") (VStr "0")))
      (fun liquidity => Returned (num_gt liquidity (Fin 0))).

(** [total > 0 ? (tvl / total * 100) : 0] *)
Definition percentage_of (tvl total : value) : outcome number :=
  and_then (ToNumber total) (fun t =>
    if num_gt t (Fin 0)
    then and_then (ToNumber tvl) (fun x => Returned (num_mul (num_div x t) (Fin 100)))
    else Returned (Fin 0)).

Definition getCrossProtocolLiquiditySummary : M LiquiditySummary.t :=
  startTime <- Date_now ;;
  (* SaucerSwap data *)
  saucerStart <- Date_now ;;
  saucerStats <- getSaucerSwapStats ;;
  saucerPools <- getSaucerSwapPools ;;
  saucerEnd <- Date_now ;;
  let saucerTime := saucerEnd - saucerStart in
  (* Bonzo Finance data *)
  bonzoStart <- Date_now ;;
  bonzoData <- getBonzoMarkets ;;
  bonzoEnd <- Date_now ;;
  let bonzoTime := bonzoEnd - bonzoStart in
  (* Calculate totals *)
  let saucerTvl := or_else (get saucerStats "tvlUsd") (VNum (Fin 0)) in
  let totalMarketSupplied :=
    match bonzoData with
    | Some d => BonzoMarketData.totalMarketSupplied d
    | None => VUndefined
    end in
  let reserves :=
    match bonzoData with
    | Some d => BonzoMarketData.reserves d
    | None => []
    end in
  let bonzoTvlStr := or_else (get totalMarketSupplied "usdDisplay") (VStr "0") in
  let bonzoTvl := parseUsdValue bonzoTvlStr in
  endTime <- Date_now ;;
  let totalTime := endTime - startTime in
  total <- lift (js_add saucerTvl (VNum bonzoTvl)) ;;
  activePools <- lift (filter_outcome has_liquidity saucerPools) ;;
  dexPercentage <- lift (percentage_of saucerTvl total) ;;
  lendingPercentage <- lift (percentage_of (VNum bonzoTvl) total) ;;
  ret {| LiquiditySummary.totalLiquidityUsd := total;
         LiquiditySummary.saucerswap :=
           {| SaucerSwapSummary.tvlUsd := saucerTvl;
              SaucerSwapSummary.poolCount := length saucerPools;
              SaucerSwapSummary.activePools := length activePools;
              SaucerSwapSummary.protocolType := "DEX" |};
         LiquiditySummary.bonzoFinance :=
           {| BonzoSummary.tvlUsd := bonzoTvl;
              BonzoSummary.reserveCount := length reserves;
              BonzoSummary.activeReserves :=
                length (filter (fun r => truthy (BonzoReserve.active r) = true) reserves);
              BonzoSummary.protocolType := "Lending" |};
         LiquiditySummary.protocolDistribution :=
           {| ProtocolDistribution.dexPercentage := dexPercentage;
              ProtocolDistribution.lendingPercentage := lendingPercentage |};
         LiquiditySummary.timestamp := Date_toISOString host endTime;
         LiquiditySummary.performance :=
           {| Performance.totalTime := totalTime;
              Performance.saucerswapTime := saucerTime;
              Performance.bonzoTime := bonzoTime |} |}.

End Client.


(** ** More of [src/utils] *)

From Stdlib Require Import Lqa Qround.
From Stdlib Require Qcanon.

Definition num_sub (a b : number) : number :=
  match a, b with
  | Fin x, Fin y => Fin (Qred (x - y))
  | _, _ => NaN
  end.

(** [Math.abs(a)] *)
Definition num_abs (a : number) : number :=
  match a with
  | Fin x => Fin (Qred (Qabs x))
  | NaN => NaN
  end.

(** [a <= b]; false when either side is [NaN]. *)
Definition num_le (a b : number) : bool :=
  match a, b with
  | Fin x, Fin y => Qle_bool x y
  | _, _ => false
  end.

(** [a === b] on numbers; [NaN] equals nothing. *)
Definition num_eq (a b : number) : bool :=
  match a, b with
  | Fin x, Fin y => Qeq_bool x y
  | _, _ => false
  end.

(** [Math.min(a, b)] *)
Definition num_min (a b : number) : number :=
  match a, b with
  | Fin x, Fin y => if Qle_bool x y then Fin x else Fin y
  | _, _ => NaN
  end.

Definition safeDivide (numerator denominator defaultValue : number) : number :=
  if num_eq denominator (Fin 0) then defaultValue
  else num_div numerator denominator.

Definition calculatePercentageChange (oldValue newValue : number) : number :=
  if num_eq oldValue (Fin 0)
  then if num_eq newValue (Fin 0) then Fin 0 else Fin 100
  else num_mul (num_div (num_sub newValue oldValue) oldValue) (Fin 100).

Definition estimateTransactionCost (gasUsed gasPriceHbar : number) : number :=
  if num_le gasUsed (Fin 0) || num_le gasPriceHbar (Fin 0) then Fin 0
  else num_mul gasUsed gasPriceHbar.

Definition isWithinTolerance (value target tolerance : number) : bool :=
  num_le (num_abs (num_sub value target)) (num_abs (num_mul target tolerance)).

(** *** [retryWithBackoff]

    [fn] is a computation over a state of its own; each [await sleep(delay)]
    is recorded with its delay.  The loop runs on fuel, one unit per
    attempt; [retryWithBackoff] supplies more than the loop can use. *)

Module Retry.
Record t (S T : Type) := {
  result : outcome T;
  state : S;
  slept : list number }.
Arguments result {S T} _.
Arguments state {S T} _.
Arguments slept {S T} _.
End Retry.

(** The delay before the attempt after [attempt]:
    [Math.min(baseDelay * Math.pow(2, attempt - 1), maxDelay)]. *)
Definition backoff_delay (baseDelay maxDelay : number) (attempt : Z) : number :=
  num_min (num_mul baseDelay (Fin (Qpower 2 (attempt - 1)))) maxDelay.

Fixpoint retry_loop {S T} (fn : S -> outcome T * S)
    (maxRetries baseDelay maxDelay : number)
    (fuel : nat) (attempt : Z) (s : S) (slept : list number) : Retry.t S T :=
  match fuel with
  | O => {| Retry.result := Thrown (Error "Max retries exceeded");
            Retry.state := s; Retry.slept := slept |}
  | Datatypes.S fuel' =>
      if num_le (num_of_Z attempt) maxRetries then
        match fn s with
        | (Returned v, s') =>
            {| Retry.result := Returned v; Retry.state := s'; Retry.slept := slept |}
        | (Thrown e, s') =>
            if num_eq (num_of_Z attempt) maxRetries then
              {| Retry.result := Thrown e; Retry.state := s'; Retry.slept := slept |}
            else
              let delay := backoff_delay baseDelay maxDelay attempt in
              retry_loop fn maxRetries baseDelay maxDelay fuel' (attempt + 1) s'
                (slept ++ [delay])
        end
      else
        {| Retry.result := Thrown (Error "Max retries exceeded");
           Retry.state := s; Retry.slept := slept |}
  end.

(** The number of attempts the loop can make: the integer part of
    [maxRetries] when it is at least 1. *)
Definition max_attempts (maxRetries : number) : nat :=
  match maxRetries with
  | Fin q => Z.to_nat (Qnum q / Zpos (Qden q))
  | NaN => 0%nat
  end.

Definition retryWithBackoff {S T} (fn : S -> outcome T * S)
    (maxRetries baseDelay maxDelay : number) (s : S) : Retry.t S T :=
  retry_loop fn maxRetries baseDelay maxDelay (max_attempts maxRetries + 1) 1 s [].

(** A function that answers its [k]-th call (from 0) with [outcomes k]; its
    state counts the calls. *)
Definition scripted {T} (outcomes : nat -> outcome T) : nat -> outcome T * nat :=
  fun calls => (outcomes calls, Datatypes.S calls).

(** ** More of the client *)

Module Token.
Record t := {
  tokenId : value;
  symbol : value;
  name : value;
  decimals : number;
  totalSupply : number;
  price : value;
  tvl : number;
  volume24h : number;
  holders : number }.
End Token.

(** The report of [showCallStatistics].  The names with more than 10 calls
    are kept as a set: the map of call counts does not keep the order in
    which the engine enumerates the properties. *)
Module CallStatistics.
Record t := {
  callCounts : gmap string nat;
  totalCalls : nat;
  uniqueMethods : nat;
  excessiveMethods : gset string }.
End CallStatistics.

(** The report of [getCacheStats]; the keys as a set, for the same reason. *)
Module CacheStats.
Record t := { size : nat; entries : gset string }.
End CacheStats.

(** The key comparison of a [Map], SameValueZero: primitives by value
    ([NaN] equal to itself), objects and arrays by identity.  The keys
    compared here come from two different response bodies, so two objects
    are never the same one. *)
Definition same_value_zero (a b : value) : bool :=
  match a, b with
  | VUndefined, VUndefined | VNull, VNull => true
  | VBool x, VBool y => Bool.eqb x y
  | VNum NaN, VNum NaN => true
  | VNum (Fin x), VNum (Fin y) => Qeq_bool x y
  | VStr x, VStr y => String.eqb x y
  | _, _ => false
  end.

(** [new Map(entries).get(k)]: a later entry replaces an earlier one with
    the same key. *)
Fixpoint Map_get (entries : list (value * value)) (k : value) : value :=
  match entries with
  | [] => VUndefined
  | (k', v) :: rest =>
      if existsb (fun e => same_value_zero e.1 k) rest then Map_get rest k
      else if same_value_zero k' k then v
      else VUndefined
  end.

Section ClientMore.

Context (host : Host).

(** *** Token methods *)

(** The callback of [saucerTokens.map(t => [t.id, t])]. *)
Definition to_Map_entry (t : value) : outcome (value * value) :=
  if nullish t then Thrown TypeError else Returned (get t "id", t).

(** The body of the loop over [data.tokens]. *)
Definition to_Token (saucerTokenMap : list (value * value)) (tokenData : value)
  : outcome Token.t :=
  if nullish tokenData then Thrown TypeError
  else
    let tokenId := get tokenData "token_id" in
    let saucerData := Map_get saucerTokenMap tokenId in
    and_then (parseInt host (or_else (get tokenData "decimals") (VStr "8")))
      (fun decimals =>
    and_then (parseInt host (or_else (get tokenData "total_supply") (VStr "0")))
      (fun totalSupply =>
    Returned
      {| Token.tokenId := tokenId;
         Token.symbol := or_else (get tokenData "symbol") (VStr "");
         Token.name := or_else (get tokenData "name") (VStr "");
         Token.decimals := decimals;
         Token.totalSupply := totalSupply;
         Token.price := or_else (get saucerData "priceUsd") (VNum (Fin 0));
         Token.tvl := Fin 0;
         Token.volume24h := Fin 0;
         Token.holders := Fin 0 |})).

(** [getTopTokens(limit = 50, sortBy = 'supply')], both arguments given. *)
Definition getTopTokens (limit : number) (sortBy : string) : M (list Token.t) :=
  if num_le limit (Fin 0) || num_gt limit (Fin 1000)
  then throw (Error "Limit must be between 1 and 1000")
  else
    data <- request host "tokens"
      (Some (VObj [("type", VStr "FUNGIBLE_COMMON");
                   ("limit", VNum limit);
                   ("order", VStr (if String.eqb sortBy "created_timestamp"
                                   then "desc" else "asc"))])) ;;
    (* Get SaucerSwap token prices *)
    saucerTokens <- getSaucerSwapTokens host ;;
    saucerTokenMap <- lift (map_outcome to_Map_entry saucerTokens) ;;
    match get data "tokens" with
    | VArr tokens => lift (map_outcome (to_Token saucerTokenMap) tokens)
    | _ => ret []
    end.

Definition getTokenInfo (tokenId : string) : M (option Token.t) :=
  if String.eqb tokenId "" || negb (String.prefix "0.0." tokenId)
  then throw (Error ("Invalid token ID format: " +:+ tokenId))
  else
    data <- request host ("tokens/" +:+ tokenId) None ;;
    if negb (truthy data) || negb (typeof_object data) then ret None
    else
      decimals <- lift (parseInt host (or_else (get data "decimals") (VStr "8"))) ;;
      totalSupply <- lift (parseInt host (or_else (get data "total_supply") (VStr "0"))) ;;
      ret (Some
        {| Token.tokenId := VStr tokenId;
           Token.symbol := or_else (get data "symbol") (VStr "");
           Token.name := or_else (get data "name") (VStr "");
           Token.decimals := decimals;
           Token.totalSupply := totalSupply;
           Token.price := VNum (Fin 0);
           Token.tvl := Fin 0;
           Token.volume24h := Fin 0;
           Token.holders := Fin 0 |}).

(** *** The common shape of the three request methods

    [request], [saucerswapRequest] and [bonzoRequest] differ in the cache
    key, in the request they issue, and in what they return for a response
    that is not a 200 with a truthy body: [request] returns the empty
    object, the other two return the body when it is truthy. *)
Definition executor (cacheKey : string) (mkreq : HederaDeFi.t -> Request)
    (pass_body : bool) : M value :=
  hit <- check_cache cacheKey ;;
  match hit with
  | Some data => ret data
  | None =>
      this <- get_this ;;
      response <- httpClient_get host (mkreq this) ;;
      match response with
      | Response status data =>
          if (status =? 200) && truthy data
          then cache_set cacheKey data ;; ret data
          else ret (if pass_body then or_else data empty_object else empty_object)
      | AxiosError _ _ | OtherError _ => ret empty_object
      end
  end.

Definition request_key (path : string) (prms : option value) : string :=
  path +:+ ":" +:+ JSON_stringify host (default empty_object prms).

Definition request_GET (path : string) (prms : option value) (this : HederaDeFi.t)
  : Request :=
  {| url := HederaDeFi.endpoint this +:+ "/" +:+ path;
     params := prms; headers := DefaultHeaders |}.

Definition saucerswap_GET (path : string) (this : HederaDeFi.t) : Request :=
  {| url := HederaDeFi.saucerswapApi this +:+ "/" +:+ path;
     params := None; headers := SaucerSwapHeaders |}.

Definition bonzo_GET (path : string) (this : HederaDeFi.t) : Request :=
  {| url := HederaDeFi.bonzoApi this +:+ "/" +:+ path;
     params := None; headers := BonzoHeaders |}.

(** The payload [check_cache] finds at instant [now]. *)
Definition fresh_payload (this : HederaDeFi.t) (now : Z) (cacheKey : string)
  : option value :=
  match HederaDeFi.cache this !! cacheKey with
  | Some cached =>
      if now - CacheEntry.timestamp cached <? HederaDeFi.cacheTtl this * 1000
      then Some (CacheEntry.data cached)
      else None
  | None => None
  end.

(** The world after a GET issued in [w] has settled. *)
Definition settled (req : Request) (w : World) : World :=
  {| clock := clock w + (http_get host req (clock w)).2;
     requests := requests w ++ [req] |}.

(** *** Statistics *)

Definition showCallStatistics : M CallStatistics.t :=
  this <- get_this ;;
  let counts := HederaDeFi.callCounts this in
  ret {| CallStatistics.callCounts := counts;
         CallStatistics.totalCalls :=
           map_fold (fun _ count sum => (sum + count)%nat) 0%nat counts;
         CallStatistics.uniqueMethods := size counts;
         CallStatistics.excessiveMethods :=
           dom (filter (fun entry => (10 < entry.2)%nat) counts) |}.

Definition getCacheStats : M CacheStats.t :=
  this <- get_this ;;
  ret {| CacheStats.size := size (HederaDeFi.cache this);
         CacheStats.entries := dom (HederaDeFi.cache this) |}.

End ClientMore.

(** A response the request methods cache: status 200 and a truthy body. *)
Definition successful (o : HttpOutcome) : bool :=
  match o with
  | Response status data => (status =? 200) && truthy data
  | AxiosError _ _ | OtherError _ => false
  end.

(** [response.data || {}] for a resolved request, [{}] for a rejected one. *)
Definition body_or_empty (o : HttpOutcome) : value :=
  match o with
  | Response _ data => or_else data empty_object
  | AxiosError _ _ | OtherError _ => empty_object
  end.

(** A GET that is rejected: the promise does not resolve with a response. *)
Definition rejected (o : HttpOutcome) : Prop :=
  match o with
  | Response _ _ => False
  | AxiosError _ _ | OtherError _ => True
  end.

(** A client whose cache holds truthy payloads only. *)
Definition cache_truthy (this : HederaDeFi.t) : Prop :=
  forall key entry,
    HederaDeFi.cache this !! key = Some entry -> truthy (CacheEntry.data entry) = true.

(** A client on which every recorded call count is at least 1. *)
Definition counts_positive (this : HederaDeFi.t) : Prop :=
  map_Forall (fun _ count => (1 <= count)%nat) (HederaDeFi.callCounts this).

(** A computation after which the client is related by [R] to the client
    before, in whatever world it runs. *)
Definition respects (R : HederaDeFi.t -> HederaDeFi.t -> Prop) {A} (m : M A) : Prop :=
  forall this w, R this (client_of (m this w)).

(** Nothing is removed from the cache, and it stays truthy. *)
Definition cache_extends (this this' : HederaDeFi.t) : Prop :=
  dom (HederaDeFi.cache this) ⊆ dom (HederaDeFi.cache this')
  /\ (cache_truthy this -> cache_truthy this').


(** A computation that throws nothing but errors in [P]. *)
Definition throws_only {A} (P : error -> Prop) (m : M A) : Prop :=
  forall this w e, result_of (m this w) = Thrown e -> P e.

Definition never_throws {A} (m : M A) : Prop := throws_only (fun _ => False) m.

(** The call counts after one more call of each of [names], in that order. *)
Definition counted (names : list string) (counts : gmap string nat) : gmap string nat :=
  foldl (fun c name => <[name := (default 0%nat (c !! name) + 1)%nat]> c) counts names.

(** A computation that tracks one call of each of [names] and changes the
    call counts in no other way. *)
Definition counts_calls (names : list string) {A} (m : M A) : Prop :=
  forall this w,
    HederaDeFi.callCounts (client_of (m this w))
    = counted names (HederaDeFi.callCounts this).
(** ** Sample hosts

    Concrete environments on which the statements below are exercised. *)

Definition sample_Number_toString (q : Q) : string :=
  NilZero.string_of_int (Z.to_int (Z.quot (Qnum q) (Zpos (Qden q)))).

(** A network that answers every GET after 120 ms with status 200: the
    SaucerSwap statistics, the SaucerSwap pools, the Bonzo market, and a
    supply document for any other URL. *)
Definition sample_host : Host :=
  {| Number_toString := sample_Number_toString;
     StringToNumber := parseFloat_string;
     JSON_stringify := fun _ => "{}";
     Date_toISOString := fun _ => "2025-01-01T00:00:00.000Z";
     http_get := fun req _ =>
       let body :=
         if String.eqb (url req) "https://server.saucerswap.finance/api/public/stats"
         then VObj [("tvlUsd", VNum (Fin 1500)); ("swapTotal", VNum (Fin 12))]
         else if String.eqb (url req) "https://server.saucerswap.finance/api/public/pools"
         then VArr [VObj [("id", VNum (Fin 1)); ("liquidity", VStr "250")];
                    VObj [("id", VNum (Fin 2)); ("liquidity", VStr "0")]]
         else if String.eqb (url req) "https://mainnet-data.bonzo.finance/Market"
         then VObj [("chain_id", VStr "295");
                    ("totalMarketSupplied", VObj [("usdDisplay", VStr "$500.00")]);
                    ("reserves",
                     VArr [VObj [("symbol", VStr "HBAR"); ("active", VBool true);
                                 ("supply_apy", VNum (Fin (7 # 2)))];
                           VObj [("symbol", VStr "USDC"); ("supplyApy", VNum (Fin (21 # 5)))]])]
         else VObj [("total_supply", VStr "5000000000000000");
                    ("released_supply", VStr "4200000000000000")] in
       (Response 200 body, 120) |}.

(** A network on which every GET times out after 30 s. *)
Definition failing_host : Host :=
  {| Number_toString := sample_Number_toString;
     StringToNumber := parseFloat_string;
     JSON_stringify := fun _ => "{}";
     Date_toISOString := fun _ => "2025-01-01T00:00:00.000Z";
     http_get := fun _ _ => (AxiosError (Some "ECONNABORTED") None, 30000) |}.

Definition default_config : HederaDeFiConfig.t :=
  {| HederaDeFiConfig.apiKey := None;
     HederaDeFiConfig.endpoint := None;
     HederaDeFiConfig.cacheTtl := None;
     HederaDeFiConfig.bonzoApi := None;
     HederaDeFiConfig.saucerswapApi := None;
     HederaDeFiConfig.timeout := None |}.

Definition sample_world : World := {| clock := 1735689600000; requests := [] |}.

(** A network that answers the token list of the indexer with one token,
    the SaucerSwap token list with its price, and every other GET with an
    empty object. *)
Definition token_host : Host :=
  {| Number_toString := sample_Number_toString;
     StringToNumber := parseFloat_string;
     JSON_stringify := fun _ => "{}";
     Date_toISOString := fun _ => "2025-01-01T00:00:00.000Z";
     http_get := fun req _ =>
       let body :=
         if String.eqb (url req) "https://mainnet-public.mirrornode.hedera.com/api/v1/tokens"
         then VObj [("tokens",
                     VArr [VObj [("token_id", VStr "0.0.456858"); ("symbol", VStr "USDC");
                                 ("decimals", VStr "6");
                                 ("total_supply", VStr "1000000")]])]
         else if String.eqb (url req) "https://server.saucerswap.finance/api/public/tokens"
         then VArr [VObj [("id", VStr "0.0.456858"); ("priceUsd", VNum (Fin 1))]]
         else VObj [] in
       (Response 200 body, 80) |}.

(** A network whose node list and reserve list hold a [null] element. *)
Definition null_host : Host :=
  {| Number_toString := sample_Number_toString;
     StringToNumber := parseFloat_string;
     JSON_stringify := fun _ => "{}";
     Date_toISOString := fun _ => "2025-01-01T00:00:00.000Z";
     http_get := fun _ _ =>
       (Response 200
          (VObj [("nodes", VArr [VObj [("node_id", VNum (Fin 3))]; VNull]);
                 ("reserves", VArr [VNull])]),
        50) |}.

(** A network that answers every GET with status 200 and a body whose
    amounts are objects: the supply, the decimals, the balance and the
    displayed TVL with an own property [toString], the [tvlUsd] with an
    own property [toLocaleString]. *)
Definition unreadable_host : Host :=
  {| Number_toString := sample_Number_toString;
     StringToNumber := parseFloat_string;
     JSON_stringify := fun _ => "{}";
     Date_toISOString := fun _ => "2025-01-01T00:00:00.000Z";
     http_get := fun _ _ =>
       (Response 200
          (VObj [("total_supply", VObj [("toString", VNum (Fin 1))]);
                 ("decimals", VObj [("toString", VNum (Fin 1))]);
                 ("balance", VObj [("balance", VObj [("toString", VNum (Fin 1))])]);
                 ("total_market_supplied",
                  VObj [("usd_display", VObj [("toString", VNum (Fin 1))])]);
                 ("tvlUsd", VObj [("toLocaleString", VNum (Fin 1))])]),
        50) |}.



(** A function that fails twice and then returns 7. *)
Definition flaky (call : nat) : outcome nat :=
  if (call <? 2)%nat then Thrown (Error "busy") else Returned 7%nat.

(** ** Properties *)

Section Properties.

Context (host : Host).

Implicit Types (this : HederaDeFi.t) (w : World).

(** *** Sequencing *)

Lemma bind_returns {A B} (m : M A) (k : A -> M B) this w a this1 w1 :
  m this w = (Returned a, this1, w1) -> bind m k this w = k a this1 w1.
Proof. intros Hm. unfold bind. by rewrite Hm. Qed.

Lemma bind_returned {A B} (m : M A) (k : A -> M B) this w b :
  result_of (bind m k this w) = Returned b ->
  exists a this1 w1,
    m this w = (Returned a, this1, w1) /\ result_of (k a this1 w1) = Returned b.
Proof.
  unfold bind, result_of.
  destruct (m this w) as [[[a|e] this1] w1]; simpl; [|done].
  intros Hk. by exists a, this1, w1.
Qed.

Lemma bind_lift {A B} (o : outcome A) (k : A -> M B) this w :
  bind (lift o) k this w =
    match o with
    | Returned a => k a this w
    | Thrown e => (Thrown e, this, w)
    end.
Proof. unfold bind, lift. by destruct o. Qed.

(** *** Conversions

    A conversion throws nothing but a [TypeError]. *)

Lemma is_thrown_false {A} (o : outcome A) :
  is_thrown o = false -> exists a, o = Returned a.
Proof. destruct o; [eauto|done]. Qed.

Lemma and_then_thrown {A B} (o : outcome A) (k : A -> outcome B) (P : error -> Prop) :
  (forall e, o = Thrown e -> P e) ->
  (forall a e, k a = Thrown e -> P e) ->
  forall e, and_then o k = Thrown e -> P e.
Proof.
  intros Ho Hk e. destruct o as [a|e']; simpl.
  - apply Hk.
  - intros [= <-]. by apply Ho.
Qed.

Lemma join_with_thrown {A} (convert : value -> outcome A) empty glue l e :
  Forall (fun x => forall e, convert x = Thrown e -> e = TypeError) l ->
  join_with convert empty glue l = Thrown e -> e = TypeError.
Proof.
  intros Hall. revert e. induction Hall as [|x rest Hx Hrest IH]; intros e; simpl; [done|].
  revert e. apply and_then_thrown.
  - intros e. destruct (nullish x); [done|apply Hx].
  - intros sx e. destruct rest as [|y rest']; [done|]. revert e.
    apply and_then_thrown; [exact IH|done].
Qed.

Lemma ToString_thrown v e : ToString host v = Thrown e -> e = TypeError.
Proof.
  revert v e. fix IH 1. intros [| |[]|[]| |elems|props] e; simpl; try done.
  - apply join_with_thrown. induction elems as [|x rest IHrest]; constructor.
    + apply IH.
    + exact IHrest.
  - destruct (has_own "toString" props); [by intros [= <-]|done].
Qed.

Lemma parseInt_thrown v e : parseInt host v = Thrown e -> e = TypeError.
Proof.
  unfold parseInt, and_then.
  destruct (ToString host v) eqn:Hv; [done|]. intros [= <-]. by eapply ToString_thrown.
Qed.

Lemma parseInt_returned v :
  is_thrown (ToString host v) = false -> exists n, parseInt host v = Returned n.
Proof.
  intros [s Hs]%is_thrown_false. unfold parseInt. rewrite Hs. by eexists.
Qed.

Lemma ToNumber_thrown v e : ToNumber host v = Thrown e -> e = TypeError.
Proof.
  destruct v; cbv delta [ToNumber ToPrimitive] beta iota; try done; revert e;
    (apply and_then_thrown; [intros e; apply ToString_thrown|done]).
Qed.

Lemma ToPrimitive_thrown v e : ToPrimitive host v = Thrown e -> e = TypeError.
Proof.
  destruct v; cbv delta [ToNumber ToPrimitive] beta iota; try done; revert e;
    (apply and_then_thrown; [intros e; apply ToString_thrown|done]).
Qed.

Lemma js_add_thrown a b e : js_add host a b = Thrown e -> e = TypeError.
Proof.
  unfold js_add. revert e.
  apply and_then_thrown; [intros e; apply ToPrimitive_thrown|intros pa].
  apply and_then_thrown; [intros e; apply ToPrimitive_thrown|intros pb].
  assert (Hnum : forall p q e,
             and_then (ToNumber host p)
               (fun x => and_then (ToNumber host q)
                           (fun y => Returned (VNum (num_add x y)))) = Thrown e ->
             e = TypeError).
  { intros p q. apply and_then_thrown; [intros e; apply ToNumber_thrown|intros x].
    apply and_then_thrown; [intros e; apply ToNumber_thrown|done]. }
  assert (Hstr : forall p (k : string -> outcome value) e,
             (forall t, exists r, k t = Returned r) ->
             and_then (ToString host p) k = Thrown e -> e = TypeError).
  { intros p k e Hk. revert e.
    apply and_then_thrown; [intros e; apply ToString_thrown|].
    intros t e. by destruct (Hk t) as [r ->]. }
  intros e.
  destruct pa, pb; try apply Hnum; apply Hstr; eauto.
Qed.

Lemma percentage_of_thrown tvl total e :
  percentage_of host tvl total = Thrown e -> e = TypeError.
Proof.
  unfold percentage_of. revert e.
  apply and_then_thrown; [intros e; apply ToNumber_thrown|intros t e].
  destruct (num_gt t (Fin 0)); [|done]. revert e.
  apply and_then_thrown; [intros e; apply ToNumber_thrown|done].
Qed.

Lemma has_liquidity_thrown p e : has_liquidity host p = Thrown e -> e = TypeError.
Proof.
  unfold has_liquidity. destruct (nullish p); [by intros [= <-]|]. revert e.
  apply and_then_thrown; [intros e; apply parseInt_thrown|done].
Qed.

Lemma toLocaleString_thrown v e : toLocaleString v = Thrown e -> e = TypeError.
Proof.
  revert v e. fix IH 1. intros [| | | | |elems|props] e; simpl; try done.
  - apply join_with_thrown. induction elems as [|x rest IHrest]; constructor.
    + apply IH.
    + exact IHrest.
  - destruct (has_own "toLocaleString" props || has_own "toString" props);
      [by intros [= <-]|done].
Qed.

(** *** The cache *)

Lemma cache_set_spec cacheKey payload this w :
  cache_set cacheKey payload this w =
    (Returned tt,
     HederaDeFi.set_cache
       (<[cacheKey := {| CacheEntry.data := payload; CacheEntry.timestamp := clock w |}]>
          (HederaDeFi.cache this)) this,
     w).
Proof. reflexivity. Qed.

(** [check_cache] reads the client and the clock and changes nothing. *)
Lemma check_cache_spec cacheKey this w :
  check_cache cacheKey this w =
    (Returned
       match HederaDeFi.cache this !! cacheKey with
       | Some cached =>
           if clock w - CacheEntry.timestamp cached <? HederaDeFi.cacheTtl this * 1000
           then Some (CacheEntry.data cached)
           else None
       | None => None
       end, this, w).
Proof.
  unfold check_cache, bind, get_this, Date_now, ret. simpl.
  destruct (HederaDeFi.cache this !! cacheKey) as [cached|]; [|done].
  by destruct (_ <? _).
Qed.

Lemma request_hit path prms this w cached :
  path ≠ "" ->
  HederaDeFi.cache this !! (path +:+ ":" +:+ JSON_stringify host (default empty_object prms))
    = Some cached ->
  clock w - CacheEntry.timestamp cached < HederaDeFi.cacheTtl this * 1000 ->
  request host path prms this w = (Returned (CacheEntry.data cached), this, w).
Proof.
  intros Hpath Hin Hfresh. unfold request.
  destruct (String.eqb_spec path "") as [->|_]; [done|].
  unfold bind at 1. rewrite check_cache_spec, Hin.
  by destruct (Z.ltb_spec (clock w - CacheEntry.timestamp cached)
                 (HederaDeFi.cacheTtl this * 1000)); [|lia].
Qed.

(** A request that finds no fresh entry issues exactly one GET. *)
Lemma request_miss path prms this w :
  path ≠ "" ->
  match HederaDeFi.cache this
          !! (path +:+ ":" +:+ JSON_stringify host (default empty_object prms)) with
  | Some cached => HederaDeFi.cacheTtl this * 1000 <= clock w - CacheEntry.timestamp cached
  | None => True
  end ->
  requests (world_of (request host path prms this w)) =
    requests w ++ [{| url := HederaDeFi.endpoint this +:+ "/" +:+ path;
                      params := prms; headers := DefaultHeaders |}].
Proof.
  intros Hpath Hstale. unfold request.
  destruct (String.eqb_spec path "") as [->|_]; [done|].
  unfold bind at 1. rewrite check_cache_spec.
  set (key := path +:+ ":" +:+ JSON_stringify host (default empty_object prms)) in *.
  assert (match HederaDeFi.cache this !! key with
          | Some cached =>
              if clock w - CacheEntry.timestamp cached <? HederaDeFi.cacheTtl this * 1000
              then Some (CacheEntry.data cached) else None
          | None => None
          end = None) as ->.
  { destruct (HederaDeFi.cache this !! key) as [cached|]; [|done].
    by destruct (Z.ltb_spec (clock w - CacheEntry.timestamp cached)
                   (HederaDeFi.cacheTtl this * 1000)); [lia|]. }
  unfold bind, get_this, httpClient_get, world_of. simpl.
  destruct (http_get host _ (clock w)) as [out elapsed].
  destruct out as [status data| |]; simpl; try done.
  by destruct ((status =? 200) && truthy data).
Qed.

(** C1.  A lookup after a store returns the stored payload exactly while
    [now - fetchedAt < ttl] (the TTL in milliseconds), and nothing from then
    on, although the entry stays in the map: a lookup at
    [fetchedAt + ttl - eps] is a hit, one at [fetchedAt + ttl] or
    [fetchedAt + ttl + eps] is a miss.  For [request], a hit returns the
    payload and touches neither the client nor the network, a miss issues
    the GET again. *)
Theorem cache_get_after_put this w_put key payload (eps : Z) (rs : list Request) :
  let this' := client_of (cache_set key payload this w_put) in
  let fetchedAt := clock w_put in
  let ttl := HederaDeFi.cacheTtl this * 1000 in
  let at_ t := {| clock := t; requests := rs |} in
  0 < eps ->
  (forall w,
      check_cache key this' w =
        (Returned (if clock w - fetchedAt <? ttl then Some payload else None), this', w))
  /\ check_cache key this' (at_ (fetchedAt + ttl - eps))
     = (Returned (Some payload), this', at_ (fetchedAt + ttl - eps))
  /\ check_cache key this' (at_ (fetchedAt + ttl))
     = (Returned None, this', at_ (fetchedAt + ttl))
  /\ check_cache key this' (at_ (fetchedAt + ttl + eps))
     = (Returned None, this', at_ (fetchedAt + ttl + eps))
  /\ HederaDeFi.cache this' !! key
     = Some {| CacheEntry.data := payload; CacheEntry.timestamp := fetchedAt |}
  /\ (forall path prms,
         path ≠ "" ->
         key = path +:+ ":" +:+ JSON_stringify host (default empty_object prms) ->
         request host path prms this' (at_ (fetchedAt + ttl - eps))
         = (Returned payload, this', at_ (fetchedAt + ttl - eps))
         /\ requests (world_of (request host path prms this' (at_ (fetchedAt + ttl + eps))))
            = rs ++ [{| url := HederaDeFi.endpoint this +:+ "/" +:+ path;
                        params := prms; headers := DefaultHeaders |}]).
Proof.
  intros this' fetchedAt ttl at_ Heps.
  assert (Hentry : HederaDeFi.cache this' !! key
                   = Some {| CacheEntry.data := payload; CacheEntry.timestamp := fetchedAt |}).
  { unfold this', client_of. rewrite cache_set_spec. simpl. apply lookup_insert_eq. }
  assert (Hget : forall w,
             check_cache key this' w =
               (Returned (if clock w - fetchedAt <? ttl then Some payload else None), this', w)).
  { intros w. rewrite check_cache_spec, Hentry. reflexivity. }
  split; [exact Hget|].
  split; [|split; [|split; [|split]]].
  - rewrite Hget. simpl. destruct (Z.ltb_spec (fetchedAt + ttl - eps - fetchedAt) ttl); [done|lia].
  - rewrite Hget. simpl. destruct (Z.ltb_spec (fetchedAt + ttl - fetchedAt) ttl); [lia|done].
  - rewrite Hget. simpl. destruct (Z.ltb_spec (fetchedAt + ttl + eps - fetchedAt) ttl); [lia|done].
  - exact Hentry.
  - intros path prms Hpath ->. split.
    + rewrite (request_hit path prms this' (at_ (fetchedAt + ttl - eps)) _ Hpath Hentry); [done|].
      simpl. fold ttl. lia.
    + rewrite request_miss; [done|done|].
      rewrite Hentry. simpl. fold ttl. lia.
Qed.

(** *** Fail-open requests *)

(** [request] throws on an empty path only. *)
Lemma request_returns path prms this w :
  path ≠ "" -> exists data, result_of (request host path prms this w) = Returned data.
Proof.
  intros Hpath. unfold request.
  destruct (String.eqb_spec path "") as [->|_]; [done|].
  unfold bind at 1. rewrite check_cache_spec.
  destruct (match HederaDeFi.cache this !! _ with Some _ => _ | None => _ end) as [hit|].
  { by eexists. }
  unfold bind, get_this, httpClient_get, result_of. simpl.
  destruct (http_get host _ (clock w)) as [out elapsed].
  destruct out as [status data| |]; simpl; try by eexists.
  destruct ((status =? 200) && truthy data); by eexists.
Qed.


Lemma trackCall_spec methodName this w :
  trackCall methodName this w =
    (Returned tt,
     HederaDeFi.set_callCounts
       (<[methodName := (HederaDeFi.callCount this methodName + 1)%nat]>
          (HederaDeFi.callCounts this)) this,
     w).
Proof. reflexivity. Qed.




(** *** The liquidity summary *)

Lemma Qred_zero (q : Q) : q == 0 -> Qred q = 0%Q.
Proof. intros Hq. change 0%Q with (Qred 0). by apply Qred_complete. Qed.



(** *** Account identifiers *)

Lemma regex_test_Void s : regex_test Void s = false.
Proof. induction s; simpl; auto. Qed.

Lemma regex_test_Cat_Void r s : regex_test (Cat Void r) s = false.
Proof. induction s; simpl; auto. Qed.

Lemma regex_test_Alt r1 r2 s :
  regex_test (Alt r1 r2) s = regex_test r1 s || regex_test r2 s.
Proof. revert r1 r2. induction s as [|c s IH]; intros r1 r2; simpl; auto. Qed.

Lemma regex_test_Cat_Eps r s : regex_test (Cat Eps r) s = regex_test r s.
Proof.
  destruct s as [|c s]; simpl; [done|].
  by rewrite regex_test_Alt, regex_test_Cat_Void.
Qed.

Lemma regex_test_Cat_Lit a r s :
  regex_test (Cat (Lit a) r) s =
    match s with
    | String c rest => Ascii.eqb c a && regex_test r rest
    | EmptyString => false
    end.
Proof.
  destruct s as [|c s]; simpl; [done|].
  destruct (Ascii.eqb c a); simpl.
  - apply regex_test_Cat_Eps.
  - apply regex_test_Cat_Void.
Qed.

Lemma regex_test_Star_Digit s : regex_test (Star Digit) s = all_digits s.
Proof.
  induction s as [|c s IH]; simpl; [done|].
  destruct (is_digit c); simpl.
  - by rewrite regex_test_Cat_Eps.
  - apply regex_test_Cat_Void.
Qed.

Lemma regex_test_Plus_Digit s :
  regex_test (Plus Digit) s = negb (String.eqb s "") && all_digits s.
Proof.
  destruct s as [|c s]; simpl; [done|].
  destruct (is_digit c); simpl.
  - by rewrite regex_test_Cat_Eps, regex_test_Star_Digit.
  - apply regex_test_Cat_Void.
Qed.

(** The identifiers [validateAccountId] accepts: [0.0.] followed by one or
    more decimal digits. *)
Lemma validateAccountId_spec accountId :
  validateAccountId accountId = true <->
  exists num, accountId = "0.0." +:+ num /\ num ≠ "" /\ all_digits num = true.
Proof.
  unfold validateAccountId, account_id_pattern. split.
  - rewrite regex_test_Cat_Lit.
    destruct accountId as [|c1 s1]; [done|]. intros [H1 H]%andb_prop.
    rewrite regex_test_Cat_Lit in H.
    destruct s1 as [|c2 s2]; [done|]. apply andb_prop in H as [H2 H].
    rewrite regex_test_Cat_Lit in H.
    destruct s2 as [|c3 s3]; [done|]. apply andb_prop in H as [H3 H].
    rewrite regex_test_Cat_Lit in H.
    destruct s3 as [|c4 num]; [done|]. apply andb_prop in H as [H4 H].
    rewrite regex_test_Plus_Digit in H. apply andb_prop in H as [Hne Hdigits].
    apply Ascii.eqb_eq in H1, H2, H3, H4. subst.
    exists num. split; [done|]. split; [|done].
    intros ->. done.
  - intros (num & -> & Hne & Hdigits).
    change ("0.0." +:+ num) with (String "0" (String "." (String "0" (String "." num)))).
    do 4 (rewrite regex_test_Cat_Lit, Ascii.eqb_refl; cbn [andb]).
    rewrite regex_test_Plus_Digit, Hdigits.
    destruct num; done.
Qed.

Lemma getAccountInfo_invalid accountId this w :
  validateAccountId accountId = false ->
  getAccountInfo host accountId this w =
    (Thrown (Error ("Invalid account ID format: " +:+ accountId)), this, w).
Proof. intros Hbad. unfold getAccountInfo. by rewrite Hbad. Qed.

(** What [getAccountInfo] makes of the payload the request layer hands
    over: the record is built once the balance has been parsed. *)
Lemma getAccountInfo_payload accountId this w data this1 w1 :
  validateAccountId accountId = true ->
  request host ("accounts/" +:+ accountId) None this w = (Returned data, this1, w1) ->
  exists record : number -> AccountInfo.t,
    getAccountInfo host accountId this w =
      (if truthy data && typeof_object data then
         match parseInt host (or_else (get (get data "balance") "balance") (VStr "0")) with
         | Returned balance => (Returned (Some (record balance)), this1, w1)
         | Thrown e => (Thrown e, this1, w1)
         end
       else (Returned None, this1, w1))
    /\ forall balance,
         AccountInfo.account (record balance) = or_else (get data "account") (VStr accountId)
         /\ AccountInfo.balance (record balance)
            = {| Balance.balance := balance;
                 Balance.timestamp :=
                   or_else (get (get data "balance") "timestamp") (VStr "") |}
         /\ AccountInfo.createdTimestamp (record balance)
            = or_else (get data "created_timestamp") (VStr "")
         /\ AccountInfo.memo (record balance) = get data "memo".
Proof.
  intros Hok Hdata. unfold getAccountInfo. rewrite Hok. cbn [negb].
  rewrite (bind_returns _ _ _ _ _ _ _ Hdata).
  eexists (fun balance => AccountInfo.Build_t _ _ _ _ _ _ _ _ _ _ _ _ _ _ _ _).
  split.
  - destruct (truthy data && typeof_object data); [|reflexivity].
    rewrite bind_lift. destruct (parseInt host _); reflexivity.
  - done.
Qed.

Lemma getAccountInfo_valid accountId this w :
  validateAccountId accountId = true ->
  (exists info, result_of (getAccountInfo host accountId this w) = Returned info)
  \/ result_of (getAccountInfo host accountId this w) = Thrown TypeError.
Proof.
  intros Hok.
  destruct (request_returns ("accounts/" +:+ accountId) None this w) as [data Hdata]; [done|].
  destruct (request host _ None this w) as [[res this1] w1] eqn:Hrun.
  unfold result_of in Hdata. simpl in Hdata. subst res.
  destruct (getAccountInfo_payload _ _ _ _ _ _ Hok Hrun) as (record & -> & _).
  destruct (truthy data && typeof_object data); [|left; by eexists].
  destruct (parseInt host _) as [balance|e] eqn:Hbalance; [left; by eexists|].
  right. by rewrite (parseInt_thrown _ _ Hbalance).
Qed.

(** C4 (as amended).  The validation accepts exactly the identifiers
    [0.0.num], shard and realm both 0 and [num] one or more decimal digits;
    [getAccountInfo] raises no validation error for them (it returns, or
    throws a [TypeError] on a body whose balance cannot be converted to a
    string) and raises one for every other string.  It returns whenever
    the balance of the payload can be converted. *)
Theorem account_id_validation accountId :
  (validateAccountId accountId = true <->
   exists num, accountId = "0.0." +:+ num /\ num ≠ "" /\ all_digits num = true)
  /\ (forall this w,
         if validateAccountId accountId
         then (exists info, result_of (getAccountInfo host accountId this w) = Returned info)
              \/ result_of (getAccountInfo host accountId this w) = Thrown TypeError
         else result_of (getAccountInfo host accountId this w)
              = Thrown (Error ("Invalid account ID format: " +:+ accountId)))
  /\ (forall this w data,
         validateAccountId accountId = true ->
         result_of (request host ("accounts/" +:+ accountId) None this w) = Returned data ->
         is_thrown (ToString host (or_else (get (get data "balance") "balance") (VStr "0")))
         = false ->
         exists info, result_of (getAccountInfo host accountId this w) = Returned info).
Proof.
  split; [apply validateAccountId_spec|]. split.
  - intros this w. destruct (validateAccountId accountId) eqn:Hv.
    + by apply getAccountInfo_valid.
    + by rewrite getAccountInfo_invalid.
  - intros this w data Hok Hdata Hreadable.
    destruct (request host _ None this w) as [[res this1] w1] eqn:Hrun.
    unfold result_of in Hdata. simpl in Hdata. subst res.
    destruct (getAccountInfo_payload _ _ _ _ _ _ Hok Hrun) as (record & -> & _).
    destruct (truthy data && typeof_object data); [|by eexists].
    destruct (parseInt_returned _ Hreadable) as [balance ->]. by eexists.
Qed.

(** C7.  For an identifier the validation rejects, [getAccountInfo] throws
    the validation error at once: the client (cache, call counts) and the
    world (no request issued, the clock not advanced) are as before. *)
Theorem getAccountInfo_rejects_before_network accountId this w :
  validateAccountId accountId = false ->
  getAccountInfo host accountId this w =
    (Thrown (Error ("Invalid account ID format: " +:+ accountId)), this, w).
Proof. apply getAccountInfo_invalid. Qed.

(** *** Call counts *)

Lemma keeps_counts_ret {A} (a : A) : keeps_counts (ret a).
Proof. done. Qed.

Lemma keeps_counts_throw {A} e : keeps_counts (@throw A e).
Proof. done. Qed.

Lemma keeps_counts_lift {A} (o : outcome A) : keeps_counts (lift o).
Proof. done. Qed.

Lemma keeps_counts_get_this : keeps_counts get_this.
Proof. done. Qed.

Lemma keeps_counts_Date_now : keeps_counts Date_now.
Proof. done. Qed.

Lemma keeps_counts_cache_set cacheKey payload : keeps_counts (cache_set cacheKey payload).
Proof. done. Qed.

Lemma keeps_counts_httpClient_get req : keeps_counts (httpClient_get host req).
Proof. intros this w. unfold httpClient_get, client_of. by destruct (http_get host req (clock w)). Qed.

Lemma keeps_counts_bind {A B} (m : M A) (k : A -> M B) :
  keeps_counts m -> (forall a, keeps_counts (k a)) -> keeps_counts (bind m k).
Proof.
  intros Hm Hk this w. unfold bind.
  specialize (Hm this w). unfold client_of in *.
  destruct (m this w) as [[[a|e] this1] w1]; simpl in *; [|done].
  by rewrite <- Hm, <- (Hk a this1 w1).
Qed.

Ltac keeps_counts :=
  repeat first
    [ apply keeps_counts_ret | apply keeps_counts_throw | apply keeps_counts_lift
    | apply keeps_counts_get_this | apply keeps_counts_Date_now
    | apply keeps_counts_cache_set | apply keeps_counts_httpClient_get
    | apply keeps_counts_bind; [|intros ?]
    | match goal with
      | |- keeps_counts (if ?b then _ else _) => destruct b
      | |- keeps_counts (match ?x with _ => _ end) => destruct x
      end ].

Lemma keeps_counts_check_cache cacheKey : keeps_counts (check_cache cacheKey).
Proof. intros this w. by rewrite check_cache_spec. Qed.

Lemma keeps_counts_request path prms : keeps_counts (request host path prms).
Proof. unfold request. pose proof keeps_counts_check_cache. keeps_counts; auto. Qed.

Lemma keeps_counts_saucerswapRequest path : keeps_counts (saucerswapRequest host path).
Proof. unfold saucerswapRequest. pose proof keeps_counts_check_cache. keeps_counts; auto. Qed.

Lemma keeps_counts_bonzoRequest path : keeps_counts (bonzoRequest host path).
Proof. unfold bonzoRequest. pose proof keeps_counts_check_cache. keeps_counts; auto. Qed.

(** A method that starts with [trackCall] and does not touch the counts
    afterwards adds one to the count of that name, whatever else happens. *)
Lemma tracked_once {A} methodName (body : M A) this w :
  keeps_counts body ->
  HederaDeFi.callCount (client_of ((trackCall methodName ;; body) this w)) methodName
  = (HederaDeFi.callCount this methodName + 1)%nat.
Proof.
  intros Hbody. unfold bind. rewrite trackCall_spec.
  specialize (Hbody (HederaDeFi.set_callCounts
                       (<[methodName := (HederaDeFi.callCount this methodName + 1)%nat]>
                          (HederaDeFi.callCounts this)) this) w).
  unfold client_of in *.
  destruct (body _ w) as [[res this1] w1]. simpl in *.
  unfold HederaDeFi.callCount at 1. rewrite Hbody. simpl.
  by rewrite lookup_insert_eq.
Qed.

Lemma tracked_invocations {A} methodName (m : M A) ws :
  (forall this w,
      HederaDeFi.callCount (client_of (m this w)) methodName
      = (HederaDeFi.callCount this methodName + 1)%nat) ->
  forall this,
    HederaDeFi.callCount (after_invocations m ws this) methodName
    = (HederaDeFi.callCount this methodName + length ws)%nat.
Proof.
  intros Hstep. induction ws as [|w ws IH]; intros this; simpl.
  - lia.
  - rewrite IH, Hstep. lia.
Qed.

(** C5 (as amended).  For each of the six methods that call [trackCall]
    ([getNetworkSupply], [getNetworkNodes], [getBonzoMarkets],
    [getSaucerSwapPools], [getSaucerSwapTokens], [getSaucerSwapStats]),
    [n] invocations add exactly [n] to the count recorded under the
    method's name, in whatever worlds they run: cache hit or miss, request
    answered or failed, result returned or thrown.  On a new client the
    count of [getNetworkSupply] after [n] invocations is [n]. *)
Theorem tracked_methods_count_every_call (ws : list World) this :
  let counted {A} (methodName : string) (m : M A) :=
    HederaDeFi.callCount (after_invocations m ws this) methodName
    = (HederaDeFi.callCount this methodName + length ws)%nat in
  counted "getNetworkSupply" (getNetworkSupply host)
  /\ counted "getNetworkNodes" (getNetworkNodes host)
  /\ counted "getBonzoMarkets" (getBonzoMarkets host)
  /\ counted "getSaucerSwapPools" (getSaucerSwapPools host)
  /\ counted "getSaucerSwapTokens" (getSaucerSwapTokens host)
  /\ counted "getSaucerSwapStats" (getSaucerSwapStats host)
  /\ (forall config,
         HederaDeFi.callCount
           (after_invocations (getNetworkSupply host) ws (new_HederaDeFi config))
           "getNetworkSupply" = length ws).
Proof.
  pose proof keeps_counts_request.
  pose proof keeps_counts_saucerswapRequest.
  pose proof keeps_counts_bonzoRequest.
  cbv zeta.
  repeat split; try intros config;
    try (rewrite <- (Nat.add_0_l (length ws)));
    apply tracked_invocations; intros this' w; apply tracked_once;
    keeps_counts; auto.
Qed.

(** *** Unit conversion *)

Lemma digits_acc_uint_pos d acc :
  digits_acc 10 (NilEmpty.string_of_uint d) (Npos acc) = Npos (Pos.of_uint_acc d acc).
Proof.
  revert acc. induction d; intros acc; simpl; try done;
    match goal with
    | |- digits_acc 10 _ ?x = _ =>
        match goal with
        | |- _ = Npos (Pos.of_uint_acc _ ?p) => replace x with (Npos p) by lia
        end
    end; apply IHd.
Qed.

Lemma digits_acc_uint d : digits_acc 10 (NilEmpty.string_of_uint d) 0 = N.of_uint d.
Proof.
  induction d; simpl; try done;
    match goal with
    | |- digits_acc 10 _ ?x = _ => change x with (Npos 1) || change x with (Npos 2)
        || change x with (Npos 3) || change x with (Npos 4) || change x with (Npos 5)
        || change x with (Npos 6) || change x with (Npos 7) || change x with (Npos 8)
        || change x with (Npos 9)
    end; apply digits_acc_uint_pos.
Qed.

Lemma all_digits_uint d : all_digits (NilEmpty.string_of_uint d) = true.
Proof. induction d; simpl; done. Qed.

Lemma decimal_digits n : decimal n ≠ "" /\ all_digits (decimal n) = true.
Proof.
  unfold decimal, NilZero.string_of_uint.
  assert (Hnil : N.to_uint n <> Decimal.Nil).
  { destruct n; [done|]. apply DecimalPos.Unsigned.to_uint_nonnil. }
  destruct (N.to_uint n) eqn:E; try done; split; try done;
    rewrite <- E; apply all_digits_uint.
Qed.

Lemma digits_acc_decimal n : digits_acc 10 (decimal n) 0 = n.
Proof.
  unfold decimal, NilZero.string_of_uint.
  rewrite <- (DecimalN.Unsigned.of_to n) at 2.
  destruct (N.to_uint n) eqn:E; try (rewrite <- E; apply digits_acc_uint).
  done.
Qed.





(** *** Frame properties *)

(** C9.  [clearCache] empties the cache and leaves the call counts as they
    are; [resetCallCounts] removes every call count and leaves the cache as
    it is.  Neither touches the world. *)
Theorem clearCache_resetCallCounts_frame this w :
  (HederaDeFi.cache (client_of (clearCache this w)) = ∅
   /\ HederaDeFi.callCounts (client_of (clearCache this w)) = HederaDeFi.callCounts this
   /\ world_of (clearCache this w) = w)
  /\ (HederaDeFi.callCounts (client_of (resetCallCounts this w)) = ∅
      /\ HederaDeFi.cache (client_of (resetCallCounts this w)) = HederaDeFi.cache this
      /\ world_of (resetCallCounts this w) = w).
Proof. repeat split. Qed.

(** C10.  Called with a market record, [getBonzoReserves] and
    [getBonzoTotalMarkets] compute their result from that record alone: the
    client (cache, call counts) and the world (no request issued) are as
    before. *)
Theorem cachedData_used_without_fetch (cachedData : BonzoMarketData.t) this w :
  getBonzoReserves host (Some cachedData) this w
  = (Returned (BonzoMarketData.reserves cachedData), this, w)
  /\ getBonzoTotalMarkets host (Some cachedData) this w
     = (Returned
          (Some
             {| BonzoTotalMarkets.chainId := BonzoMarketData.chainId cachedData;
                BonzoTotalMarkets.networkName := BonzoMarketData.networkName cachedData;
                BonzoTotalMarkets.totalMarketSupplied :=
                  BonzoMarketData.totalMarketSupplied cachedData;
                BonzoTotalMarkets.totalMarketBorrowed :=
                  BonzoMarketData.totalMarketBorrowed cachedData;
                BonzoTotalMarkets.totalMarketLiquidity :=
                  BonzoMarketData.totalMarketLiquidity cachedData;
                BonzoTotalMarkets.totalMarketReserve :=
                  BonzoMarketData.totalMarketReserve cachedData;
                BonzoTotalMarkets.timestamp := BonzoMarketData.timestamp cachedData;
                BonzoTotalMarkets.totalReserves :=
                  length (BonzoMarketData.reserves cachedData) |}),
        this, w).
Proof. split; reflexivity. Qed.

(** *** [retryWithBackoff] *)

Lemma num_le_of_Z (a b : Z) : num_le (num_of_Z a) (num_of_Z b) = (a <=? b).
Proof.
  unfold num_le, num_of_Z. destruct (Z.leb_spec a b) as [Hle|Hgt].
  - apply Qle_bool_iff. by rewrite <- Zle_Qle.
  - apply not_true_is_false. rewrite Qle_bool_iff, <- Zle_Qle. lia.
Qed.

Lemma num_eq_of_Z (a b : Z) : num_eq (num_of_Z a) (num_of_Z b) = (a =? b).
Proof.
  unfold num_eq, num_of_Z. destruct (Z.eqb_spec a b) as [->|Hne].
  - apply Qeq_bool_iff. reflexivity.
  - apply not_true_is_false. rewrite Qeq_bool_iff, inject_Z_injective. done.
Qed.

(** An attempt the loop makes is at most the integer part of [maxRetries]. *)
Lemma attempt_le_max_attempts (a : Z) maxRetries :
  num_le (num_of_Z a) maxRetries = true -> a <= Z.of_nat (max_attempts maxRetries).
Proof.
  destruct maxRetries as [|q]; [done|]. unfold num_le, num_of_Z, max_attempts.
  rewrite Qle_bool_iff. unfold Qle. simpl. intros Hle.
  assert (a <= Qnum q / Z.pos (Qden q)).
  { apply Z.div_le_lower_bound; lia. }
  lia.
Qed.

(** The loop invariant behind the bounds: with [attempt = calls + 1] on
    entry, the calls and the sleeps stay within the attempts allowed, and
    no delay is above [maxDelay]. *)
Lemma retry_loop_bounds {T} (outcomes : nat -> outcome T) maxRetries b m fuel :
  forall (calls : nat) slept,
    (length slept <= calls)%nat ->
    Forall (fun d => num_le d (Fin m) = true) slept ->
    let r := retry_loop (scripted outcomes) maxRetries (Fin b) (Fin m) fuel
               (Z.of_nat calls + 1) calls slept in
    (calls <= max_attempts maxRetries -> Retry.state r <= max_attempts maxRetries)%nat
    /\ (length (Retry.slept r) <= Retry.state r)%nat
    /\ Forall (fun d => num_le d (Fin m) = true) (Retry.slept r).
Proof.
  induction fuel as [|fuel IH]; intros calls slept Hlen Hdelays;
    cbv zeta; cbn [retry_loop].
  - done.
  - destruct (num_le (num_of_Z (Z.of_nat calls + 1)) maxRetries) eqn:Hle;
      [|by repeat split].
    apply attempt_le_max_attempts in Hle.
    change (scripted outcomes calls) with (outcomes calls, S calls).
    destruct (outcomes calls) as [v|e];
      cbn [Retry.state Retry.slept].
    + split; [lia|]. split; [lia|done].
    + destruct (num_eq (num_of_Z (Z.of_nat calls + 1)) maxRetries);
        cbn [Retry.state Retry.slept].
      * split; [lia|]. split; [lia|done].
      * replace (Z.of_nat calls + 1 + 1) with (Z.of_nat (S calls) + 1) by lia.
        destruct (IH (S calls) (slept ++ [backoff_delay (Fin b) (Fin m) (Z.of_nat calls + 1)]))
          as (Hc & Hs & Hd).
        { rewrite length_app. simpl. lia. }
        { apply Forall_app. split; [done|]. constructor; [|done].
          unfold backoff_delay, num_mul, num_min.
          destruct (Qle_bool _ m) eqn:Hmin; simpl; [done|].
          apply Qle_bool_iff, Qle_refl. }
        split; [intros _; apply Hc; lia|]. done.
Qed.

(** X1.  Whatever [fn] does, [retryWithBackoff] calls it at most as often as
    the integer part of [maxRetries] allows (never when [maxRetries] is
    below 1 or [NaN]), sleeps at most once per call, and never sleeps
    longer than [maxDelay]. *)
Theorem retryWithBackoff_bounds {T} (outcomes : nat -> outcome T) maxRetries (b m : Q) :
  let r := retryWithBackoff (scripted outcomes) maxRetries (Fin b) (Fin m) 0%nat in
  (Retry.state r <= max_attempts maxRetries)%nat
  /\ (length (Retry.slept r) <= Retry.state r)%nat
  /\ Forall (fun d => num_le d (Fin m) = true) (Retry.slept r).
Proof.
  destruct (retry_loop_bounds outcomes maxRetries b m (max_attempts maxRetries + 1)
              0%nat []) as (Hc & Hs & Hd); [done|done|].
  split; [apply Hc; lia|]. done.
Qed.

(** While the attempts fail and [maxRetries] is not reached, the loop goes
    on, sleeping after each failure. *)
Lemma retry_loop_failures {T} (outcomes : nat -> outcome T) maxRetries b m (j : nat) :
  forall fuel (calls : nat) slept,
    (forall i, (calls <= i < calls + j)%nat ->
               (exists e, outcomes i = Thrown e)
               /\ num_le (num_of_Z (Z.of_nat i + 1)) maxRetries = true
               /\ num_eq (num_of_Z (Z.of_nat i + 1)) maxRetries = false) ->
    retry_loop (scripted outcomes) maxRetries b m (j + fuel) (Z.of_nat calls + 1) calls slept
    = retry_loop (scripted outcomes) maxRetries b m fuel
        (Z.of_nat (calls + j) + 1) (calls + j)%nat
        (slept ++ map (fun i => backoff_delay b m (Z.of_nat i + 1)) (seq calls j)).
Proof.
  induction j as [|j IH]; intros fuel calls slept Hfail.
  - simpl. by rewrite Nat.add_0_r, app_nil_r.
  - destruct (Hfail calls ltac:(lia)) as ([e He] & Hle & Hne).
    change (S j + fuel)%nat with (S (j + fuel)). cbn [retry_loop].
    rewrite Hle. change (scripted outcomes calls) with (outcomes calls, S calls).
    rewrite He, Hne.
    replace (Z.of_nat calls + 1 + 1) with (Z.of_nat (S calls) + 1) by lia.
    rewrite IH by (intros i Hi; apply Hfail; lia).
    replace (S calls + j)%nat with (calls + S j)%nat by lia.
    f_equal. simpl. by rewrite <- app_assoc.
Qed.

(** Attempts below one that [maxRetries] admits are admitted too, and are
    not the last. *)
Lemma earlier_attempts (i k : nat) maxRetries :
  (i < k)%nat ->
  num_le (num_of_Z (Z.of_nat k + 1)) maxRetries = true ->
  num_le (num_of_Z (Z.of_nat i + 1)) maxRetries = true
  /\ num_eq (num_of_Z (Z.of_nat i + 1)) maxRetries = false.
Proof.
  intros Hik. destruct maxRetries as [|q]; [done|]. unfold num_le, num_eq, num_of_Z.
  rewrite !Qle_bool_iff. intros Hk.
  assert (Hlt : (inject_Z (Z.of_nat i + 1) < inject_Z (Z.of_nat k + 1))%Q).
  { rewrite <- Zlt_Qlt. lia. }
  split.
  - apply Qlt_le_weak. eapply Qlt_le_trans; eauto.
  - apply not_true_is_false. rewrite Qeq_bool_iff. intros Heq.
    rewrite Heq in Hlt. apply (Qlt_irrefl q). eapply Qlt_le_trans; eauto.
Qed.

(** X2.  When the first [k] calls throw and the next one returns [v], with
    [k + 1 <= maxRetries], [retryWithBackoff] returns [v] after exactly
    [k + 1] calls and [k] sleeps, the [i]-th of
    [min(baseDelay * 2^(i-1), maxDelay)] milliseconds. *)
Theorem retryWithBackoff_first_success {T} (outcomes : nat -> outcome T)
    maxRetries b m (k : nat) (v : T) :
  (forall i, (i < k)%nat -> exists e, outcomes i = Thrown e) ->
  outcomes k = Returned v ->
  num_le (num_of_Z (Z.of_nat k + 1)) maxRetries = true ->
  retryWithBackoff (scripted outcomes) maxRetries b m 0%nat
  = {| Retry.result := Returned v;
       Retry.state := S k;
       Retry.slept := map (fun i => backoff_delay b m (Z.of_nat i + 1)) (seq 0 k) |}.
Proof.
  intros Hfail Hok Hle. unfold retryWithBackoff.
  pose proof (attempt_le_max_attempts _ _ Hle) as Hmax.
  replace (max_attempts maxRetries + 1)%nat
    with (k + S (max_attempts maxRetries - k))%nat by lia.
  match goal with
  | |- context [retry_loop ?f ?mr ?b' ?m' ?fuel 1 ?c ?sl] =>
      change (retry_loop f mr b' m' fuel 1 c sl)
        with (retry_loop f mr b' m' fuel (Z.of_nat 0 + 1) c sl)
  end.
  rewrite retry_loop_failures.
  - cbn [retry_loop]. rewrite Nat.add_0_l, Hle.
    change (scripted outcomes k) with (outcomes k, S k). by rewrite Hok.
  - intros i Hi. split; [apply Hfail; lia|]. apply (earlier_attempts i k); [lia|done].
Qed.

(** X3.  When [maxRetries] is the integer [n >= 1] and all [n] calls throw,
    [retryWithBackoff] rethrows the error of the last call, after [n] calls
    and [n - 1] sleeps.  When [maxRetries] is below 1 or [NaN], [fn] is not
    called at all and the error is ['Max retries exceeded']. *)
Theorem retryWithBackoff_exhausted :
  (forall T (outcomes : nat -> outcome T) b m (n : nat) (e : error),
      (forall i, (i < n)%nat -> exists e', outcomes i = Thrown e') ->
      outcomes n = Thrown e ->
      retryWithBackoff (scripted outcomes) (num_of_Z (Z.of_nat n + 1)) b m 0%nat
      = {| Retry.result := Thrown e;
           Retry.state := S n;
           Retry.slept := map (fun i => backoff_delay b m (Z.of_nat i + 1)) (seq 0 n) |})
  /\ (forall S T (fn : S -> outcome T * S) maxRetries b m (s : S),
         num_le (Fin 1) maxRetries = false ->
         retryWithBackoff fn maxRetries b m s
         = {| Retry.result := Thrown (Error "Max retries exceeded");
              Retry.state := s;
              Retry.slept := [] |}).
Proof.
  split.
  - intros T outcomes b m n e Hfail Hlast. unfold retryWithBackoff.
    assert (Hle : num_le (num_of_Z (Z.of_nat n + 1)) (num_of_Z (Z.of_nat n + 1)) = true).
    { rewrite num_le_of_Z. lia. }
    pose proof (attempt_le_max_attempts _ _ Hle) as Hmax.
    replace (max_attempts (num_of_Z (Z.of_nat n + 1)) + 1)%nat
      with (n + S (max_attempts (num_of_Z (Z.of_nat n + 1)) - n))%nat by lia.
    match goal with
    | |- context [retry_loop ?f ?mr ?b' ?m' ?fuel 1 ?c ?sl] =>
        change (retry_loop f mr b' m' fuel 1 c sl)
          with (retry_loop f mr b' m' fuel (Z.of_nat 0 + 1) c sl)
    end.
    rewrite retry_loop_failures.
    + cbn [retry_loop]. rewrite Nat.add_0_l, Hle.
      change (scripted outcomes n) with (outcomes n, S n).
      rewrite Hlast, num_eq_of_Z, Z.eqb_refl. done.
    + intros i Hi. split; [apply Hfail; lia|]. apply (earlier_attempts i n); [lia|done].
  - intros S T fn maxRetries b m s Hlt. unfold retryWithBackoff.
    rewrite Nat.add_1_r. cbn [retry_loop].
    change (num_of_Z 1) with (Fin 1). by rewrite Hlt.
Qed.

(** *** The three request methods *)

Lemma request_is_executor path prms :
  path ≠ "" ->
  request host path prms
  = executor host (request_key host path prms) (request_GET path prms) false.
Proof. intros Hpath. unfold request. by destruct (String.eqb_spec path ""). Qed.

Lemma saucerswapRequest_is_executor path :
  saucerswapRequest host path
  = executor host ("saucer:" +:+ path) (saucerswap_GET path) true.
Proof. reflexivity. Qed.

Lemma bonzoRequest_is_executor path :
  bonzoRequest host path = executor host ("bonzo:" +:+ path) (bonzo_GET path) true.
Proof. reflexivity. Qed.

Lemma check_cache_fresh cacheKey this w :
  check_cache cacheKey this w = (Returned (fresh_payload this (clock w) cacheKey), this, w).
Proof. apply check_cache_spec. Qed.

(** What a request method does, case by case. *)
Lemma executor_spec cacheKey mkreq pass_body this w :
  executor host cacheKey mkreq pass_body this w =
    match fresh_payload this (clock w) cacheKey with
    | Some data => (Returned data, this, w)
    | None =>
        let w' := settled host (mkreq this) w in
        match (http_get host (mkreq this) (clock w)).1 with
        | Response status data =>
            if (status =? 200) && truthy data
            then (Returned data,
                  HederaDeFi.set_cache
                    (<[cacheKey := {| CacheEntry.data := data;
                                      CacheEntry.timestamp := clock w' |}]>
                       (HederaDeFi.cache this)) this,
                  w')
            else (Returned (if pass_body then or_else data empty_object else empty_object),
                  this, w')
        | AxiosError _ _ | OtherError _ => (Returned empty_object, this, w')
        end
    end.
Proof.
  unfold executor. unfold bind at 1. rewrite check_cache_fresh.
  destruct (fresh_payload this (clock w) cacheKey) as [data|]; [done|].
  unfold bind, get_this, httpClient_get, settled. simpl.
  destruct (http_get host (mkreq this) (clock w)) as [out elapsed]. simpl.
  destruct out as [status data| |]; try done.
  by destruct ((status =? 200) && truthy data).
Qed.

Lemma executor_fetch_then_hit cacheKey mkreq pass_body this w data :
  fresh_payload this (clock w) cacheKey = None ->
  (http_get host (mkreq this) (clock w)).1 = Response 200 data ->
  truthy data = true ->
  let r := executor host cacheKey mkreq pass_body this w in
  result_of r = Returned data
  /\ requests (world_of r) = requests w ++ [mkreq this]
  /\ (forall w', clock w' - clock (world_of r) < HederaDeFi.cacheTtl this * 1000 ->
                 executor host cacheKey mkreq pass_body (client_of r) w'
                 = (Returned data, client_of r, w')).
Proof.
  intros Hmiss Hget Hdata r. subst r.
  rewrite (executor_spec cacheKey mkreq pass_body this w), Hmiss, Hget. simpl.
  rewrite Hdata. simpl. split; [done|]. split; [done|].
  intros w' Hfresh. rewrite executor_spec.
  unfold fresh_payload at 1. simpl. rewrite lookup_insert_eq. simpl.
  by destruct (Z.ltb_spec (clock w' - (clock w + (http_get host (mkreq this) (clock w)).2))
                 (HederaDeFi.cacheTtl this * 1000)); [|lia].
Qed.

(** X4.  Round trip through the cache, for each of the three request
    methods: when there is no fresh entry and the GET is answered with
    status 200 and a truthy body, the method returns that body after one
    GET, and any further call made less than the TTL after the answer
    returns the same body without touching the client or the network. *)
Theorem fetch_then_served_from_cache path prms this w data :
  let holds (m : M value) (cacheKey : string) (req : Request) :=
    fresh_payload this (clock w) cacheKey = None ->
    (http_get host req (clock w)).1 = Response 200 data ->
    truthy data = true ->
    result_of (m this w) = Returned data
    /\ requests (world_of (m this w)) = requests w ++ [req]
    /\ (forall w', clock w' - clock (world_of (m this w)) < HederaDeFi.cacheTtl this * 1000 ->
                   m (client_of (m this w)) w'
                   = (Returned data, client_of (m this w), w')) in
  path ≠ "" ->
  holds (request host path prms) (request_key host path prms) (request_GET path prms this)
  /\ holds (saucerswapRequest host path) ("saucer:" +:+ path) (saucerswap_GET path this)
  /\ holds (bonzoRequest host path) ("bonzo:" +:+ path) (bonzo_GET path this).
Proof.
  cbv zeta. intros Hpath.
  rewrite request_is_executor, saucerswapRequest_is_executor, bonzoRequest_is_executor
    by done.
  split; [|split]; intros Hmiss Hget Hdata.
  - exact (executor_fetch_then_hit _ (request_GET path prms) _ this w data Hmiss Hget Hdata).
  - exact (executor_fetch_then_hit _ (saucerswap_GET path) _ this w data Hmiss Hget Hdata).
  - exact (executor_fetch_then_hit _ (bonzo_GET path) _ this w data Hmiss Hget Hdata).
Qed.

(** X5.  A response that is not a 200 with a truthy body (any other status,
    a 200 with an empty, null, zero or false body, a timeout, a connection
    error) is never cached: the client is left as it was, after one GET.
    [request] then returns the empty object; [saucerswapRequest] and
    [bonzoRequest] return the response body when there is a truthy one,
    and the empty object otherwise. *)
Theorem unsuccessful_response_not_cached path prms this w :
  let holds (m : M value) (cacheKey : string) (req : Request) (pass_body : bool) :=
    fresh_payload this (clock w) cacheKey = None ->
    successful (http_get host req (clock w)).1 = false ->
    m this w =
      (Returned (if pass_body then body_or_empty (http_get host req (clock w)).1
                 else empty_object),
       this, settled host req w) in
  path ≠ "" ->
  holds (request host path prms) (request_key host path prms)
        (request_GET path prms this) false
  /\ holds (saucerswapRequest host path) ("saucer:" +:+ path)
           (saucerswap_GET path this) true
  /\ holds (bonzoRequest host path) ("bonzo:" +:+ path) (bonzo_GET path this) true.
Proof.
  cbv zeta. intros Hpath.
  rewrite request_is_executor, saucerswapRequest_is_executor, bonzoRequest_is_executor
    by done.
  repeat split; intros Hmiss Hbad; rewrite executor_spec, Hmiss;
    cbv zeta; destruct (http_get host _ (clock w)).1 as [status data| |];
    simpl in *; try done; by rewrite Hbad.
Qed.

(** *** Relations the methods respect *)

Section Respects.

Context (R : HederaDeFi.t -> HederaDeFi.t -> Prop).
Context (R_refl : forall this, R this this).
Context (R_trans : forall a b c, R a b -> R b c -> R a c).

Lemma respects_ret {A} (a : A) : respects R (ret a).
Proof. intros this w. apply R_refl. Qed.

Lemma respects_throw {A} e : respects R (@throw A e).
Proof. intros this w. apply R_refl. Qed.

Lemma respects_lift {A} (o : outcome A) : respects R (lift o).
Proof. intros this w. apply R_refl. Qed.

Lemma respects_get_this : respects R get_this.
Proof. intros this w. apply R_refl. Qed.

Lemma respects_Date_now : respects R Date_now.
Proof. intros this w. apply R_refl. Qed.

Lemma respects_bind {A B} (m : M A) (k : A -> M B) :
  respects R m -> (forall a, respects R (k a)) -> respects R (bind m k).
Proof.
  intros Hm Hk this w. unfold bind.
  specialize (Hm this w). unfold client_of in *.
  destruct (m this w) as [[[a|e] this1] w1]; simpl in *; [|done].
  eapply R_trans; [exact Hm|]. apply (Hk a this1 w1).
Qed.

End Respects.

Lemma cache_extends_refl this : cache_extends this this.
Proof. split; done. Qed.

Lemma cache_extends_trans a b c :
  cache_extends a b -> cache_extends b c -> cache_extends a c.
Proof. intros [Hd1 Ht1] [Hd2 Ht2]. split; [set_solver|auto]. Qed.

Lemma cache_truthy_insert this cacheKey data t :
  truthy data = true -> cache_truthy this ->
  cache_truthy
    (HederaDeFi.set_cache
       (<[cacheKey := {| CacheEntry.data := data; CacheEntry.timestamp := t |}]>
          (HederaDeFi.cache this)) this).
Proof.
  intros Hdata Hthis key entry. simpl.
  destruct (decide (cacheKey = key)) as [->|Hne].
  - rewrite lookup_insert_eq. by intros [= <-].
  - rewrite lookup_insert_ne by done. apply Hthis.
Qed.

(** A request method never removes an entry and never stores a falsy
    payload. *)
Lemma executor_cache_extends cacheKey mkreq pass_body :
  respects cache_extends (executor host cacheKey mkreq pass_body).
Proof.
  intros this w. rewrite executor_spec.
  destruct (fresh_payload this (clock w) cacheKey); [apply cache_extends_refl|].
  cbv zeta. destruct (http_get host (mkreq this) (clock w)).1 as [status data| |];
    try apply cache_extends_refl.
  destruct ((status =? 200) && truthy data) eqn:Hok; [|apply cache_extends_refl].
  apply andb_prop in Hok as [_ Hdata]. unfold client_of. simpl. split.
  - simpl. rewrite dom_insert_L. set_solver.
  - by apply cache_truthy_insert.
Qed.

Lemma request_cache_extends path prms : respects cache_extends (request host path prms).
Proof.
  destruct (String.eqb_spec path "") as [->|Hpath].
  - intros this w. apply cache_extends_refl.
  - rewrite request_is_executor by done. apply executor_cache_extends.
Qed.

Lemma cache_extends_same_cache this this' :
  HederaDeFi.cache this' = HederaDeFi.cache this -> cache_extends this this'.
Proof.
  intros Hsame. unfold cache_extends, cache_truthy. rewrite Hsame. done.
Qed.

Lemma trackCall_cache_extends methodName : respects cache_extends (trackCall methodName).
Proof. intros this w. by apply cache_extends_same_cache. Qed.

Ltac respects_cache :=
  repeat first
    [ assumption
    | match goal with H : forall _, respects _ _ |- _ => apply H end
    | apply respects_ret; apply cache_extends_refl
    | apply respects_throw; apply cache_extends_refl
    | apply respects_lift; apply cache_extends_refl
    | apply respects_get_this; apply cache_extends_refl
    | apply respects_Date_now; apply cache_extends_refl
    | apply trackCall_cache_extends
    | apply request_cache_extends
    | apply executor_cache_extends
    | apply respects_bind; [apply cache_extends_trans| |intros ?]
    | match goal with
      | |- respects _ (if ?b then _ else _) => destruct b
      | |- respects _ (match ?x with _ => _ end) => destruct x
      end ].

Lemma getSaucerSwapTokens_cache_extends : respects cache_extends (getSaucerSwapTokens host).
Proof. unfold getSaucerSwapTokens. rewrite saucerswapRequest_is_executor. respects_cache. Qed.

Lemma getSaucerSwapPools_cache_extends : respects cache_extends (getSaucerSwapPools host).
Proof. unfold getSaucerSwapPools. rewrite saucerswapRequest_is_executor. respects_cache. Qed.

Lemma getSaucerSwapStats_cache_extends : respects cache_extends (getSaucerSwapStats host).
Proof. unfold getSaucerSwapStats. rewrite saucerswapRequest_is_executor. respects_cache. Qed.

Lemma getBonzoMarkets_cache_extends : respects cache_extends (getBonzoMarkets host).
Proof. unfold getBonzoMarkets. rewrite bonzoRequest_is_executor. respects_cache. Qed.

Lemma getAccountInfo_cache_extends accountId :
  respects cache_extends (getAccountInfo host accountId).
Proof. unfold getAccountInfo. respects_cache. Qed.

(** X6.  No method other than [clearCache] removes a cache entry or stores
    a falsy payload: after any of them the cache has at least the keys it
    had, and if its payloads were all truthy they still are.  A new client
    starts with an empty cache. *)
Theorem cache_never_evicted :
  (forall config, HederaDeFi.cache (new_HederaDeFi config) = ∅)
  /\ (forall path prms, respects cache_extends (request host path prms))
  /\ (forall path, respects cache_extends (saucerswapRequest host path))
  /\ (forall path, respects cache_extends (bonzoRequest host path))
  /\ respects cache_extends (getNetworkSupply host)
  /\ respects cache_extends (getNetworkNodes host)
  /\ respects cache_extends (getNetworkExchangeRate host)
  /\ (forall accountId, respects cache_extends (getAccountInfo host accountId))
  /\ (forall accountId, respects cache_extends (getAccountBalance host accountId))
  /\ (forall accountId, respects cache_extends (getAccountTokens host accountId))
  /\ (forall limit sortBy, respects cache_extends (getTopTokens host limit sortBy))
  /\ (forall tokenId, respects cache_extends (getTokenInfo host tokenId))
  /\ respects cache_extends (getBonzoMarkets host)
  /\ (forall cachedData, respects cache_extends (getBonzoReserves host cachedData))
  /\ (forall cachedData, respects cache_extends (getBonzoTotalMarkets host cachedData))
  /\ respects cache_extends (getSaucerSwapPools host)
  /\ respects cache_extends (getSaucerSwapTokens host)
  /\ respects cache_extends (getSaucerSwapStats host)
  /\ respects cache_extends (getCrossProtocolLiquiditySummary host)
  /\ respects cache_extends showCallStatistics
  /\ respects cache_extends resetCallCounts
  /\ respects cache_extends getCacheStats.
Proof.
  pose proof getSaucerSwapTokens_cache_extends.
  pose proof getSaucerSwapPools_cache_extends.
  pose proof getSaucerSwapStats_cache_extends.
  pose proof getBonzoMarkets_cache_extends.
  pose proof getAccountInfo_cache_extends.
  split; [done|].
  repeat match goal with |- _ /\ _ => split end; try done; intros;
    try (rewrite ?saucerswapRequest_is_executor, ?bonzoRequest_is_executor;
         apply executor_cache_extends);
    try apply request_cache_extends;
    try (intros this w; by apply cache_extends_same_cache).
  - unfold getNetworkSupply. respects_cache.
  - unfold getNetworkNodes. respects_cache.
  - unfold getNetworkExchangeRate. respects_cache.
  - unfold getAccountBalance. respects_cache; auto.
  - unfold getAccountTokens. respects_cache.
  - unfold getTopTokens. respects_cache; auto.
  - unfold getTokenInfo. respects_cache.
  - unfold getBonzoReserves, cached_or_fetch. respects_cache; auto.
  - unfold getBonzoTotalMarkets, cached_or_fetch. respects_cache; auto.
  - unfold getCrossProtocolLiquiditySummary. respects_cache; auto.
Qed.

(** X7.  On a client whose cached payloads are all truthy (a new client is
    one, and every method keeps it so), the three request methods return
    truthy values only: a cached payload, a truthy body, or the empty
    object.  The [data &&] tests of their callers never fail. *)
Theorem request_methods_return_truthy this w :
  cache_truthy this ->
  (forall path prms, path ≠ "" ->
     exists data, result_of (request host path prms this w) = Returned data
                  /\ truthy data = true)
  /\ (forall path,
        exists data, result_of (saucerswapRequest host path this w) = Returned data
                     /\ truthy data = true)
  /\ (forall path,
        exists data, result_of (bonzoRequest host path this w) = Returned data
                     /\ truthy data = true).
Proof.
  intros Htruthy.
  assert (Hexec : forall cacheKey mkreq pass_body,
             exists data,
               result_of (executor host cacheKey mkreq pass_body this w) = Returned data
               /\ truthy data = true).
  { intros cacheKey mkreq pass_body. rewrite executor_spec.
    unfold fresh_payload.
    destruct (HederaDeFi.cache this !! cacheKey) as [cached|] eqn:Hin.
    - destruct (_ <? _); [by exists (CacheEntry.data cached); split; [|eapply Htruthy]|].
      cbv zeta. destruct (http_get host (mkreq this) (clock w)).1 as [status data| |];
        try by exists empty_object.
      destruct ((status =? 200) && truthy data) eqn:Hok.
      + apply andb_prop in Hok as [_ Hdata]. by exists data.
      + destruct pass_body; [|by exists empty_object].
        exists (or_else data empty_object). split; [done|].
        unfold or_else. by destruct (truthy data) eqn:Hd.
    - cbv zeta. destruct (http_get host (mkreq this) (clock w)).1 as [status data| |];
        try by exists empty_object.
      destruct ((status =? 200) && truthy data) eqn:Hok.
      + apply andb_prop in Hok as [_ Hdata]. by exists data.
      + destruct pass_body; [|by exists empty_object].
        exists (or_else data empty_object). split; [done|].
        unfold or_else. by destruct (truthy data) eqn:Hd. }
  split; [|split].
  - intros path prms Hpath. rewrite request_is_executor by done. apply Hexec.
  - intros path. rewrite saucerswapRequest_is_executor. apply Hexec.
  - intros path. rewrite bonzoRequest_is_executor. apply Hexec.
Qed.

(** *** Accessors on a request that fails *)

Lemma request_unsuccessful path prms this w :
  path ≠ "" ->
  fresh_payload this (clock w) (request_key host path prms) = None ->
  successful (http_get host (request_GET path prms this) (clock w)).1 = false ->
  request host path prms this w
  = (Returned empty_object, this, settled host (request_GET path prms this) w).
Proof.
  intros Hpath Hmiss Hbad. rewrite request_is_executor, executor_spec, Hmiss by done.
  cbv zeta. destruct (http_get host _ (clock w)).1 as [status data| |]; simpl in *; try done.
  by rewrite Hbad.
Qed.

Lemma rejected_executor cacheKey mkreq pass_body this w :
  fresh_payload this (clock w) cacheKey = None ->
  rejected (http_get host (mkreq this) (clock w)).1 ->
  executor host cacheKey mkreq pass_body this w
  = (Returned empty_object, this, settled host (mkreq this) w).
Proof.
  intros Hmiss Hrej. rewrite executor_spec, Hmiss.
  cbv zeta. by destruct (http_get host _ (clock w)).1.
Qed.

(** X8.  When the request finds no fresh entry and fails (any response that
    is not a 200 with a truthy body, or no response), [getNetworkNodes]
    returns the empty list, [getNetworkExchangeRate] returns [undefined],
    and [getAccountTokens], for an accepted identifier, returns the empty
    list; nothing is cached. *)
Theorem network_accessors_fail_open this w :
  let failing path :=
    fresh_payload this (clock w) (request_key host path None) = None
    /\ successful (http_get host (request_GET path None this) (clock w)).1 = false in
  (failing "network/nodes" ->
   result_of (getNetworkNodes host this w) = Returned []
   /\ HederaDeFi.cache (client_of (getNetworkNodes host this w)) = HederaDeFi.cache this)
  /\ (failing "network/exchangerate" ->
      getNetworkExchangeRate host this w
      = (Returned None, this, settled host (request_GET "network/exchangerate" None this) w))
  /\ (forall accountId,
         validateAccountId accountId = true ->
         failing ("accounts/" +:+ accountId +:+ "/tokens") ->
         getAccountTokens host accountId this w
         = (Returned [], this,
            settled host (request_GET ("accounts/" +:+ accountId +:+ "/tokens") None this) w)).
Proof.
  cbv zeta. split; [|split].
  - intros [Hmiss Hbad]. unfold getNetworkNodes.
    rewrite (bind_returns _ _ _ _ _ _ _ (trackCall_spec _ _ _)).
    erewrite bind_returns; [|apply request_unsuccessful; done]. done.
  - intros [Hmiss Hbad]. unfold getNetworkExchangeRate.
    erewrite bind_returns; [|apply request_unsuccessful; done]. done.
  - intros accountId Hvalid [Hmiss Hbad]. unfold getAccountTokens. rewrite Hvalid. simpl.
    erewrite bind_returns; [|apply request_unsuccessful; done]. done.
Qed.

(** X9.  For an accepted identifier whose request finds no fresh entry and
    fails, [getAccountInfo] does not return [undefined]: it returns a
    record that echoes the identifier, with balance 0 and empty timestamps,
    and [getAccountBalance] returns 0. *)
Theorem account_accessors_fail_open accountId this w :
  validateAccountId accountId = true ->
  fresh_payload this (clock w) (request_key host ("accounts/" +:+ accountId) None) = None ->
  successful
    (http_get host (request_GET ("accounts/" +:+ accountId) None this) (clock w)).1 = false ->
  (exists info,
      result_of (getAccountInfo host accountId this w) = Returned (Some info)
      /\ AccountInfo.account info = VStr accountId
      /\ AccountInfo.balance info
         = {| Balance.balance := Fin 0; Balance.timestamp := VStr "" |}
      /\ AccountInfo.createdTimestamp info = VStr ""
      /\ AccountInfo.memo info = VUndefined)
  /\ result_of (getAccountBalance host accountId this w) = Returned (Fin 0)
  /\ client_of (getAccountBalance host accountId this w) = this.
Proof.
  intros Hvalid Hmiss Hbad.
  assert (Hinfo : exists info,
             getAccountInfo host accountId this w
             = (Returned (Some info), this,
                settled host (request_GET ("accounts/" +:+ accountId) None this) w)
             /\ AccountInfo.account info = VStr accountId
             /\ AccountInfo.balance info
                = {| Balance.balance := Fin 0; Balance.timestamp := VStr "" |}
             /\ AccountInfo.createdTimestamp info = VStr ""
             /\ AccountInfo.memo info = VUndefined).
  { unfold getAccountInfo. rewrite Hvalid. simpl.
    erewrite bind_returns; [|apply request_unsuccessful; done].
    eexists. split; [reflexivity|]. simpl. done. }
  destruct Hinfo as (info & Hrun & Haccount & Hbalance & Hcreated & Hmemo).
  split.
  - exists info. by rewrite Hrun.
  - unfold getAccountBalance. erewrite bind_returns; [|exact Hrun].
    unfold ret, result_of, client_of. cbn [fst snd]. rewrite Hbalance. done.
Qed.

(** X10.  [getTokenInfo] accepts exactly the identifiers that start with
    [0.0.]: every identifier [validateAccountId] accepts, and others such
    as ["0.0.abc"].  A rejected identifier throws before anything else
    happens.  For an accepted one the request layer hands over a payload,
    and the method returns unless that payload is an object whose
    [decimals] or [total_supply] cannot be converted to a string, when it
    throws a [TypeError].  For an accepted one whose request finds no fresh
    entry and fails, the result is not [undefined] but a token of defaults:
    empty symbol and name, 8 decimals, supply 0. *)
Theorem getTokenInfo_validation_and_defaults tokenId this w :
  (validateAccountId tokenId = true -> String.prefix "0.0." tokenId = true)
  /\ (String.prefix "0.0." "0.0.abc" = true /\ validateAccountId "0.0.abc" = false)
  /\ (String.prefix "0.0." tokenId = true ->
      exists data,
        result_of (request host ("tokens/" +:+ tokenId) None this w) = Returned data
        /\ let unreadable name fallback :=
             is_thrown (ToString host (or_else (get data name) (VStr fallback))) in
           if truthy data && typeof_object data
              && (unreadable "decimals" "8" || unreadable "total_supply" "0")
           then result_of (getTokenInfo host tokenId this w) = Thrown TypeError
           else exists token, result_of (getTokenInfo host tokenId this w) = Returned token)
  /\ (String.prefix "0.0." tokenId = false ->
      getTokenInfo host tokenId this w
      = (Thrown (Error ("Invalid token ID format: " +:+ tokenId)), this, w))
  /\ (String.prefix "0.0." tokenId = true ->
      fresh_payload this (clock w) (request_key host ("tokens/" +:+ tokenId) None) = None ->
      successful
        (http_get host (request_GET ("tokens/" +:+ tokenId) None this) (clock w)).1 = false ->
      getTokenInfo host tokenId this w
      = (Returned
           (Some {| Token.tokenId := VStr tokenId;
                    Token.symbol := VStr "";
                    Token.name := VStr "";
                    Token.decimals := Fin 8;
                    Token.totalSupply := Fin 0;
                    Token.price := VNum (Fin 0);
                    Token.tvl := Fin 0;
                    Token.volume24h := Fin 0;
                    Token.holders := Fin 0 |}),
         this, settled host (request_GET ("tokens/" +:+ tokenId) None this) w)).
Proof.
  split; [|split; [|split; [|split]]].
  - intros (num & -> & _)%validateAccountId_spec. by destruct num.
  - done.
  - intros Hok. unfold getTokenInfo. rewrite Hok.
    assert (String.eqb tokenId "" = false) as ->.
    { by destruct tokenId. }
    cbn [orb negb].
    destruct (request_returns ("tokens/" +:+ tokenId) None this w) as [data Hdata]; [done|].
    exists data. split; [exact Hdata|]. cbv zeta.
    destruct (request host _ None this w) as [[res this1] w1] eqn:Hrun.
    unfold result_of in Hdata. simpl in Hdata. subst res.
    rewrite (bind_returns _ _ _ _ _ _ _ Hrun).
    rewrite <- negb_andb.
    destruct (truthy data && typeof_object data); cbn [negb andb]; [|by eexists].
    unfold parseInt.
    destruct (ToString host (or_else (get data "decimals") (VStr "8")))
      as [decimals|e] eqn:Hdecimals; rewrite bind_lift; cbn [and_then is_thrown orb andb].
    + rewrite bind_lift.
      destruct (ToString host (or_else (get data "total_supply") (VStr "0")))
        as [supply|e] eqn:Hsupply; cbn [and_then is_thrown orb andb]; [by eexists|].
      by rewrite (ToString_thrown _ _ Hsupply).
    + by rewrite (ToString_thrown _ _ Hdecimals).
  - intros Hbad. unfold getTokenInfo. rewrite Hbad. by rewrite orb_true_r.
  - intros Hok Hmiss Hfail. unfold getTokenInfo. rewrite Hok.
    assert (String.eqb tokenId "" = false) as ->.
    { by destruct tokenId. }
    simpl. erewrite bind_returns; [|apply request_unsuccessful; done]. done.
Qed.

(** X11.  When the GET is rejected and there is no fresh entry,
    [getSaucerSwapPools] and [getSaucerSwapTokens] return the empty list,
    and [getSaucerSwapStats] returns the empty object, not its record of
    zeros: [tvlUsd] is then [undefined]. *)
Theorem saucerswap_accessors_fail_open this w :
  let failing path :=
    fresh_payload this (clock w) ("saucer:" +:+ path) = None
    /\ rejected (http_get host (saucerswap_GET path this) (clock w)).1 in
  (failing "pools" -> result_of (getSaucerSwapPools host this w) = Returned [])
  /\ (failing "tokens" -> result_of (getSaucerSwapTokens host this w) = Returned [])
  /\ (failing "stats" ->
      result_of (getSaucerSwapStats host this w) = Returned empty_object
      /\ get empty_object "tvlUsd" = VUndefined).
Proof.
  cbv zeta. split; [|split]; intros [Hmiss Hrej].
  - unfold getSaucerSwapPools.
    rewrite (bind_returns _ _ _ _ _ _ _ (trackCall_spec _ _ _)).
    rewrite saucerswapRequest_is_executor.
    erewrite bind_returns; [|apply rejected_executor; done]. done.
  - unfold getSaucerSwapTokens.
    rewrite (bind_returns _ _ _ _ _ _ _ (trackCall_spec _ _ _)).
    rewrite saucerswapRequest_is_executor.
    erewrite bind_returns; [|apply rejected_executor; done]. done.
  - unfold getSaucerSwapStats.
    rewrite (bind_returns _ _ _ _ _ _ _ (trackCall_spec _ _ _)).
    rewrite saucerswapRequest_is_executor.
    erewrite bind_returns; [|apply rejected_executor; done]. done.
Qed.

(** X12.  When the GET is rejected and there is no fresh entry,
    [getBonzoMarkets] does not return [undefined] but a record of defaults:
    empty chain and network names, the four totals as [{ usdDisplay: '0' }],
    no reserves, and the current instant as timestamp. *)
Theorem getBonzoMarkets_fail_open this w :
  fresh_payload this (clock w) "bonzo:Market" = None ->
  rejected (http_get host (bonzo_GET "Market" this) (clock w)).1 ->
  let w' := settled host (bonzo_GET "Market" this) w in
  result_of (getBonzoMarkets host this w)
  = Returned
      (Some {| BonzoMarketData.chainId := VStr "";
               BonzoMarketData.networkName := VStr "";
               BonzoMarketData.totalMarketSupplied := VObj [("usdDisplay", VStr "0")];
               BonzoMarketData.totalMarketBorrowed := VObj [("usdDisplay", VStr "0")];
               BonzoMarketData.totalMarketLiquidity := VObj [("usdDisplay", VStr "0")];
               BonzoMarketData.totalMarketReserve := VObj [("usdDisplay", VStr "0")];
               BonzoMarketData.reserves := [];
               BonzoMarketData.timestamp := VStr (Date_toISOString host (clock w')) |}).
Proof.
  intros Hmiss Hrej w'. unfold getBonzoMarkets.
  rewrite (bind_returns _ _ _ _ _ _ _ (trackCall_spec _ _ _)).
  rewrite bonzoRequest_is_executor.
  erewrite bind_returns; [|apply rejected_executor; done]. done.
Qed.

Lemma fresh_payload_empty this now cacheKey :
  HederaDeFi.cache this = ∅ -> fresh_payload this now cacheKey = None.
Proof. intros Hempty. unfold fresh_payload. by rewrite Hempty, lookup_empty. Qed.

Lemma tracked_cache methodName this w :
  HederaDeFi.cache (client_of (trackCall methodName this w)) = HederaDeFi.cache this.
Proof. reflexivity. Qed.

Section Outage.

Hypothesis outage : forall req t, rejected (http_get host req t).1.

Lemma getSaucerSwapStats_outage this w :
  HederaDeFi.cache this = ∅ ->
  getSaucerSwapStats host this w
  = (Returned empty_object, client_of (trackCall "getSaucerSwapStats" this w),
     settled host (saucerswap_GET "stats" this) w).
Proof.
  intros Hempty. unfold getSaucerSwapStats.
  rewrite (bind_returns _ _ _ _ _ _ _ (trackCall_spec _ _ _)).
  rewrite saucerswapRequest_is_executor.
  erewrite bind_returns;
    [|apply rejected_executor; [by apply fresh_payload_empty|apply outage]].
  done.
Qed.

Lemma getSaucerSwapPools_outage this w :
  HederaDeFi.cache this = ∅ ->
  getSaucerSwapPools host this w
  = (Returned [], client_of (trackCall "getSaucerSwapPools" this w),
     settled host (saucerswap_GET "pools" this) w).
Proof.
  intros Hempty. unfold getSaucerSwapPools.
  rewrite (bind_returns _ _ _ _ _ _ _ (trackCall_spec _ _ _)).
  rewrite saucerswapRequest_is_executor.
  erewrite bind_returns;
    [|apply rejected_executor; [by apply fresh_payload_empty|apply outage]].
  done.
Qed.

Lemma getBonzoMarkets_outage this w :
  HederaDeFi.cache this = ∅ ->
  let w' := settled host (bonzo_GET "Market" this) w in
  getBonzoMarkets host this w
  = (Returned
       (Some {| BonzoMarketData.chainId := VStr "";
                BonzoMarketData.networkName := VStr "";
                BonzoMarketData.totalMarketSupplied := VObj [("usdDisplay", VStr "0")];
                BonzoMarketData.totalMarketBorrowed := VObj [("usdDisplay", VStr "0")];
                BonzoMarketData.totalMarketLiquidity := VObj [("usdDisplay", VStr "0")];
                BonzoMarketData.totalMarketReserve := VObj [("usdDisplay", VStr "0")];
                BonzoMarketData.reserves := [];
                BonzoMarketData.timestamp := VStr (Date_toISOString host (clock w')) |}),
     client_of (trackCall "getBonzoMarkets" this w), w').
Proof.
  intros Hempty w'. unfold getBonzoMarkets.
  rewrite (bind_returns _ _ _ _ _ _ _ (trackCall_spec _ _ _)).
  rewrite bonzoRequest_is_executor.
  erewrite bind_returns;
    [|apply rejected_executor; [by apply fresh_payload_empty|apply outage]].
  done.
Qed.

(** X13.  With every GET rejected and an empty cache,
    [getCrossProtocolLiquiditySummary] still returns a summary, after
    exactly three GETs (statistics, pools, market): total, both TVLs, both
    percentages and all four counts are 0, and the timings are the
    durations of the three failed requests. *)
Theorem liquidity_summary_on_outage this w :
  HederaDeFi.cache this = ∅ ->
  let w1 := settled host (saucerswap_GET "stats" this) w in
  let w2 := settled host (saucerswap_GET "pools" this) w1 in
  let w3 := settled host (bonzo_GET "Market" this) w2 in
  result_of (getCrossProtocolLiquiditySummary host this w)
  = Returned
      {| LiquiditySummary.totalLiquidityUsd := VNum (Fin 0);
         LiquiditySummary.saucerswap :=
           {| SaucerSwapSummary.tvlUsd := VNum (Fin 0);
              SaucerSwapSummary.poolCount := 0;
              SaucerSwapSummary.activePools := 0;
              SaucerSwapSummary.protocolType := "DEX" |};
         LiquiditySummary.bonzoFinance :=
           {| BonzoSummary.tvlUsd := Fin 0;
              BonzoSummary.reserveCount := 0;
              BonzoSummary.activeReserves := 0;
              BonzoSummary.protocolType := "Lending" |};
         LiquiditySummary.protocolDistribution :=
           {| ProtocolDistribution.dexPercentage := Fin 0;
              ProtocolDistribution.lendingPercentage := Fin 0 |};
         LiquiditySummary.timestamp := Date_toISOString host (clock w3);
         LiquiditySummary.performance :=
           {| Performance.totalTime := clock w3 - clock w;
              Performance.saucerswapTime := clock w2 - clock w;
              Performance.bonzoTime := clock w3 - clock w2 |} |}
  /\ world_of (getCrossProtocolLiquiditySummary host this w) = w3
  /\ requests w3 = requests w ++ [saucerswap_GET "stats" this;
                                  saucerswap_GET "pools" this;
                                  bonzo_GET "Market" this]
  /\ HederaDeFi.cache (client_of (getCrossProtocolLiquiditySummary host this w)) = ∅.
Proof.
  intros Hempty w1 w2 w3.
  assert (Hrun : exists this3 summary,
             getCrossProtocolLiquiditySummary host this w = (Returned summary, this3, w3)
             /\ HederaDeFi.cache this3 = ∅
             /\ summary =
                {| LiquiditySummary.totalLiquidityUsd := VNum (Fin 0);
                   LiquiditySummary.saucerswap :=
                     {| SaucerSwapSummary.tvlUsd := VNum (Fin 0);
                        SaucerSwapSummary.poolCount := 0;
                        SaucerSwapSummary.activePools := 0;
                        SaucerSwapSummary.protocolType := "DEX" |};
                   LiquiditySummary.bonzoFinance :=
                     {| BonzoSummary.tvlUsd := Fin 0;
                        BonzoSummary.reserveCount := 0;
                        BonzoSummary.activeReserves := 0;
                        BonzoSummary.protocolType := "Lending" |};
                   LiquiditySummary.protocolDistribution :=
                     {| ProtocolDistribution.dexPercentage := Fin 0;
                        ProtocolDistribution.lendingPercentage := Fin 0 |};
                   LiquiditySummary.timestamp := Date_toISOString host (clock w3);
                   LiquiditySummary.performance :=
                     {| Performance.totalTime := clock w3 - clock w;
                        Performance.saucerswapTime := clock w2 - clock w;
                        Performance.bonzoTime := clock w3 - clock w2 |} |}).
  { unfold getCrossProtocolLiquiditySummary.
    do 2 (erewrite bind_returns; [|reflexivity]).
    erewrite bind_returns; [|by apply getSaucerSwapStats_outage].
    erewrite bind_returns; [|by apply getSaucerSwapPools_outage].
    do 2 (erewrite bind_returns; [|reflexivity]).
    erewrite bind_returns; [|by apply getBonzoMarkets_outage].
    do 2 (erewrite bind_returns; [|reflexivity]).
    erewrite bind_returns; [|reflexivity].
    eexists _, _. split; [reflexivity|]. split; [exact Hempty|]. reflexivity. }
  destruct Hrun as (this3 & summary & Hrun & Hcache & ->).
  rewrite Hrun. repeat split; try done.
  unfold w3, w2, w1, settled. simpl. by rewrite <- !app_assoc.
Qed.

End Outage.

(** *** Arrays with a [null] element *)

Lemma map_outcome_nullish {A} (f : value -> outcome A) (l : list value) :
  (forall x, nullish x = true -> f x = Thrown TypeError) ->
  (forall x, nullish x = false -> exists y, f x = Returned y) ->
  if existsb nullish l
  then map_outcome f l = Thrown TypeError
  else exists ys, map_outcome f l = Returned ys
                  /\ Forall2 (fun x y => f x = Returned y) l ys.
Proof.
  intros Hnull Hok. induction l as [|x l IH]; simpl.
  - exists []. split; [done|constructor].
  - destruct (nullish x) eqn:Hx; simpl.
    + by rewrite Hnull.
    + destruct (Hok x Hx) as [y Hy]. rewrite Hy.
      destruct (existsb nullish l).
      * by rewrite IH.
      * destruct IH as (ys & -> & Hall). exists (y :: ys). split; [done|].
        by constructor.
Qed.

Lemma getBonzoMarkets_payload this w data reserves :
  result_of (bonzoRequest host "Market"
               (client_of (trackCall "getBonzoMarkets" this w)) w) = Returned data ->
  get data "reserves" = VArr reserves ->
  exists mk : list BonzoReserve.t -> BonzoMarketData.t,
    result_of (getBonzoMarkets host this w)
    = match
        ToString host
          (or_else (get (get data "total_market_supplied") "usd_display") (VStr "$0"))
      with
      | Returned _ =>
          match map_outcome to_BonzoReserve reserves with
          | Returned rs => Returned (Some (mk rs))
          | Thrown e => Thrown e
          end
      | Thrown e => Thrown e
      end
    /\ forall rs, BonzoMarketData.reserves (mk rs) = rs.
Proof.
  intros Hdata Hreserves. unfold getBonzoMarkets.
  rewrite (bind_returns _ _ _ _ _ _ _ (trackCall_spec _ _ _)).
  unfold client_of in Hdata. rewrite trackCall_spec in Hdata. simpl in Hdata.
  unfold bind at 1. destruct (bonzoRequest host "Market" _ w) as [[res this1] w1].
  unfold result_of in Hdata. simpl in Hdata. subst res.
  assert (truthy data && typeof_object data = true) as Hobj by (by destruct data).
  unfold bind at 1. unfold Date_now at 1. rewrite Hobj, Hreserves.
  rewrite bind_lift.
  eexists (fun rs => BonzoMarketData.Build_t _ _ _ _ _ _ rs _). split.
  - destruct (ToString host _); [|reflexivity].
    rewrite bind_lift.
    destruct (map_outcome to_BonzoReserve reserves); reflexivity.
  - done.
Qed.

(** X14.  A [null] element in the upstream array is not absorbed: with the
    payload [data] handed over by the request layer, [getNetworkNodes]
    throws a [TypeError] when [data.nodes] holds a [null] (or [undefined])
    element, and [getBonzoMarkets] does when [data.reserves] holds one.
    Otherwise each returns one record per element, in order;
    [getBonzoMarkets] provided the TVL its log line prints can be
    converted to a string, which is a [TypeError] too when it cannot. *)
Theorem null_element_throws this w :
  (forall data nodes,
      result_of (request host "network/nodes" None
                   (client_of (trackCall "getNetworkNodes" this w)) w) = Returned data ->
      get data "nodes" = VArr nodes ->
      if existsb nullish nodes
      then result_of (getNetworkNodes host this w) = Thrown TypeError
      else exists result,
          result_of (getNetworkNodes host this w) = Returned result
          /\ Forall2 (fun node r => to_NetworkNode node = Returned r) nodes result)
  /\ (forall data reserves,
         result_of (bonzoRequest host "Market"
                      (client_of (trackCall "getBonzoMarkets" this w)) w) = Returned data ->
         get data "reserves" = VArr reserves ->
         if existsb nullish reserves
            || is_thrown
                 (ToString host
                    (or_else (get (get data "total_market_supplied") "usd_display")
                       (VStr "$0")))
         then result_of (getBonzoMarkets host this w) = Thrown TypeError
         else exists market,
             result_of (getBonzoMarkets host this w) = Returned (Some market)
             /\ Forall2 (fun reserve r => to_BonzoReserve reserve = Returned r)
                        reserves (BonzoMarketData.reserves market)).
Proof.
  split.
  - intros data nodes Hdata Hnodes. unfold getNetworkNodes.
    rewrite (bind_returns _ _ _ _ _ _ _ (trackCall_spec _ _ _)).
    unfold client_of in Hdata. rewrite trackCall_spec in Hdata. simpl in Hdata.
    unfold bind. destruct (request host "network/nodes" None _ w) as [[res this1] w1].
    unfold result_of in *. simpl in *. subst res.
    assert (truthy data = true) as -> by (by destruct data).
    rewrite Hnodes. unfold lift. simpl.
    pose proof (map_outcome_nullish to_NetworkNode nodes) as Hmap.
    destruct (existsb nullish nodes); apply Hmap;
      intros x Hx; unfold to_NetworkNode; rewrite Hx; eauto.
  - intros data reserves Hdata Hreserves.
    destruct (getBonzoMarkets_payload this w data reserves Hdata Hreserves)
      as (mk & Hrun & Hmk).
    rewrite Hrun.
    pose proof (map_outcome_nullish to_BonzoReserve reserves) as Hmap.
    assert (Hmap' : if existsb nullish reserves
                    then map_outcome to_BonzoReserve reserves = Thrown TypeError
                    else exists ys, map_outcome to_BonzoReserve reserves = Returned ys
                                    /\ Forall2 (fun x y => to_BonzoReserve x = Returned y)
                                               reserves ys).
    { apply Hmap; intros x Hx; unfold to_BonzoReserve; rewrite Hx; eauto. }
    clear Hmap.
    destruct (ToString host _) as [tvlStr|e] eqn:Htvl; cbn [is_thrown].
    + rewrite orb_false_r. destruct (existsb nullish reserves).
      * by rewrite Hmap'.
      * destruct Hmap' as (rs & Hm & Hall). rewrite Hm.
        eexists. split; [reflexivity|]. by rewrite Hmk.
    + rewrite orb_true_r. by rewrite (ToString_thrown _ _ Htvl).
Qed.


(** *** The arithmetic helpers of [src/utils] *)

Lemma num_le_Fin (x y : Q) : num_le (Fin x) (Fin y) = true <-> (x <= y)%Q.
Proof. apply Qle_bool_iff. Qed.

Lemma Qred_Qle_bool (x y : Q) : Qle_bool (Qred x) (Qred y) = Qle_bool x y.
Proof. by rewrite !Qred_correct. Qed.

(** X15.  The guards of the arithmetic helpers, on finite numbers (neither
    [NaN] nor an infinity, which the numbers of this development do not
    include): [safeDivide] and [calculatePercentageChange] never produce
    [NaN] (the quotient by zero is replaced); an unchanged value is a
    change of 0; and [estimateTransactionCost] is never negative.  From 0,
    a change to [NaN] or to a negative value is reported as 100. *)
Theorem arithmetic_guards (a b d : Q) :
  isNaN (safeDivide (Fin a) (Fin b) (Fin d)) = false
  /\ isNaN (calculatePercentageChange (Fin a) (Fin b)) = false
  /\ calculatePercentageChange (Fin a) (Fin a) = Fin 0
  /\ calculatePercentageChange (Fin 0) NaN = Fin 100
  /\ ((b < 0)%Q -> calculatePercentageChange (Fin 0) (Fin b) = Fin 100)
  /\ num_le (Fin 0) (estimateTransactionCost (Fin a) (Fin b)) = true.
Proof.
  repeat match goal with |- _ /\ _ => split end.
  - unfold safeDivide, num_eq, num_div. by destruct (Qeq_bool b 0).
  - unfold calculatePercentageChange, num_eq, num_div, num_sub, num_mul.
    destruct (Qeq_bool a 0); [by destruct (Qeq_bool b 0)|done].
  - unfold calculatePercentageChange, num_eq, num_div, num_sub, num_mul.
    destruct (Qeq_bool a 0) eqn:Ha; [done|].
    apply Qeq_bool_neq in Ha. f_equal. apply Qred_zero.
    rewrite !Qred_correct. field. done.
  - done.
  - intros Hb. unfold calculatePercentageChange, num_eq.
    change (Qeq_bool 0 0) with true. cbv iota.
    destruct (Qeq_bool b 0) eqn:E; [|done].
    apply Qeq_bool_eq in E. lra.
  - unfold estimateTransactionCost.
    destruct (num_le (Fin a) (Fin 0)) eqn:Ha; [done|].
    destruct (num_le (Fin b) (Fin 0)) eqn:Hb; [done|].
    simpl. unfold num_le in *.
    apply Qle_bool_iff. rewrite Qred_correct.
    assert (~ (a <= 0)%Q) by (intros Hle; apply Qle_bool_iff in Hle; congruence).
    assert (~ (b <= 0)%Q) by (intros Hle; apply Qle_bool_iff in Hle; congruence).
    nra.
Qed.

(** X16.  [isWithinTolerance] on finite numbers (neither [NaN] nor an
    infinity, which the numbers of this development do not include): a
    value is within any tolerance of itself; the sign of the tolerance
    does not matter; a wider tolerance accepts whatever a narrower one
    does; and a target of 0 accepts 0 only, whatever the tolerance.  With
    a [NaN] argument the answer is [false]. *)
Theorem isWithinTolerance_properties (v t tol tol' : Q) :
  isWithinTolerance (Fin t) (Fin t) (Fin tol) = true
  /\ isWithinTolerance (Fin v) (Fin t) (Fin (- tol))
     = isWithinTolerance (Fin v) (Fin t) (Fin tol)
  /\ ((Qabs tol <= Qabs tol')%Q ->
      isWithinTolerance (Fin v) (Fin t) (Fin tol) = true ->
      isWithinTolerance (Fin v) (Fin t) (Fin tol') = true)
  /\ isWithinTolerance (Fin v) (Fin 0) (Fin tol) = Qeq_bool v 0
  /\ (forall x y, isWithinTolerance NaN x y = false
                  /\ isWithinTolerance (Fin v) NaN y = false
                  /\ isWithinTolerance (Fin v) (Fin t) NaN = false).
Proof.
  unfold isWithinTolerance, num_abs, num_sub, num_mul, num_le.
  repeat match goal with |- _ /\ _ => split end.
  - apply Qle_bool_iff. rewrite !Qred_correct.
    assert (t - t == 0)%Q as -> by ring. apply Qabs_nonneg.
  - apply Bool.eq_iff_eq_true. rewrite !Qle_bool_iff, !Qred_correct.
    by rewrite !Qabs_Qmult, Qabs_opp.
  - rewrite !Qle_bool_iff, !Qred_correct, !Qabs_Qmult. intros Htol Hin.
    eapply Qle_trans; [exact Hin|].
    pose proof (Qabs_nonneg t). nra.
  - apply Bool.eq_iff_eq_true. rewrite Qle_bool_iff, Qeq_bool_iff, !Qred_correct.
    split; intros H.
    + revert H. do 2 apply Qabs_case; intros; lra.
    + rewrite H. do 2 apply Qabs_case; intros; lra.
  - intros x y. by destruct x, y.
Qed.

(** *** Call statistics *)

Lemma total_insert_fresh (counts : gmap string nat) methodName count :
  counts !! methodName = None ->
  map_fold (fun _ count sum => (sum + count)%nat) 0%nat (<[methodName := count]> counts)
  = (map_fold (fun _ count sum => (sum + count)%nat) 0%nat counts + count)%nat.
Proof.
  intros Hfresh. rewrite map_fold_insert_L; [done| |done].
  intros. lia.
Qed.

Lemma total_insert (counts : gmap string nat) methodName count :
  (map_fold (fun _ count sum => (sum + count)%nat) 0%nat (<[methodName := count]> counts)
   + default 0 (counts !! methodName))%nat
  = (map_fold (fun _ count sum => (sum + count)%nat) 0%nat counts + count)%nat.
Proof.
  destruct (counts !! methodName) as [old|] eqn:Hold; simpl.
  - rewrite <- (insert_delete_eq counts methodName count).
    rewrite total_insert_fresh by apply lookup_delete_eq.
    rewrite (map_fold_delete_L _ _ methodName old counts); [lia| |done].
    intros. lia.
  - rewrite total_insert_fresh by done. lia.
Qed.

Lemma total_bounds (counts : gmap string nat) :
  map_Forall (fun _ count => (1 <= count)%nat) counts ->
  (size counts + 10 * size (filter (fun entry => (10 < entry.2)%nat) counts)
   <= map_fold (fun _ count sum => (sum + count)%nat) 0%nat counts)%nat.
Proof.
  induction counts as [|methodName count counts Hfresh IH] using map_ind.
  - intros _. rewrite map_filter_empty, map_size_empty, map_fold_empty. lia.
  - intros Hpos. apply map_Forall_insert in Hpos as [Hcount Hpos]; [|done].
    specialize (IH Hpos).
    rewrite total_insert_fresh, map_size_insert_None by done.
    destruct (decide (10 < count)%nat) as [Hmany|Hfew].
    + rewrite map_filter_insert_True by done.
      rewrite map_size_insert_None; [lia|].
      apply map_lookup_filter_None. by left.
    + rewrite map_filter_insert_False by done.
      rewrite delete_id by done. lia.
Qed.

Lemma showCallStatistics_spec this w :
  showCallStatistics this w =
    (Returned
       {| CallStatistics.callCounts := HederaDeFi.callCounts this;
          CallStatistics.totalCalls :=
            map_fold (fun _ count sum => (sum + count)%nat) 0%nat
              (HederaDeFi.callCounts this);
          CallStatistics.uniqueMethods := size (HederaDeFi.callCounts this);
          CallStatistics.excessiveMethods :=
            dom (filter (fun entry => (10 < entry.2)%nat) (HederaDeFi.callCounts this)) |},
     this, w).
Proof. reflexivity. Qed.

(** X17.  The report of [showCallStatistics], which changes nothing: one
    tracked call raises [totalCalls] by exactly 1, and [uniqueMethods] by 1
    when the method had no count yet; after [resetCallCounts] the totals
    are 0; a method is listed as excessive exactly when its count exceeds
    10.  Counts of at least 1 stay so under [trackCall], and then every
    method accounts for at least one call and every excessive one for at
    least eleven. *)
Theorem call_statistics_totals methodName this w :
  exists before after cleared,
    showCallStatistics this w = (Returned before, this, w)
    /\ result_of (showCallStatistics (client_of (trackCall methodName this w)) w)
       = Returned after
    /\ result_of (showCallStatistics (client_of (resetCallCounts this w)) w)
       = Returned cleared
    /\ CallStatistics.totalCalls after = S (CallStatistics.totalCalls before)
    /\ CallStatistics.uniqueMethods after
       = match HederaDeFi.callCounts this !! methodName with
         | Some _ => CallStatistics.uniqueMethods before
         | None => S (CallStatistics.uniqueMethods before)
         end
    /\ CallStatistics.totalCalls cleared = 0%nat
    /\ CallStatistics.uniqueMethods cleared = 0%nat
    /\ CallStatistics.excessiveMethods cleared = ∅
    /\ (forall name, name ∈ CallStatistics.excessiveMethods before
                     <-> (10 < HederaDeFi.callCount this name)%nat)
    /\ (counts_positive this ->
        counts_positive (client_of (trackCall methodName this w))
        /\ (CallStatistics.uniqueMethods before
            + 10 * size (CallStatistics.excessiveMethods before)
            <= CallStatistics.totalCalls before)%nat).
Proof.
  do 3 eexists. rewrite !showCallStatistics_spec. unfold result_of. cbn [fst].
  split; [reflexivity|]. split; [reflexivity|]. split; [reflexivity|].
  cbn [CallStatistics.totalCalls CallStatistics.uniqueMethods
       CallStatistics.excessiveMethods].
  unfold client_of. rewrite trackCall_spec. cbn [fst snd resetCallCounts].
  cbn [HederaDeFi.callCounts HederaDeFi.set_callCounts].
  repeat match goal with |- _ /\ _ => split end.
  - pose proof (total_insert (HederaDeFi.callCounts this) methodName
                  (HederaDeFi.callCount this methodName + 1)) as Htotal.
    unfold HederaDeFi.callCount in *. lia.
  - rewrite map_size_insert. by destruct (HederaDeFi.callCounts this !! methodName).
  - apply map_fold_empty.
  - apply map_size_empty.
  - by rewrite map_filter_empty, dom_empty_L.
  - intros name. rewrite elem_of_dom. unfold HederaDeFi.callCount, is_Some.
    setoid_rewrite map_lookup_filter_Some. simpl.
    destruct (HederaDeFi.callCounts this !! name) as [count|]; simpl.
    + split; [by intros (? & [= <-] & ?)|eauto].
    + split; [by intros (? & ? & ?)|lia].
  - intros Hpos. split.
    + unfold counts_positive. simpl. apply map_Forall_insert_2; [lia|done].
    + rewrite size_dom. by apply total_bounds.
Qed.

(** *** Cache statistics *)

Lemma getCacheStats_spec this w :
  getCacheStats this w =
    (Returned {| CacheStats.size := size (HederaDeFi.cache this);
                 CacheStats.entries := dom (HederaDeFi.cache this) |},
     this, w).
Proof. reflexivity. Qed.

Lemma executor_entries cacheKey mkreq pass_body this w :
  dom (HederaDeFi.cache (client_of (executor host cacheKey mkreq pass_body this w)))
  = if match fresh_payload this (clock w) cacheKey with
       | Some _ => false
       | None => successful (http_get host (mkreq this) (clock w)).1
       end
    then {[cacheKey]} ∪ dom (HederaDeFi.cache this)
    else dom (HederaDeFi.cache this).
Proof.
  rewrite executor_spec.
  destruct (fresh_payload this (clock w) cacheKey); [done|].
  cbv zeta. destruct (http_get host (mkreq this) (clock w)).1 as [status data| |];
    try done.
  simpl. destruct ((status =? 200) && truthy data); [|done].
  unfold client_of. simpl. by rewrite dom_insert_L.
Qed.

(** X18.  [getCacheStats] reports the keys of the cache and their number,
    and changes nothing.  After [clearCache] it reports no entry.  A call
    of a request method adds its own key when it stores a response, that is
    when there is no fresh entry and the response is a 200 with a truthy
    body, and leaves the keys as they were otherwise; an entry that has
    expired stays listed. *)
Theorem cache_statistics path prms this w w' :
  let stores cacheKey req :=
    match fresh_payload this (clock w) cacheKey with
    | Some _ => false
    | None => successful (http_get host req (clock w)).1
    end in
  let grows (m : M value) cacheKey req :=
    exists after,
      getCacheStats (client_of (m this w)) w' = (Returned after, client_of (m this w), w')
      /\ CacheStats.size after = size (CacheStats.entries after)
      /\ CacheStats.entries after
         = if stores cacheKey req
           then {[cacheKey]} ∪ dom (HederaDeFi.cache this)
           else dom (HederaDeFi.cache this) in
  result_of (getCacheStats (client_of (clearCache this w)) w')
  = Returned {| CacheStats.size := 0; CacheStats.entries := ∅ |}
  /\ (path ≠ "" ->
      grows (request host path prms) (request_key host path prms)
            (request_GET path prms this))
  /\ grows (saucerswapRequest host path) ("saucer:" +:+ path) (saucerswap_GET path this)
  /\ grows (bonzoRequest host path) ("bonzo:" +:+ path) (bonzo_GET path this).
Proof.
  cbv zeta. repeat match goal with |- _ /\ _ => split end.
  - rewrite getCacheStats_spec. unfold result_of, client_of. simpl.
    by rewrite map_size_empty, dom_empty_L.
  - intros Hpath. eexists. rewrite getCacheStats_spec. split; [reflexivity|].
    cbn [CacheStats.size CacheStats.entries]. split; [by rewrite size_dom|].
    rewrite request_is_executor by done. apply executor_entries.
  - eexists. rewrite getCacheStats_spec. split; [reflexivity|].
    cbn [CacheStats.size CacheStats.entries]. split; [by rewrite size_dom|].
    rewrite saucerswapRequest_is_executor. apply executor_entries.
  - eexists. rewrite getCacheStats_spec. split; [reflexivity|].
    cbn [CacheStats.size CacheStats.entries]. split; [by rewrite size_dom|].
    rewrite bonzoRequest_is_executor. apply executor_entries.
Qed.

(** *** The errors a method can throw *)

Section ThrowsOnly.

Context (P : error -> Prop).

Lemma throws_only_ret {A} (a : A) : throws_only P (ret a).
Proof. by intros this w e. Qed.

Lemma throws_only_throw {A} e : P e -> throws_only P (@throw A e).
Proof. intros He this w e' [= <-]. done. Qed.

Lemma throws_only_lift {A} (o : outcome A) :
  (forall e, o = Thrown e -> P e) -> throws_only P (lift o).
Proof. intros Ho this w e. apply Ho. Qed.

Lemma throws_only_get_this : throws_only P get_this.
Proof. by intros this w e. Qed.

Lemma throws_only_Date_now : throws_only P Date_now.
Proof. by intros this w e. Qed.

Lemma throws_only_trackCall methodName : throws_only P (trackCall methodName).
Proof. by intros this w e. Qed.

Lemma throws_only_bind {A B} (m : M A) (k : A -> M B) :
  throws_only P m -> (forall a, throws_only P (k a)) -> throws_only P (bind m k).
Proof.
  intros Hm Hk this w e. unfold bind.
  specialize (Hm this w). unfold result_of in *.
  destruct (m this w) as [[[a|e'] this1] w1]; simpl in *.
  - apply Hk.
  - intros [= <-]. by apply Hm.
Qed.

Lemma throws_only_executor cacheKey mkreq pass_body :
  throws_only P (executor host cacheKey mkreq pass_body).
Proof.
  intros this w e. rewrite executor_spec.
  destruct (fresh_payload this (clock w) cacheKey); [done|].
  cbv zeta. destruct (http_get host (mkreq this) (clock w)).1 as [status data| |];
    try done.
  by destruct ((status =? 200) && truthy data).
Qed.

Lemma throws_only_request path prms :
  P (Error "Path cannot be empty") -> throws_only P (request host path prms).
Proof.
  intros Hpath. destruct (String.eqb_spec path "") as [->|Hne].
  - by apply throws_only_throw.
  - rewrite request_is_executor by done. apply throws_only_executor.
Qed.

Lemma throws_only_request_path path prms :
  path ≠ "" -> throws_only P (request host path prms).
Proof. intros Hne. rewrite request_is_executor by done. apply throws_only_executor. Qed.

Lemma throws_only_map_outcome {A} (f : value -> outcome A) l :
  (forall x e, f x = Thrown e -> P e) ->
  forall e, map_outcome f l = Thrown e -> P e.
Proof.
  intros Hf. induction l as [|x l IH]; intros e; simpl; [done|].
  destruct (f x) as [y|e'] eqn:Hx.
  - destruct (map_outcome f l) as [ys|e'']; [done|].
    intros [= <-]. by apply IH.
  - intros [= <-]. by eapply Hf.
Qed.

Lemma throws_only_filter_outcome {A} (f : A -> outcome bool) l :
  (forall x e, f x = Thrown e -> P e) ->
  forall e, filter_outcome f l = Thrown e -> P e.
Proof.
  intros Hf. induction l as [|x l IH]; intros e; simpl; [done|].
  destruct (f x) as [y|e'] eqn:Hx.
  - destruct (filter_outcome f l) as [ys|e'']; [done|].
    intros [= <-]. by apply IH.
  - intros [= <-]. by eapply Hf.
Qed.

End ThrowsOnly.

Lemma throws_only_weaken {A} (P Q : error -> Prop) (m : M A) :
  (forall e, P e -> Q e) -> throws_only P m -> throws_only Q m.
Proof. intros HPQ Hm this w e He. apply HPQ. by eapply Hm. Qed.

Lemma throws_only_conversion {A} (P : error -> Prop) (o : outcome A) :
  P TypeError -> (forall e, o = Thrown e -> e = TypeError) -> throws_only P (lift o).
Proof. intros HP Ho. apply throws_only_lift. intros e ->%Ho. exact HP. Qed.

Lemma to_Token_thrown saucerTokenMap tokenData e :
  to_Token host saucerTokenMap tokenData = Thrown e -> e = TypeError.
Proof.
  unfold to_Token. destruct (nullish tokenData); [by intros [= <-]|]. revert e.
  apply and_then_thrown; [intros e; apply parseInt_thrown|intros decimals].
  apply and_then_thrown; [intros e; apply parseInt_thrown|done].
Qed.

Ltac throws_only :=
  repeat first
    [ assumption
    | match goal with H : forall _, throws_only _ _ |- _ => apply H end
    | apply throws_only_ret
    | apply throws_only_get_this
    | apply throws_only_Date_now
    | apply throws_only_trackCall
    | apply throws_only_executor
    | apply throws_only_request_path; done
    | apply throws_only_conversion;
      [ first [reflexivity | by right]
      | first [ intros ?; apply parseInt_thrown | intros ?; apply ToString_thrown
              | intros ?; apply js_add_thrown | intros ?; apply percentage_of_thrown
              | intros ?; apply toLocaleString_thrown
              | apply throws_only_filter_outcome; intros ? ?; apply has_liquidity_thrown
              | apply throws_only_map_outcome; intros ? ?; apply to_Token_thrown ] ]
    | apply throws_only_bind; [|intros ?]
    | match goal with
      | |- throws_only _ (if ?b then _ else _) => destruct b
      | |- throws_only _ (match ?x with _ => _ end) => destruct x
      end ].

Lemma getSaucerSwapTokens_never_throws P : throws_only P (getSaucerSwapTokens host).
Proof. unfold getSaucerSwapTokens. rewrite saucerswapRequest_is_executor. throws_only. Qed.

Lemma getSaucerSwapPools_never_throws P : throws_only P (getSaucerSwapPools host).
Proof. unfold getSaucerSwapPools. rewrite saucerswapRequest_is_executor. throws_only. Qed.

Lemma getSaucerSwapStats_throws : throws_only (eq TypeError) (getSaucerSwapStats host).
Proof. unfold getSaucerSwapStats. rewrite saucerswapRequest_is_executor. throws_only. Qed.

Lemma to_BonzoReserve_throws reserve e : to_BonzoReserve reserve = Thrown e -> e = TypeError.
Proof. unfold to_BonzoReserve. destruct (nullish reserve); [by intros [= <-]|done]. Qed.

Lemma getBonzoMarkets_throws : throws_only (eq TypeError) (getBonzoMarkets host).
Proof.
  unfold getBonzoMarkets. rewrite bonzoRequest_is_executor. throws_only.
  apply throws_only_lift, throws_only_map_outcome.
  intros x e He. by apply to_BonzoReserve_throws in He.
Qed.

Lemma getAccountInfo_throws accountId :
  throws_only (fun e => e = Error ("Invalid account ID format: " +:+ accountId)
                        \/ e = TypeError)
    (getAccountInfo host accountId).
Proof.
  unfold getAccountInfo. destruct (validateAccountId accountId) eqn:Hvalid; simpl.
  - apply validateAccountId_spec in Hvalid as (num & -> & _ & _).
    throws_only.
  - apply throws_only_throw. by left.
Qed.

(** X19.  The errors the methods can throw.  However a GET settles (with a
    response, an axios error, or another error object), the request
    methods absorb it: [saucerswapRequest] and [bonzoRequest] throw
    nothing and [request] throws only for an empty path.  The methods
    built on them throw nothing but their validation error and
    [TypeError], the error of a body that cannot be read (a [null] element
    of an array, a field that cannot be converted to a string):
    [getNetworkExchangeRate], [getSaucerSwapPools] and
    [getSaucerSwapTokens] throw nothing; [getAccountTokens] only its
    validation error; [getAccountInfo], [getAccountBalance] and
    [getTokenInfo] their validation error or a [TypeError];
    [getTopTokens] its limit error or a [TypeError]; and
    [getNetworkSupply], [getNetworkNodes], [getSaucerSwapStats], the Bonzo
    methods and [getCrossProtocolLiquiditySummary] only a [TypeError]. *)
Theorem errors_thrown :
  (forall path, never_throws (saucerswapRequest host path))
  /\ (forall path, never_throws (bonzoRequest host path))
  /\ (forall path prms,
         throws_only (eq (Error "Path cannot be empty")) (request host path prms))
  /\ never_throws (getNetworkExchangeRate host)
  /\ never_throws (getSaucerSwapPools host)
  /\ never_throws (getSaucerSwapTokens host)
  /\ (forall accountId,
         throws_only (eq (Error ("Invalid account ID format: " +:+ accountId)))
           (getAccountTokens host accountId))
  /\ (forall accountId,
         let invalid_or_unreadable e :=
           e = Error ("Invalid account ID format: " +:+ accountId) \/ e = TypeError in
         throws_only invalid_or_unreadable (getAccountInfo host accountId)
         /\ throws_only invalid_or_unreadable (getAccountBalance host accountId))
  /\ (forall tokenId,
         throws_only (fun e => e = Error ("Invalid token ID format: " +:+ tokenId)
                               \/ e = TypeError)
           (getTokenInfo host tokenId))
  /\ (forall limit sortBy,
         throws_only (fun e => e = Error "Limit must be between 1 and 1000"
                               \/ e = TypeError)
           (getTopTokens host limit sortBy))
  /\ throws_only (eq TypeError) (getNetworkSupply host)
  /\ throws_only (eq TypeError) (getNetworkNodes host)
  /\ throws_only (eq TypeError) (getSaucerSwapStats host)
  /\ throws_only (eq TypeError) (getBonzoMarkets host)
  /\ (forall cachedData, throws_only (eq TypeError) (getBonzoReserves host cachedData))
  /\ (forall cachedData, throws_only (eq TypeError) (getBonzoTotalMarkets host cachedData))
  /\ throws_only (eq TypeError) (getCrossProtocolLiquiditySummary host).
Proof.
  pose proof getBonzoMarkets_throws as Hbonzo.
  unfold never_throws.
  repeat match goal with |- _ /\ _ => split end; intros; cbv zeta;
    repeat match goal with |- _ /\ _ => split end.
  - rewrite saucerswapRequest_is_executor. apply throws_only_executor.
  - rewrite bonzoRequest_is_executor. apply throws_only_executor.
  - by apply throws_only_request.
  - unfold getNetworkExchangeRate. throws_only.
  - apply getSaucerSwapPools_never_throws.
  - apply getSaucerSwapTokens_never_throws.
  - unfold getAccountTokens. destruct (validateAccountId accountId) eqn:Hvalid; simpl.
    + apply validateAccountId_spec in Hvalid as (num & -> & _ & _).
      throws_only.
    + by apply throws_only_throw.
  - apply getAccountInfo_throws.
  - unfold getAccountBalance. pose proof (getAccountInfo_throws accountId). throws_only.
  - unfold getTokenInfo.
    destruct (String.eqb tokenId "" || negb (String.prefix "0.0." tokenId)) eqn:Hbad.
    + apply throws_only_throw. by left.
    + throws_only.
  - unfold getTopTokens.
    destruct (num_le limit (Fin 0) || num_gt limit (Fin 1000)).
    + apply throws_only_throw. by left.
    + pose proof (getSaucerSwapTokens_never_throws
                    (fun e => e = Error "Limit must be between 1 and 1000" \/ e = TypeError)).
      throws_only.
      apply throws_only_lift, throws_only_map_outcome.
      intros x e. unfold to_Map_entry. destruct (nullish x); [|done].
      intros [= <-]. by right.
  - unfold getNetworkSupply. throws_only.
  - unfold getNetworkNodes. throws_only.
    apply throws_only_lift, throws_only_map_outcome.
    intros x e. unfold to_NetworkNode. destruct (nullish x); [|done].
    by intros [= <-].
  - apply getSaucerSwapStats_throws.
  - done.
  - unfold getBonzoReserves, cached_or_fetch. throws_only.
  - unfold getBonzoTotalMarkets, cached_or_fetch. throws_only.
  - pose proof getSaucerSwapStats_throws.
    pose proof (getSaucerSwapPools_never_throws (eq TypeError)).
    unfold getCrossProtocolLiquiditySummary. throws_only.
Qed.

(** *** Token and account methods *)

Lemma map_outcome_Forall {A B} (f : A -> outcome B) (Q : B -> Prop) l ys :
  (forall x y, f x = Returned y -> Q y) ->
  map_outcome f l = Returned ys -> Forall Q ys /\ length ys = length l.
Proof.
  intros Hf. revert ys. induction l as [|x l IH]; intros ys; simpl.
  - intros [= <-]. by split.
  - destruct (f x) as [y|] eqn:Hx; [|done].
    destruct (map_outcome f l) as [ys'|]; [|done].
    intros [= <-]. destruct (IH ys' eq_refl) as [Hall Hlen].
    split; [constructor; eauto|simpl; by rewrite Hlen].
Qed.

(** X20.  [getTopTokens] rejects a limit that is at most 0 or above 1000
    before anything else happens; every other limit, a fraction or [NaN]
    included, passes the check.  Each token it returns carries 0 as TVL,
    24-hour volume and holder count. *)
Theorem getTopTokens_limit_and_placeholders limit sortBy this w :
  (num_le limit (Fin 0) || num_gt limit (Fin 1000) = true ->
   getTopTokens host limit sortBy this w
   = (Thrown (Error "Limit must be between 1 and 1000"), this, w))
  /\ ((limit = NaN \/ exists q, limit = Fin q /\ (0 < q)%Q /\ (q <= 1000)%Q) ->
      result_of (getTopTokens host limit sortBy this w)
      ≠ Thrown (Error "Limit must be between 1 and 1000"))
  /\ (forall tokens,
         result_of (getTopTokens host limit sortBy this w) = Returned tokens ->
         Forall (fun token => Token.tvl token = Fin 0
                              /\ Token.volume24h token = Fin 0
                              /\ Token.holders token = Fin 0) tokens).
Proof.
  repeat match goal with |- _ /\ _ => split end.
  - intros Hbad. unfold getTopTokens. by rewrite Hbad.
  - intros Hok.
    assert (Hpass : num_le limit (Fin 0) || num_gt limit (Fin 1000) = false).
    { destruct Hok as [->|(q & -> & Hlow & Hhigh)]; [done|]. simpl.
      apply orb_false_intro.
      - apply Bool.not_true_is_false. rewrite Qle_bool_iff. lra.
      - apply negb_false_iff, Qle_bool_iff. done. }
    unfold getTopTokens. rewrite Hpass. intros Hthrown.
    pose proof (getSaucerSwapTokens_never_throws (eq TypeError)).
    enough (Herr : TypeError = Error "Limit must be between 1 and 1000") by done.
    revert Hthrown. generalize (Error "Limit must be between 1 and 1000").
    revert this w.
    change (throws_only (eq TypeError)
              (data <- request host "tokens"
                 (Some (VObj [("type", VStr "FUNGIBLE_COMMON");
                              ("limit", VNum limit);
                              ("order", VStr (if String.eqb sortBy "created_timestamp"
                                              then "desc" else "asc"))])) ;;
               saucerTokens <- getSaucerSwapTokens host ;;
               saucerTokenMap <- lift (map_outcome to_Map_entry saucerTokens) ;;
               match get data "tokens" with
               | VArr tokens => lift (map_outcome (to_Token host saucerTokenMap) tokens)
               | _ => ret []
               end)).
    throws_only.
    apply throws_only_lift, throws_only_map_outcome.
    intros x e. unfold to_Map_entry. destruct (nullish x); [|done].
    by intros [= <-].
  - intros tokens. unfold getTopTokens.
    destruct (num_le limit (Fin 0) || num_gt limit (Fin 1000)); [done|].
    intros Hrun.
    apply bind_returned in Hrun as (data & ? & ? & _ & Hrun).
    apply bind_returned in Hrun as (saucerTokens & ? & ? & _ & Hrun).
    apply bind_returned in Hrun as (saucerTokenMap & ? & ? & _ & Hrun).
    destruct (get data "tokens") as [| | | | |l|]; try by injection Hrun as <-.
    unfold lift, result_of in Hrun. simpl in Hrun.
    eapply map_outcome_Forall; [|exact Hrun].
    intros tokenData token. unfold to_Token. destruct (nullish tokenData); [done|].
    destruct (parseInt host _) as [decimals|]; [|done].
    destruct (parseInt host _) as [totalSupply|]; [|done].
    by intros [= <-].
Qed.

(** X21.  [getAccountBalance] and [getAccountTokens] leave the client and
    the network untouched when the identifier is rejected by
    [validateAccountId]. *)
Theorem account_methods_reject_before_network accountId this w :
  validateAccountId accountId = false ->
  getAccountBalance host accountId this w
  = (Thrown (Error ("Invalid account ID format: " +:+ accountId)), this, w)
  /\ getAccountTokens host accountId this w
     = (Thrown (Error ("Invalid account ID format: " +:+ accountId)), this, w).
Proof.
  intros Hbad. split.
  - unfold getAccountBalance, bind. by rewrite getAccountInfo_invalid.
  - unfold getAccountTokens. by rewrite Hbad.
Qed.

(** *** The scanners on numerals *)

Lemma remove_dollar_comma_idem s :
  remove_dollar_comma (remove_dollar_comma s) = remove_dollar_comma s.
Proof.
  induction s as [|c s IH]; simpl; [done|].
  destruct (Ascii.eqb c "$" || Ascii.eqb c ",")%bool eqn:Hc; [done|].
  simpl. by rewrite Hc, IH.
Qed.

Lemma remove_dollar_comma_digits s :
  all_digits s = true -> remove_dollar_comma s = s.
Proof.
  induction s as [|c s IH]; simpl; [done|].
  intros [Hc Hs]%andb_prop. rewrite IH by done.
  by destruct c as [[] [] [] [] [] [] [] []].
Qed.

Lemma span_digits_all s : all_digits s = true -> span_digits s = (s, EmptyString).
Proof.
  induction s as [|c s IH]; simpl; [done|].
  intros [Hc Hs]%andb_prop. by rewrite Hc, IH.
Qed.

Lemma append_empty_r s : s +:+ "" = s.
Proof.
  induction s as [|c s IH]; [done|].
  change (String c (s +:+ "") = String c s). by f_equal.
Qed.

Lemma Qred_inject_Z_mul_1 (z : Z) : Qred (inject_Z (1 * z) * 1) = inject_Z z.
Proof.
  rewrite <- (Qcanon.Qred_identity (inject_Z z)).
  - apply Qred_complete. rewrite Z.mul_1_l. ring.
  - simpl. apply Z.gcd_1_r.
Qed.

Lemma parseFloat_string_digits s :
  s ≠ "" -> all_digits s = true ->
  parseFloat_string s = num_of_Z (Z.of_N (digits_acc 10 s 0)).
Proof.
  intros Hne Hdigits. unfold parseFloat_string.
  assert (Hprep : strip_sign (trim_start s) = (1, s)).
  { destruct s as [|c rest]; [done|].
    simpl in Hdigits. apply andb_prop in Hdigits as [Hc _].
    by destruct c as [[] [] [] [] [] [] [] []]. }
  rewrite Hprep, span_digits_all by done.
  cbv beta iota zeta. rewrite append_empty_r.
  destruct (String.eqb_spec s "") as [->|_]; [done|].
  cbn [andb exponent_part String.length Z.of_nat Z.sub Z.opp Z.add].
  change (Qpower 10 0) with 1%Q.
  unfold num_of_Z. f_equal. apply Qred_inject_Z_mul_1.
Qed.

Lemma parseUsdValue_string s :
  s ≠ "" -> s ≠ "0" ->
  parseUsdValue (VStr s) = parseFloat_string (remove_dollar_comma s).
Proof.
  intros Hne Hzero. destruct s as [|c rest]; [done|].
  unfold parseUsdValue. cbn [truthy negb].
  destruct rest as [|c2 rest]; [|by destruct c as [[] [] [] [] [] [] [] []]].
  destruct c as [[] [] [] [] [] [] [] []]; done.
Qed.

(** X22.  [parseUsdValue] beside the strings it parses: an argument that is
    not a string has no [replace] method, the [catch] branch is taken and
    the result is 0.  Dollar signs and commas never change the value,
    provided something is left once they are removed; and the numeral of
    an [n] below 2^53 behind a dollar sign is read as [n] (from 2^53 on the
    engine rounds what it reads to a double). *)
Theorem parseUsdValue_catch_and_separators :
  (forall v, (forall s, v ≠ VStr s) -> parseUsdValue v = Fin 0)
  /\ (forall s, remove_dollar_comma s ≠ "" ->
                parseUsdValue (VStr s) = parseUsdValue (VStr (remove_dollar_comma s)))
  /\ (forall n : N,
         (n < 2 ^ 53)%N ->
         parseUsdValue (VStr ("$" +:+ decimal n)) = num_of_Z (Z.of_N n)).
Proof.
  repeat match goal with |- _ /\ _ => split end.
  - intros v Hv. unfold parseUsdValue.
    destruct v as [| | | |s| |]; try by destruct (negb _).
    by destruct (Hv s).
  - intros s Hleft.
    assert (s ≠ "") by (by intros ->).
    destruct (String.eqb_spec s "0") as [->|Hs]; [done|].
    rewrite parseUsdValue_string by done.
    destruct (String.eqb_spec (remove_dollar_comma s) "0") as [->|Hr]; [done|].
    by rewrite parseUsdValue_string, remove_dollar_comma_idem.
  - intros n _. destruct (decimal_digits n) as [Hne Hdigits].
    rewrite parseUsdValue_string by done.
    change (remove_dollar_comma ("$" +:+ decimal n)) with (remove_dollar_comma (decimal n)).
    rewrite remove_dollar_comma_digits, parseFloat_string_digits by done.
    by rewrite digits_acc_decimal.
Qed.

Lemma digits_acc_stop s rest acc :
  all_digits s = true ->
  digits_acc 10 (s +:+ String "." rest) acc = digits_acc 10 s acc.
Proof.
  revert acc. induction s as [|c s IH]; intros acc; simpl; [done|].
  intros [Hc Hs]%andb_prop.
  destruct (radix_digit 10 c); [by apply IH|done].
Qed.

Lemma parseInt_string_stop s rest :
  s ≠ "" -> all_digits s = true ->
  parseInt_string (s +:+ String "." rest) = num_of_Z (Z.of_N (digits_acc 10 s 0)).
Proof.
  intros Hne Hdigits. destruct s as [|c tl]; [done|].
  simpl in Hdigits. apply andb_prop in Hdigits as [Hc Htl].
  change (String c tl +:+ String "." rest) with (String c (tl +:+ String "." rest)).
  assert (Hprefix : strip_radix_prefix (String c (tl +:+ String "." rest))
                    = (10%N, String c (tl +:+ String "." rest))).
  { destruct tl as [|c2 tl']; simpl.
    - by destruct c as [[] [] [] [] [] [] [] []].
    - simpl in Htl. apply andb_prop in Htl as [Hc2 _].
      destruct (Ascii.eqb_spec c "0") as [->|Hc0].
      + destruct (Ascii.eqb_spec c2 "x") as [->|Hx]; [done|].
        destruct (Ascii.eqb_spec c2 "X") as [->|HX]; [done|].
        by destruct c2 as [[] [] [] [] [] [] [] []].
      + by destruct c as [[] [] [] [] [] [] [] []]. }
  unfold parseInt_string.
  assert (Hprep : strip_sign (trim_start (String c (tl +:+ String "." rest)))
                  = (1, String c (tl +:+ String "." rest))).
  { by destruct c as [[] [] [] [] [] [] [] []]. }
  rewrite Hprep, Hprefix. unfold digits_prefix_value.
  assert (Hd : exists v, radix_digit 10 c = Some v).
  { unfold radix_digit. unfold is_digit in Hc. rewrite Hc. eauto. }
  destruct Hd as [v Hv]. rewrite Hv.
  change (String c (tl +:+ String "." rest)) with (String c tl +:+ String "." rest).
  rewrite digits_acc_stop by (simpl; by rewrite Hc, Htl).
  f_equal. lia.
Qed.

Lemma new_Date_nanoseconds (n : N) :
  (n < 2 ^ 53)%N ->
  new_Date (num_div (num_of_Z (Z.of_N n)) (Fin 1000000)) = Some (Z.of_N n / 1000000).
Proof.
  intros Hn. unfold num_of_Z, num_div. change (Qeq_bool 1000000 0) with false.
  cbv iota. unfold new_Date.
  assert (Hq : (Qred (inject_Z (Z.of_N n) / 1000000) == inject_Z (Z.of_N n) / 1000000)%Q)
    by apply Qred_correct.
  assert (Hlow : (0 <= inject_Z (Z.of_N n) / 1000000)%Q).
  { apply Qle_shift_div_l; [done|]. rewrite Qmult_0_l.
    change 0%Q with (inject_Z 0). rewrite <- Zle_Qle. lia. }
  assert (Hhigh : (inject_Z (Z.of_N n) / 1000000 <= 8640000000000000)%Q).
  { apply Qle_shift_div_r; [done|].
    change (8640000000000000 * 1000000)%Q with (inject_Z 8640000000000000000000).
    rewrite <- Zle_Qle.
    assert (Z.of_N n < 2 ^ 53) by (change (2 ^ 53) with (Z.of_N (2 ^ 53)); lia).
    lia. }
  assert (Hrange : Qle_bool (Qabs (Qred (inject_Z (Z.of_N n) / 1000000))) 8640000000000000
                   = true).
  { apply Qle_bool_iff. rewrite Hq, Qabs_pos; done. }
  rewrite Hrange. f_equal.
  rewrite Z.quot_div_nonneg; [|rewrite <- Hq in Hlow; by destruct (Qred _) as [[] ?]|done].
  assert (Hfloor : forall q, Qnum q / Zpos (Qden q) = Qfloor q) by (by intros []).
  rewrite Hfloor, Hq. unfold Qfloor. simpl. by rewrite Z.mul_1_r.
Qed.

(** X23.  [parseTimestamp] reads a string up to its first character that is
    not a digit, and takes what it read as nanoseconds.  A consensus
    timestamp in the form [seconds.nanoseconds] therefore yields the
    instant [seconds / 10^6] milliseconds after the epoch, whatever
    follows the dot; the same instant as for the number [seconds]. *)
Theorem parseTimestamp_seconds_nanos (seconds : N) (nanos : string) :
  (seconds < 2 ^ 53)%N ->
  parseTimestamp host (VStr (decimal seconds +:+ "." +:+ nanos))
  = Some (Z.of_N seconds / 1000000)
  /\ parseTimestamp host (VNum (num_of_Z (Z.of_N seconds)))
     = Some (Z.of_N seconds / 1000000).
Proof.
  intros Hrange. destruct (decimal_digits seconds) as [Hne Hdigits]. split.
  - unfold parseTimestamp.
    change ("." +:+ nanos) with (String "." nanos).
    rewrite parseInt_string_stop, digits_acc_decimal by done.
    rewrite new_Date_nanoseconds by done.
    destruct (decimal seconds) as [|c tl]; [done|]. done.
  - unfold parseTimestamp. cbn [ToNumber isNaN num_of_Z].
    by apply new_Date_nanoseconds.
Qed.

(** *** The calls a method tracks *)

Lemma counts_calls_keeps {A} (m : M A) : keeps_counts m -> counts_calls [] m.
Proof. intros Hm this w. apply Hm. Qed.

Lemma counts_calls_tracked {A} methodName (body : M A) :
  keeps_counts body -> counts_calls [methodName] (trackCall methodName ;; body).
Proof.
  intros Hbody this w. unfold bind. rewrite trackCall_spec.
  specialize (Hbody (HederaDeFi.set_callCounts
                       (<[methodName := (HederaDeFi.callCount this methodName + 1)%nat]>
                          (HederaDeFi.callCounts this)) this) w).
  unfold client_of in *.
  destruct (body _ w) as [[res this1] w1]. simpl in *. by rewrite Hbody.
Qed.

Lemma counts_calls_bind {A B} names1 names2 (m : M A) (k : A -> M B) :
  counts_calls names1 m -> never_throws m ->
  (forall a, counts_calls names2 (k a)) ->
  counts_calls (names1 ++ names2) (bind m k).
Proof.
  intros Hm Hreturns Hk this w. unfold bind.
  specialize (Hm this w). specialize (Hreturns this w).
  unfold client_of, result_of in *.
  destruct (m this w) as [[[a|e] this1] w1]; simpl in *.
  - unfold counted. rewrite foldl_app. fold (counted names1 (HederaDeFi.callCounts this)).
    rewrite <- Hm. apply Hk.
  - by destruct (Hreturns e).
Qed.

Lemma counts_calls_bind_keeps {A B} names (m : M A) (k : A -> M B) :
  counts_calls names m -> (forall a, keeps_counts (k a)) ->
  counts_calls names (bind m k).
Proof.
  intros Hm Hk this w. unfold bind.
  specialize (Hm this w). unfold client_of in *.
  destruct (m this w) as [[[a|e] this1] w1]; simpl in *; [|done].
  rewrite <- Hm. apply Hk.
Qed.

Lemma counts_calls_bind_either {A B} names1 names2 (m : M A) (k : A -> M B) this w :
  counts_calls names1 m ->
  (forall a, counts_calls names2 (k a)) ->
  HederaDeFi.callCounts (client_of (bind m k this w))
  = counted (if is_thrown (result_of (m this w)) then names1 else names1 ++ names2)
      (HederaDeFi.callCounts this).
Proof.
  intros Hm Hk. unfold bind.
  specialize (Hm this w). unfold client_of, result_of in *.
  destruct (m this w) as [[[a|e] this1] w1]; simpl in *; [|done].
  unfold counted. rewrite foldl_app. fold (counted names1 (HederaDeFi.callCounts this)).
  rewrite <- Hm. apply Hk.
Qed.

Lemma never_throws_Date_now : never_throws Date_now.
Proof. apply throws_only_Date_now. Qed.

Lemma getSaucerSwapStats_counts : counts_calls ["getSaucerSwapStats"] (getSaucerSwapStats host).
Proof.
  pose proof keeps_counts_saucerswapRequest.
  apply counts_calls_tracked. keeps_counts; auto.
Qed.

Lemma getSaucerSwapPools_counts : counts_calls ["getSaucerSwapPools"] (getSaucerSwapPools host).
Proof.
  pose proof keeps_counts_saucerswapRequest.
  apply counts_calls_tracked. keeps_counts; auto.
Qed.

Lemma getSaucerSwapTokens_counts :
  counts_calls ["getSaucerSwapTokens"] (getSaucerSwapTokens host).
Proof.
  pose proof keeps_counts_saucerswapRequest.
  apply counts_calls_tracked. keeps_counts; auto.
Qed.

Lemma getBonzoMarkets_counts : counts_calls ["getBonzoMarkets"] (getBonzoMarkets host).
Proof.
  pose proof keeps_counts_bonzoRequest.
  apply counts_calls_tracked. keeps_counts; auto.
Qed.

Lemma keeps_counts_getAccountInfo accountId : keeps_counts (getAccountInfo host accountId).
Proof. pose proof keeps_counts_request. unfold getAccountInfo. keeps_counts; auto. Qed.

(** X24.  The calls the composite and the untracked methods record.
    [getCrossProtocolLiquiditySummary] records none of its own.  It
    records one call of [getSaucerSwapStats] if that method throws (on
    statistics whose TVL cannot be formatted), and then stops; otherwise it
    records exactly one call each of [getSaucerSwapStats],
    [getSaucerSwapPools] and [getBonzoMarkets], whether or not it returns
    in the end.  [getTopTokens] records one
    call of [getSaucerSwapTokens] when the limit passes, and nothing when
    it is rejected.  [getBonzoReserves] and [getBonzoTotalMarkets] record a
    call of [getBonzoMarkets] unless they are given the market data.  The
    exchange-rate, account and token-info methods record nothing. *)
Theorem calls_recorded :
  (forall this w,
      HederaDeFi.callCounts (client_of (getCrossProtocolLiquiditySummary host this w))
      = counted
          (if is_thrown (result_of (getSaucerSwapStats host this w))
           then ["getSaucerSwapStats"]
           else ["getSaucerSwapStats"; "getSaucerSwapPools"; "getBonzoMarkets"])
          (HederaDeFi.callCounts this))
  /\ (forall limit sortBy,
         counts_calls
           (if num_le limit (Fin 0) || num_gt limit (Fin 1000)
            then [] else ["getSaucerSwapTokens"])
           (getTopTokens host limit sortBy))
  /\ (forall cachedData,
         let names := match cachedData with
                      | Some _ => []
                      | None => ["getBonzoMarkets"]
                      end in
         counts_calls names (getBonzoReserves host cachedData)
         /\ counts_calls names (getBonzoTotalMarkets host cachedData))
  /\ counts_calls [] (getNetworkExchangeRate host)
  /\ (forall accountId,
         counts_calls [] (getAccountInfo host accountId)
         /\ counts_calls [] (getAccountBalance host accountId)
         /\ counts_calls [] (getAccountTokens host accountId))
  /\ (forall tokenId, counts_calls [] (getTokenInfo host tokenId)).
Proof.
  pose proof keeps_counts_request as Hrequest.
  pose proof keeps_counts_getAccountInfo as Hinfo.
  repeat match goal with |- _ /\ _ => split end; intros; cbv zeta;
    repeat match goal with |- _ /\ _ => split end.
  - unfold getCrossProtocolLiquiditySummary.
    rewrite (bind_returns Date_now _ this w (clock w) this w eq_refl).
    rewrite (bind_returns Date_now _ this w (clock w) this w eq_refl).
    rewrite (counts_calls_bind_either ["getSaucerSwapStats"]
               ["getSaucerSwapPools"; "getBonzoMarkets"]);
      [done|apply getSaucerSwapStats_counts|intros saucerStats].
    apply (counts_calls_bind ["getSaucerSwapPools"] _ (getSaucerSwapPools host));
      [apply getSaucerSwapPools_counts|apply getSaucerSwapPools_never_throws
      |intros saucerPools].
    apply (counts_calls_bind [] _ Date_now);
      [by apply counts_calls_keeps|apply never_throws_Date_now|intros saucerEnd].
    apply (counts_calls_bind [] _ Date_now);
      [by apply counts_calls_keeps|apply never_throws_Date_now|intros bonzoStart].
    apply counts_calls_bind_keeps; [apply getBonzoMarkets_counts|intros bonzoData].
    keeps_counts.
  - unfold getTopTokens.
    destruct (num_le limit (Fin 0) || num_gt limit (Fin 1000)).
    + by apply counts_calls_keeps.
    + apply (counts_calls_bind [] _ (request host "tokens" _));
        [apply counts_calls_keeps, Hrequest
        |by apply throws_only_request_path|intros data].
      apply counts_calls_bind_keeps; [apply getSaucerSwapTokens_counts|intros saucerTokens].
      keeps_counts.
  - unfold getBonzoReserves, cached_or_fetch. destruct cachedData.
    + apply counts_calls_keeps. keeps_counts.
    + apply counts_calls_bind_keeps; [apply getBonzoMarkets_counts|intros data].
      keeps_counts.
  - unfold getBonzoTotalMarkets, cached_or_fetch. destruct cachedData.
    + apply counts_calls_keeps. keeps_counts.
    + apply counts_calls_bind_keeps; [apply getBonzoMarkets_counts|intros data].
      keeps_counts.
  - apply counts_calls_keeps. unfold getNetworkExchangeRate. keeps_counts; auto.
  - by apply counts_calls_keeps.
  - apply counts_calls_keeps. unfold getAccountBalance. keeps_counts; auto.
  - apply counts_calls_keeps. unfold getAccountTokens. keeps_counts; auto.
  - apply counts_calls_keeps. unfold getTokenInfo. keeps_counts; auto.
Qed.

(** *** The configuration *)

(** X25.  The constructor replaces every falsy setting by its default, so
    that a new client never has a TTL or a timeout of 0 nor an empty base
    URL: a configured [cacheTtl] of 0 gives the default of 60 seconds and
    does not switch the cache off.  A TTL that is not positive does: no
    entry stored in the past or present is then ever served. *)
Theorem configuration_defaults config :
  HederaDeFi.cacheTtl (new_HederaDeFi config) ≠ 0
  /\ HederaDeFi.timeout (new_HederaDeFi config) ≠ 0
  /\ HederaDeFi.endpoint (new_HederaDeFi config) ≠ ""
  /\ HederaDeFi.bonzoApi (new_HederaDeFi config) ≠ ""
  /\ HederaDeFi.saucerswapApi (new_HederaDeFi config) ≠ ""
  /\ (HederaDeFiConfig.cacheTtl config = Some 0 ->
      HederaDeFi.cacheTtl (new_HederaDeFi config) = 60)
  /\ (forall this now cacheKey,
         HederaDeFi.cacheTtl this <= 0 ->
         (forall entry, HederaDeFi.cache this !! cacheKey = Some entry ->
                        CacheEntry.timestamp entry <= now) ->
         fresh_payload this now cacheKey = None).
Proof.
  assert (Hnum : forall o d, d ≠ 0 -> or_default (Z.eqb 0) o d ≠ 0).
  { intros [x|] d Hd; unfold or_default; [|done].
    destruct (Z.eqb_spec 0 x); [done|]. by intros ->. }
  assert (Hstr : forall o d, d ≠ "" ->
                             or_default (fun s => String.eqb s "") o d ≠ "").
  { intros [x|] d Hd; unfold or_default; [|done]. by destruct (String.eqb_spec x ""). }
  repeat match goal with |- _ /\ _ => split end.
  - by apply Hnum.
  - by apply Hnum.
  - by apply Hstr.
  - by apply Hstr.
  - by apply Hstr.
  - intros Hzero. simpl. by rewrite Hzero.
  - intros this now cacheKey Httl Hpast. unfold fresh_payload.
    destruct (HederaDeFi.cache this !! cacheKey) as [entry|]; [|done].
    specialize (Hpast entry eq_refl).
    destruct (Z.ltb_spec (now - CacheEntry.timestamp entry) (HederaDeFi.cacheTtl this * 1000));
      [lia|done].
Qed.
End Properties.

(** ** The statements on the sample hosts *)

(** One millisecond before the default TTL of 60 s runs out, the stored
    payload is still served. *)
Lemma cache_get_after_put_witness :
  0 < 1
  /\ check_cache "network/supply:{}"
       (client_of (cache_set "network/supply:{}" (VStr "payload")
                     (new_HederaDeFi default_config) sample_world))
       {| clock := 1735689600000 + 60000 - 1; requests := [] |}
     = (Returned (Some (VStr "payload")),
        client_of (cache_set "network/supply:{}" (VStr "payload")
                     (new_HederaDeFi default_config) sample_world),
        {| clock := 1735689600000 + 60000 - 1; requests := [] |}).
Proof.
  split; [lia|].
  exact (proj1 (proj2 (cache_get_after_put sample_host (new_HederaDeFi default_config)
                         sample_world "network/supply:{}" (VStr "payload") 1 []
                         ltac:(lia)))).
Defined.

(** Three invocations of [getNetworkSupply] on a new client: the first
    misses the cache, the next two hit it. *)
Example getNetworkSupply_three_calls :
  HederaDeFi.callCounts
    (after_invocations (getNetworkSupply sample_host)
       [sample_world; sample_world; sample_world] (new_HederaDeFi default_config))
    !! "getNetworkSupply" = Some 3%nat.
Proof. vm_compute. reflexivity. Qed.

(** C5, as stated, fails for [getNetworkExchangeRate]: the method does not
    call [trackCall], and after three invocations nothing is recorded under
    its name. *)
Lemma getNetworkExchangeRate_not_counted :
  HederaDeFi.callCount
    (after_invocations (getNetworkExchangeRate sample_host)
       [sample_world; sample_world; sample_world] (new_HederaDeFi default_config))
    "getNetworkExchangeRate" = 0%nat
  /\ HederaDeFi.callCount
       (after_invocations (getNetworkExchangeRate sample_host)
          [sample_world; sample_world; sample_world] (new_HederaDeFi default_config))
       "getNetworkExchangeRate" ≠ 3%nat.
Proof. vm_compute. split; [reflexivity|discriminate]. Qed.





(** ["0.0.123456"] is accepted, and [getAccountInfo] returns for it on the
    sample network, whose body has no balance to convert. *)
Lemma account_id_validation_witness :
  validateAccountId "0.0.123456" = true
  /\ exists info,
       result_of (getAccountInfo sample_host "0.0.123456"
                    (new_HederaDeFi default_config) sample_world) = Returned info.
Proof.
  split; [reflexivity|].
  exact (proj2 (proj2 (account_id_validation sample_host "0.0.123456"))
           (new_HederaDeFi default_config) sample_world
           (VObj [("total_supply", VStr "5000000000000000");
                  ("released_supply", VStr "4200000000000000")])
           eq_refl eq_refl eq_refl).
Defined.

(** C4, as stated, fails for ["1.2.3"]: it has the form [shard.realm.num],
    and the validation rejects it, so that [getAccountInfo] throws. *)
Lemma account_id_1_2_3_rejected :
  regex_test shard_realm_num_pattern "1.2.3" = true
  /\ validateAccountId "1.2.3" = false
  /\ result_of (getAccountInfo sample_host "1.2.3"
                  (new_HederaDeFi default_config) sample_world)
     = Thrown (Error "Invalid account ID format: 1.2.3").
Proof. repeat split. Qed.

(** ["not-an-id"] is rejected with the client and the world untouched. *)
Lemma getAccountInfo_rejects_before_network_witness :
  validateAccountId "not-an-id" = false
  /\ getAccountInfo sample_host "not-an-id" (new_HederaDeFi default_config) sample_world
     = (Thrown (Error "Invalid account ID format: not-an-id"),
        new_HederaDeFi default_config, sample_world).
Proof.
  split; [reflexivity|].
  apply (getAccountInfo_rejects_before_network sample_host). reflexivity.
Defined.



(** C6.  [parseUsdValue] on the inputs of the specification's scenario, and
    on two strings that hold no decimal: the [catch] branch is not reached
    ([parseFloat] does not throw) and the result is [NaN], not 0. *)
Theorem parseUsdValue_unparsable_is_NaN :
  parseUsdValue (VStr "$1,234,567.89") = Fin (123456789 # 100)
  /\ parseUsdValue (VStr "") = Fin 0
  /\ parseUsdValue (VStr "0") = Fin 0
  /\ parseUsdValue (VStr "N/A") = NaN
  /\ parseUsdValue (VStr "$") = NaN.
Proof. repeat split. Qed.

(** *** A run on the sample network *)

(** The summary of a new client: three requests, a DEX TVL of 1500 and a
    lending TVL of 500 parsed from ["$500.00"]. *)
Example liquidity_summary_run :
  result_of (getCrossProtocolLiquiditySummary sample_host
               (new_HederaDeFi default_config) sample_world)
  = Returned
      {| LiquiditySummary.totalLiquidityUsd := VNum (Fin 2000);
         LiquiditySummary.saucerswap :=
           {| SaucerSwapSummary.tvlUsd := VNum (Fin 1500);
              SaucerSwapSummary.poolCount := 2;
              SaucerSwapSummary.activePools := 1;
              SaucerSwapSummary.protocolType := "DEX" |};
         LiquiditySummary.bonzoFinance :=
           {| BonzoSummary.tvlUsd := Fin 500;
              BonzoSummary.reserveCount := 2;
              BonzoSummary.activeReserves := 1;
              BonzoSummary.protocolType := "Lending" |};
         LiquiditySummary.protocolDistribution :=
           {| ProtocolDistribution.dexPercentage := Fin 75;
              ProtocolDistribution.lendingPercentage := Fin 25 |};
         LiquiditySummary.timestamp := "2025-01-01T00:00:00.000Z";
         LiquiditySummary.performance :=
           {| Performance.totalTime := 360;
              Performance.saucerswapTime := 240;
              Performance.bonzoTime := 120 |} |}
  /\ length (requests (world_of (getCrossProtocolLiquiditySummary sample_host
                                   (new_HederaDeFi default_config) sample_world))) = 3%nat.
Proof. split; vm_compute; reflexivity. Qed.

(** *** A run on a network whose amounts are objects *)

(** [getSaucerSwapStats] throws when it formats the TVL for its log line;
    the summary stops there, with one of its three requests made and
    counted. *)
Example unreadable_tvl_run :
  result_of (getSaucerSwapStats unreadable_host (new_HederaDeFi default_config)
               sample_world) = Thrown TypeError
  /\ result_of (getCrossProtocolLiquiditySummary unreadable_host
                  (new_HederaDeFi default_config) sample_world) = Thrown TypeError
  /\ HederaDeFi.callCounts
       (client_of (getCrossProtocolLiquiditySummary unreadable_host
                     (new_HederaDeFi default_config) sample_world))
     = {["getSaucerSwapStats" := 1%nat]}
  /\ length (requests (world_of (getCrossProtocolLiquiditySummary unreadable_host
                                   (new_HederaDeFi default_config) sample_world))) = 1%nat.
Proof. repeat split; vm_compute; reflexivity. Qed.

(** The account, token and market accessors throw on it as well, each at
    the first amount it converts to a string. *)
Example unreadable_amount_runs :
  result_of (getAccountInfo unreadable_host "0.0.123456"
               (new_HederaDeFi default_config) sample_world) = Thrown TypeError
  /\ result_of (getAccountBalance unreadable_host "0.0.123456"
                  (new_HederaDeFi default_config) sample_world) = Thrown TypeError
  /\ result_of (getTokenInfo unreadable_host "0.0.456858"
                  (new_HederaDeFi default_config) sample_world) = Thrown TypeError
  /\ result_of (getBonzoMarkets unreadable_host
                  (new_HederaDeFi default_config) sample_world) = Thrown TypeError.
Proof. repeat split; vm_compute; reflexivity. Qed.

(** *** The scanners on sample inputs *)

Example parseInt_examples :
  parseInt_string "5000000000000000" = Fin 5000000000000000
  /\ parseInt_string "  -42abc" = Fin (-42)
  /\ parseInt_string "0x1F" = Fin 31
  /\ parseInt_string "" = NaN
  /\ parseInt_string "abc" = NaN.
Proof. repeat split; reflexivity. Qed.

Example parseFloat_examples :
  parseFloat_string "1234567.89" = Fin (123456789 # 100)
  /\ parseFloat_string "1.5e3x" = Fin 1500
  /\ parseFloat_string ".5" = Fin (1 # 2)
  /\ parseFloat_string "5." = Fin 5
  /\ parseFloat_string "-12e-1" = Fin (-6 # 5)
  /\ parseFloat_string "1e" = Fin 1
  /\ parseFloat_string "." = NaN
  /\ parseFloat_string "" = NaN
  /\ parseFloat_string "N/A" = NaN.
Proof. repeat split; reflexivity. Qed.

(** *** More statements on the sample hosts *)

(** The flaky function succeeds at its third call, after sleeps of 1000 and
    2000 ms. *)
Lemma retryWithBackoff_first_success_witness :
  retryWithBackoff (scripted flaky) (Fin 3) (Fin 1000) (Fin 10000) 0%nat
  = {| Retry.result := Returned 7%nat;
       Retry.state := 3%nat;
       Retry.slept := [Fin 1000; Fin 2000] |}.
Proof.
  apply (retryWithBackoff_first_success flaky (Fin 3) (Fin 1000) (Fin 10000) 2 7%nat).
  - intros i Hi. exists (Error "busy"). unfold flaky.
    by destruct (Nat.ltb_spec i 2); [|lia].
  - reflexivity.
  - reflexivity.
Defined.

(** With two attempts allowed, the second error of the flaky function is
    rethrown after one sleep; with none allowed, it is not called. *)
Lemma retryWithBackoff_exhausted_witness :
  retryWithBackoff (scripted flaky) (Fin 2) (Fin 1000) (Fin 10000) 0%nat
  = {| Retry.result := Thrown (Error "busy");
       Retry.state := 2%nat;
       Retry.slept := [Fin 1000] |}
  /\ retryWithBackoff (scripted flaky) (Fin 0) (Fin 1000) (Fin 10000) 0%nat
     = {| Retry.result := Thrown (Error "Max retries exceeded");
          Retry.state := 0%nat;
          Retry.slept := [] |}.
Proof.
  split.
  - apply (proj1 retryWithBackoff_exhausted nat flaky (Fin 1000) (Fin 10000) 1%nat
             (Error "busy")).
    + intros i Hi. exists (Error "busy"). unfold flaky.
      by destruct (Nat.ltb_spec i 2); [|lia].
    + reflexivity.
  - apply (proj2 retryWithBackoff_exhausted). reflexivity.
Defined.

(** A new client fetches the supply document once; 59.999 s after the
    answer it is still served from the cache. *)
Lemma fetch_then_served_from_cache_witness :
  let this := new_HederaDeFi default_config in
  let data := VObj [("total_supply", VStr "5000000000000000");
                    ("released_supply", VStr "4200000000000000")] in
  let run := request sample_host "network/supply" None this sample_world in
  let later := {| clock := 1735689600000 + 120 + 59999; requests := [] |} in
  "network/supply" ≠ ""
  /\ result_of run = Returned data
  /\ requests (world_of run)
     = [{| url := "https://mainnet-public.mirrornode.hedera.com/api/v1/network/supply";
           params := None; headers := DefaultHeaders |}]
  /\ request sample_host "network/supply" None (client_of run) later
     = (Returned data, client_of run, later).
Proof.
  cbv zeta. split; [done|].
  destruct (proj1 (fetch_then_served_from_cache sample_host "network/supply" None
                     (new_HederaDeFi default_config) sample_world
                     (VObj [("total_supply", VStr "5000000000000000");
                            ("released_supply", VStr "4200000000000000")])
                     ltac:(done))
              eq_refl eq_refl eq_refl) as (Hdata & Hreqs & Hlater).
  split; [exact Hdata|]. split; [exact Hreqs|].
  apply Hlater. vm_compute. reflexivity.
Defined.

(** On the network where every GET times out, the three request methods
    return the empty object and leave the new client as it was. *)
Lemma unsuccessful_response_not_cached_witness :
  let this := new_HederaDeFi default_config in
  "Market" ≠ ""
  /\ result_of (request failing_host "Market" None this sample_world)
     = Returned empty_object
  /\ client_of (request failing_host "Market" None this sample_world) = this
  /\ client_of (saucerswapRequest failing_host "Market" this sample_world) = this
  /\ client_of (bonzoRequest failing_host "Market" this sample_world) = this.
Proof.
  cbv zeta. split; [done|].
  destruct (unsuccessful_response_not_cached failing_host "Market" None
              (new_HederaDeFi default_config) sample_world ltac:(done))
    as (Hrequest & Hsaucer & Hbonzo).
  rewrite (Hrequest eq_refl eq_refl), (Hsaucer eq_refl eq_refl), (Hbonzo eq_refl eq_refl).
  repeat split.
Defined.

(** The cache of a new client is empty, so its payloads are all truthy, and
    a request on the sample network returns a truthy value. *)
Lemma request_methods_return_truthy_witness :
  cache_truthy (new_HederaDeFi default_config)
  /\ exists data,
       result_of (bonzoRequest sample_host "Market" (new_HederaDeFi default_config)
                    sample_world) = Returned data
       /\ truthy data = true.
Proof.
  assert (Hnew : cache_truthy (new_HederaDeFi default_config)).
  { intros key entry Hin. simpl in Hin. by rewrite lookup_empty in Hin. }
  split; [exact Hnew|].
  exact (proj2 (proj2 (request_methods_return_truthy sample_host
                         (new_HederaDeFi default_config) sample_world Hnew)) "Market").
Defined.

(** On the network where every GET times out: no nodes, no exchange rate,
    no tokens of account 0.0.123456. *)
Lemma network_accessors_fail_open_witness :
  let this := new_HederaDeFi default_config in
  result_of (getNetworkNodes failing_host this sample_world) = Returned []
  /\ result_of (getNetworkExchangeRate failing_host this sample_world) = Returned None
  /\ validateAccountId "0.0.123456" = true
  /\ result_of (getAccountTokens failing_host "0.0.123456" this sample_world) = Returned [].
Proof.
  cbv zeta.
  destruct (network_accessors_fail_open failing_host (new_HederaDeFi default_config)
              sample_world) as (Hnodes & Hrate & Htokens).
  split; [exact (proj1 (Hnodes (conj eq_refl eq_refl)))|].
  split; [by rewrite (Hrate (conj eq_refl eq_refl))|].
  split; [reflexivity|].
  by rewrite (Htokens "0.0.123456" eq_refl (conj eq_refl eq_refl)).
Defined.

(** On the network where every GET times out, account 0.0.123456 has a
    record with balance 0, and a balance of 0. *)
Lemma account_accessors_fail_open_witness :
  validateAccountId "0.0.123456" = true
  /\ result_of (getAccountBalance failing_host "0.0.123456"
                  (new_HederaDeFi default_config) sample_world) = Returned (Fin 0).
Proof.
  split; [reflexivity|].
  exact (proj1 (proj2 (account_accessors_fail_open failing_host "0.0.123456"
                         (new_HederaDeFi default_config) sample_world
                         eq_refl eq_refl eq_refl))).
Defined.

(** ["0.0.abc"] passes the check of [getTokenInfo]; ["usdc"] does not, and
    is rejected with the client and the world untouched.  On the network
    where every GET times out, token 0.0.456858 is a token of defaults. *)
Lemma getTokenInfo_validation_and_defaults_witness :
  String.prefix "0.0." "0.0.abc" = true
  /\ (exists token,
         result_of (getTokenInfo failing_host "0.0.abc" (new_HederaDeFi default_config)
                      sample_world) = Returned token)
  /\ String.prefix "0.0." "usdc" = false
  /\ getTokenInfo failing_host "usdc" (new_HederaDeFi default_config) sample_world
     = (Thrown (Error "Invalid token ID format: usdc"),
        new_HederaDeFi default_config, sample_world)
  /\ validateAccountId "0.0.456858" = true
  /\ String.prefix "0.0." "0.0.456858" = true
  /\ result_of (getTokenInfo failing_host "0.0.456858" (new_HederaDeFi default_config)
                  sample_world)
     = Returned (Some {| Token.tokenId := VStr "0.0.456858";
                         Token.symbol := VStr "";
                         Token.name := VStr "";
                         Token.decimals := Fin 8;
                         Token.totalSupply := Fin 0;
                         Token.price := VNum (Fin 0);
                         Token.tvl := Fin 0;
                         Token.volume24h := Fin 0;
                         Token.holders := Fin 0 |}).
Proof.
  split; [reflexivity|].
  split.
  { destruct (proj1 (proj2 (proj2 (getTokenInfo_validation_and_defaults failing_host
                                     "0.0.abc" (new_HederaDeFi default_config)
                                     sample_world)))
                eq_refl) as (data & Hdata & Hcase).
    injection Hdata as <-. exact Hcase. }
  split; [reflexivity|].
  split.
  { exact (proj1 (proj2 (proj2 (proj2 (getTokenInfo_validation_and_defaults failing_host
                                         "usdc" (new_HederaDeFi default_config)
                                         sample_world))))
             eq_refl). }
  split; [reflexivity|].
  split.
  { exact (proj1 (getTokenInfo_validation_and_defaults failing_host "0.0.456858"
                    (new_HederaDeFi default_config) sample_world) eq_refl). }
  rewrite (proj2 (proj2 (proj2 (proj2 (getTokenInfo_validation_and_defaults failing_host
                                         "0.0.456858" (new_HederaDeFi default_config)
                                         sample_world))))
             eq_refl eq_refl eq_refl).
  reflexivity.
Defined.

(** On the network where every GET times out, there are no pools and no
    tokens, and the statistics are the empty object. *)
Lemma saucerswap_accessors_fail_open_witness :
  rejected (http_get failing_host
              (saucerswap_GET "stats" (new_HederaDeFi default_config))
              (clock sample_world)).1
  /\ result_of (getSaucerSwapPools failing_host (new_HederaDeFi default_config)
                  sample_world) = Returned []
  /\ result_of (getSaucerSwapTokens failing_host (new_HederaDeFi default_config)
                  sample_world) = Returned []
  /\ result_of (getSaucerSwapStats failing_host (new_HederaDeFi default_config)
                  sample_world) = Returned empty_object.
Proof.
  split; [exact I|].
  destruct (saucerswap_accessors_fail_open failing_host (new_HederaDeFi default_config)
              sample_world) as (Hpools & Htokens & Hstats).
  split; [exact (Hpools (conj eq_refl I))|].
  split; [exact (Htokens (conj eq_refl I))|].
  exact (proj1 (Hstats (conj eq_refl I))).
Defined.

(** On the network where every GET times out, the market record has no
    reserves. *)
Lemma getBonzoMarkets_fail_open_witness :
  exists market,
    result_of (getBonzoMarkets failing_host (new_HederaDeFi default_config) sample_world)
    = Returned (Some market)
    /\ BonzoMarketData.reserves market = []
    /\ BonzoMarketData.totalMarketSupplied market = VObj [("usdDisplay", VStr "0")].
Proof.
  eexists. split.
  - apply (getBonzoMarkets_fail_open failing_host (new_HederaDeFi default_config)
             sample_world eq_refl I).
  - split; reflexivity.
Defined.

(** On the network where every GET times out, the summary of a new client
    is made after three requests of 30 s each. *)
Lemma liquidity_summary_on_outage_witness :
  (forall req t, rejected (http_get failing_host req t).1)
  /\ length (requests (world_of (getCrossProtocolLiquiditySummary failing_host
                                   (new_HederaDeFi default_config) sample_world)))
     = 3%nat
  /\ clock (world_of (getCrossProtocolLiquiditySummary failing_host
                        (new_HederaDeFi default_config) sample_world))
     = 1735689600000 + 90000.
Proof.
  split; [intros req t; exact I|].
  rewrite (proj1 (proj2 (liquidity_summary_on_outage failing_host
                           (fun req t => I) (new_HederaDeFi default_config)
                           sample_world eq_refl))).
  split; reflexivity.
Defined.

(** A node list with a [null] element makes [getNetworkNodes] throw; the
    reserve list of the sample network, which has none, gives two
    reserves. *)
Lemma null_element_throws_witness :
  result_of (getNetworkNodes null_host (new_HederaDeFi default_config) sample_world)
  = Thrown TypeError
  /\ result_of (getBonzoMarkets null_host (new_HederaDeFi default_config) sample_world)
     = Thrown TypeError
  /\ exists market,
       result_of (getBonzoMarkets sample_host (new_HederaDeFi default_config) sample_world)
       = Returned (Some market)
       /\ length (BonzoMarketData.reserves market) = 2%nat.
Proof.
  split.
  { exact (proj1 (null_element_throws null_host (new_HederaDeFi default_config)
                    sample_world)
             (VObj [("nodes", VArr [VObj [("node_id", VNum (Fin 3))]; VNull]);
                    ("reserves", VArr [VNull])])
             [VObj [("node_id", VNum (Fin 3))]; VNull] eq_refl eq_refl). }
  split.
  { exact (proj2 (null_element_throws null_host (new_HederaDeFi default_config)
                    sample_world)
             (VObj [("nodes", VArr [VObj [("node_id", VNum (Fin 3))]; VNull]);
                    ("reserves", VArr [VNull])])
             [VNull] eq_refl eq_refl). }
  destruct (proj2 (null_element_throws sample_host (new_HederaDeFi default_config)
                     sample_world)
              (VObj [("chain_id", VStr "295");
                     ("totalMarketSupplied", VObj [("usdDisplay", VStr "$500.00")]);
                     ("reserves",
                      VArr [VObj [("symbol", VStr "HBAR"); ("active", VBool true);
                                  ("supply_apy", VNum (Fin (7 # 2)))];
                            VObj [("symbol", VStr "USDC");
                                  ("supplyApy", VNum (Fin (21 # 5)))]])])
              [VObj [("symbol", VStr "HBAR"); ("active", VBool true);
                     ("supply_apy", VNum (Fin (7 # 2)))];
               VObj [("symbol", VStr "USDC"); ("supplyApy", VNum (Fin (21 # 5)))]]
              eq_refl eq_refl) as (market & Hrun & Hall).
  exists market. split; [exact Hrun|].
  by rewrite <- (Forall2_length _ _ _ Hall).
Defined.

(** A fall from 0 to -5 is reported as a change of 100. *)
Lemma arithmetic_guards_witness :
  (-5 < 0)%Q /\ calculatePercentageChange (Fin 0) (Fin (-5)) = Fin 100.
Proof.
  split; [reflexivity|].
  apply (proj1 (proj2 (proj2 (proj2 (proj2 (arithmetic_guards 1 (-5) 0)))))).
  reflexivity.
Defined.

(** 104 is within 5% of 100, hence within 10%. *)
Lemma isWithinTolerance_properties_witness :
  (Qabs (5 # 100) <= Qabs (10 # 100))%Q
  /\ isWithinTolerance (Fin 104) (Fin 100) (Fin (5 # 100)) = true
  /\ isWithinTolerance (Fin 104) (Fin 100) (Fin (10 # 100)) = true.
Proof.
  assert (Hwider : (Qabs (5 # 100) <= Qabs (10 # 100))%Q) by (by vm_compute).
  split; [exact Hwider|]. split; [reflexivity|].
  exact (proj1 (proj2 (proj2 (isWithinTolerance_properties 104 100 (5 # 100) (10 # 100))))
           Hwider eq_refl).
Defined.

(** After one tracked call on a new client, every count is at least 1, and
    the report has one method and one call. *)
Lemma call_statistics_totals_witness :
  let this := client_of (trackCall "getNetworkSupply" (new_HederaDeFi default_config)
                           sample_world) in
  counts_positive this
  /\ exists before,
       showCallStatistics this sample_world = (Returned before, this, sample_world)
       /\ (CallStatistics.uniqueMethods before
           + 10 * size (CallStatistics.excessiveMethods before)
           <= CallStatistics.totalCalls before)%nat.
Proof.
  cbv zeta.
  assert (Hpos : counts_positive
                   (client_of (trackCall "getNetworkSupply" (new_HederaDeFi default_config)
                                 sample_world))).
  { apply map_Forall_insert_2; [simpl; lia|apply map_Forall_empty]. }
  split; [exact Hpos|].
  destruct (call_statistics_totals "getSaucerSwapPools"
              (client_of (trackCall "getNetworkSupply" (new_HederaDeFi default_config)
                            sample_world)) sample_world)
    as (before & after & cleared & Hbefore & _ & _ & _ & _ & _ & _ & _ & _ & Hbounds).
  exists before. split; [exact Hbefore|]. exact (proj2 (Hbounds Hpos)).
Defined.

(** A new client has one cache entry after its first request on the sample
    network. *)
Lemma cache_statistics_witness :
  "network/supply" ≠ ""
  /\ exists after,
       result_of (getCacheStats
                    (client_of (request sample_host "network/supply" None
                                  (new_HederaDeFi default_config) sample_world))
                    sample_world) = Returned after
       /\ CacheStats.size after = 1%nat
       /\ CacheStats.entries after = {["network/supply:{}"]}.
Proof.
  split; [done|].
  destruct (proj1 (proj2 (cache_statistics sample_host "network/supply" None
                            (new_HederaDeFi default_config) sample_world sample_world))
              ltac:(done)) as (after & Hrun & Hsize & Hentries).
  exists after. split; [by rewrite Hrun|].
  assert (Hkeys : CacheStats.entries after = {["network/supply:{}"]}).
  { rewrite Hentries. simpl. rewrite dom_empty_L. apply (right_id_L ∅ (∪)). }
  split; [|exact Hkeys].
  rewrite Hsize, Hkeys. apply size_singleton.
Defined.

(** A limit of 0 is rejected; with a limit of 50 the token of the indexer
    is returned with the SaucerSwap price and placeholders of 0; a limit of
    [NaN] is not rejected. *)
Lemma getTopTokens_limit_and_placeholders_witness :
  getTopTokens token_host (Fin 0) "supply" (new_HederaDeFi default_config) sample_world
  = (Thrown (Error "Limit must be between 1 and 1000"),
     new_HederaDeFi default_config, sample_world)
  /\ result_of (getTopTokens token_host (Fin 50) "supply"
                  (new_HederaDeFi default_config) sample_world)
     = Returned [{| Token.tokenId := VStr "0.0.456858";
                    Token.symbol := VStr "USDC";
                    Token.name := VStr "";
                    Token.decimals := Fin 6;
                    Token.totalSupply := Fin 1000000;
                    Token.price := VNum (Fin 1);
                    Token.tvl := Fin 0;
                    Token.volume24h := Fin 0;
                    Token.holders := Fin 0 |}]
  /\ Forall (fun token => Token.tvl token = Fin 0
                          /\ Token.volume24h token = Fin 0
                          /\ Token.holders token = Fin 0)
       [{| Token.tokenId := VStr "0.0.456858";
           Token.symbol := VStr "USDC";
           Token.name := VStr "";
           Token.decimals := Fin 6;
           Token.totalSupply := Fin 1000000;
           Token.price := VNum (Fin 1);
           Token.tvl := Fin 0;
           Token.volume24h := Fin 0;
           Token.holders := Fin 0 |}]
  /\ result_of (getTopTokens token_host NaN "supply"
                  (new_HederaDeFi default_config) sample_world)
     ≠ Thrown (Error "Limit must be between 1 and 1000").
Proof.
  assert (Hrun : result_of (getTopTokens token_host (Fin 50) "supply"
                              (new_HederaDeFi default_config) sample_world)
                 = Returned [{| Token.tokenId := VStr "0.0.456858";
                                Token.symbol := VStr "USDC";
                                Token.name := VStr "";
                                Token.decimals := Fin 6;
                                Token.totalSupply := Fin 1000000;
                                Token.price := VNum (Fin 1);
                                Token.tvl := Fin 0;
                                Token.volume24h := Fin 0;
                                Token.holders := Fin 0 |}])
    by (vm_compute; reflexivity).
  split.
  { exact (proj1 (getTopTokens_limit_and_placeholders token_host (Fin 0) "supply"
                    (new_HederaDeFi default_config) sample_world) eq_refl). }
  split; [exact Hrun|].
  split.
  { exact (proj2 (proj2 (getTopTokens_limit_and_placeholders token_host (Fin 50) "supply"
                           (new_HederaDeFi default_config) sample_world)) _ Hrun). }
  exact (proj1 (proj2 (getTopTokens_limit_and_placeholders token_host NaN "supply"
                         (new_HederaDeFi default_config) sample_world))
           (or_introl eq_refl)).
Defined.

(** ["1.2.3"] is rejected by both methods with nothing changed. *)
Lemma account_methods_reject_before_network_witness :
  validateAccountId "1.2.3" = false
  /\ getAccountBalance sample_host "1.2.3" (new_HederaDeFi default_config) sample_world
     = (Thrown (Error "Invalid account ID format: 1.2.3"),
        new_HederaDeFi default_config, sample_world)
  /\ getAccountTokens sample_host "1.2.3" (new_HederaDeFi default_config) sample_world
     = (Thrown (Error "Invalid account ID format: 1.2.3"),
        new_HederaDeFi default_config, sample_world).
Proof.
  split; [reflexivity|].
  apply (account_methods_reject_before_network sample_host). reflexivity.
Defined.

(** The number 500 is not a string and gives 0; ["$1,234.50"] gives what
    ["1234.50"] gives. *)
Lemma parseUsdValue_catch_and_separators_witness :
  parseUsdValue (VNum (Fin 500)) = Fin 0
  /\ remove_dollar_comma "$1,234.50" ≠ ""
  /\ parseUsdValue (VStr "$1,234.50") = parseUsdValue (VStr "1234.50")
  /\ (1234 < 2 ^ 53)%N
  /\ parseUsdValue (VStr "$1234") = Fin 1234.
Proof.
  split.
  - apply (proj1 parseUsdValue_catch_and_separators). intros s. discriminate.
  - assert (Hleft : remove_dollar_comma "$1,234.50" ≠ "") by (simpl; discriminate).
    split; [exact Hleft|].
    split; [exact (proj1 (proj2 parseUsdValue_catch_and_separators) "$1,234.50" Hleft)|].
    split; [reflexivity|].
    exact (proj2 (proj2 parseUsdValue_catch_and_separators) 1234%N eq_refl).
Defined.

(** The consensus timestamp ["1700000000.123456789"] is read as 1700 ms
    after the epoch. *)
Lemma parseTimestamp_seconds_nanos_witness :
  (1700000000 < 2 ^ 53)%N
  /\ parseTimestamp sample_host (VStr "1700000000.123456789") = Some 1700.
Proof.
  split; [reflexivity|].
  exact (proj1 (parseTimestamp_seconds_nanos sample_host 1700000000 "123456789" eq_refl)).
Defined.

(** A configured TTL of 0 gives a client with a TTL of 60.  With a TTL of
    -1 an entry is not served at the instant it was stored. *)
Lemma configuration_defaults_witness :
  let config ttl :=
    {| HederaDeFiConfig.apiKey := None;
       HederaDeFiConfig.endpoint := None;
       HederaDeFiConfig.cacheTtl := Some ttl;
       HederaDeFiConfig.bonzoApi := None;
       HederaDeFiConfig.saucerswapApi := None;
       HederaDeFiConfig.timeout := None |} in
  let stored :=
    client_of (cache_set "tokens:{}" (VStr "payload") (new_HederaDeFi (config (-1)))
                 sample_world) in
  HederaDeFiConfig.cacheTtl (config 0) = Some 0
  /\ HederaDeFi.cacheTtl (new_HederaDeFi (config 0)) = 60
  /\ HederaDeFi.cacheTtl stored <= 0
  /\ fresh_payload stored (clock sample_world) "tokens:{}" = None.
Proof.
  cbv zeta. split; [reflexivity|].
  split.
  { apply (proj1 (proj2 (proj2 (proj2 (proj2 (proj2
             (configuration_defaults
                {| HederaDeFiConfig.apiKey := None;
                   HederaDeFiConfig.endpoint := None;
                   HederaDeFiConfig.cacheTtl := Some 0;
                   HederaDeFiConfig.bonzoApi := None;
                   HederaDeFiConfig.saucerswapApi := None;
                   HederaDeFiConfig.timeout := None |}))))))).
    reflexivity. }
  split; [simpl; lia|].
  apply (proj2 (proj2 (proj2 (proj2 (proj2 (proj2 (configuration_defaults default_config))))))).
  - simpl. lia.
  - intros entry Hentry. unfold client_of in Hentry. simpl in Hentry.
    rewrite lookup_insert_eq in Hentry. injection Hentry as <-. simpl. lia.
Defined.
